(** * The bundle registry of the engine ([src/bundles/bundle-registry.js])

    A shallow embedding of [pc.BundleRegistry] and the properties of its
    indices, its pending request queue and its notification handlers.

    Conventions of the embedding:
    - a JavaScript object used as a map is the association list of its own
      properties in creation order; [for (k in o)] visits the keys that are
      array indices in ascending order of index, then the other keys in
      creation order ([for_in]); a read [this._urlsInBundles[url]] finds an
      own property or else a member of [Object.prototype];
    - asset ids are numbers, held as the property keys they are used as, so
      that no id is the name of a member of [Object.prototype]; no URL under
      which an asset is indexed or a request is queued is [__proto__], whose
      assignment would replace the prototype of the index;
    - the arrays stored in [_assetsInBundles] and aliased by
      [_urlsInBundles] live in a heap and are referred to by location,
      so that [===] on them is equality of locations;
    - asset objects are referred to by reference; their fields are read
      from the environment at the time of the call, because the asset
      registry, not this code, changes them;
    - continuations are opaque: invoking one is recorded in a log, and a
      continuation neither throws nor calls back into the registry;
    - an exception is a [Throw] result that carries the state reached. *)

From Stdlib Require Import Ascii String Sorted.
From stdpp Require Import base list strings option pretty.

Open Scope string_scope.
Open Scope list_scope.

(** ** JavaScript objects used as maps *)

Abbreviation jsobj V := (list (string * V)).

Section jsobj.
Context {V : Type}.
Implicit Types (o : jsobj V) (k : string) (v : V).

(** [o[k]] *)
Fixpoint obj_get k o : option V :=
  match o with
  | [] => None
  | (k', v) :: o' => if decide (k = k') then Some v else obj_get k o'
  end.

(** [o[k] = v]: an existing property keeps its place, a new one is
    created last. *)
Fixpoint obj_set k v o : jsobj V :=
  match o with
  | [] => [(k, v)]
  | (k', v') :: o' =>
      if decide (k = k') then (k, v) :: o' else (k', v') :: obj_set k v o'
  end.

(** [delete o[k]] *)
Definition obj_delete k o : jsobj V := filter (λ kv, kv.1 ≠ k) o.

(** The keys of the own properties, in creation order. *)
Definition obj_keys o : list string := o.*1.

(** [Object.prototype.hasOwnProperty.call(o, k)] *)
Definition hasOwnProperty k o : bool := bool_decide (is_Some (obj_get k o)).

(** The value of a decimal digit. *)
Definition digit (c : ascii) : option N :=
  let n := N_of_ascii c in
  if decide (48 ≤ n ≤ 57)%N then Some (n - 48)%N else None.

Fixpoint parse_digits (acc : N) (s : string) : option N :=
  match s with
  | EmptyString => Some acc
  | String c s' =>
      match digit c with
      | Some d => parse_digits (10 * acc + d)%N s'
      | None => None
      end
  end.

(** A property key that is an array index: the decimal numeral, without
    leading zero, of an integer below [2^32 - 1]. *)
Definition array_index (k : string) : option N :=
  match k with
  | EmptyString => None
  | String c rest =>
      if decide (c = "0"%char ∧ rest ≠ EmptyString) then None
      else
        match parse_digits 0 k with
        | Some n => if decide (n < 4294967295)%N then Some n else None
        | None => None
        end
  end.

(** [e], whose key is the array index [n], at its place among properties
    sorted by index. *)
Fixpoint insert_index (n : N) (e : string * V) (l : list (N * (string * V)))
    : list (N * (string * V)) :=
  match l with
  | [] => [(n, e)]
  | (m, e') :: l' =>
      if decide (n < m)%N then (n, e) :: l else (m, e') :: insert_index n e l'
  end.

Definition index_entries o : list (N * (string * V)) :=
  foldl (λ acc e,
           match array_index e.1 with
           | Some n => insert_index n e acc
           | None => acc
           end) [] o.

(** The properties in the order in which [for (k in o)] visits them: those
    whose key is an array index in ascending order of index, then the
    others in creation order. *)
Definition for_in_entries o : jsobj V :=
  (index_entries o).*2 ++ filter (λ e, array_index e.1 = None) o.

(** The keys [for (k in o)] visits, in order. *)
Definition for_in o : list string := obj_keys (for_in_entries o).
End jsobj.

(** ** Strings *)

(** [s.split('?')[0]]: what precedes the first question mark. *)
Fixpoint before_query (s : string) : string :=
  match s with
  | EmptyString => EmptyString
  | String c s' =>
      if decide (c = "?"%char) then EmptyString else String c (before_query s')
  end.

(** What follows [pat] in [s], when [s] starts with [pat]. *)
Fixpoint strip_prefix (pat s : string) : option string :=
  match pat, s with
  | EmptyString, _ => Some s
  | String _ _, EmptyString => None
  | String a pat', String c s' =>
      if decide (a = c) then strip_prefix pat' s' else None
  end.

(** [s.replace(pat, rep)] for a string pattern: the first occurrence of
    [pat] is replaced (the replacements used here contain no [$]). *)
Fixpoint replace (pat rep s : string) : string :=
  match strip_prefix pat s with
  | Some rest => rep +:+ rest
  | None =>
      match s with
      | EmptyString => EmptyString
      | String c s' => String c (replace pat rep s')
      end
  end.

(** ** Assets, as the registry reads them *)

Definition Ref := nat.
Definition Loc := nat.
Definition Callback := nat.

(** [asset.resource] of a bundle: an object with a [getBlobUrl] method. *)
Record Resource := { getBlobUrl : string → string }.

Module Asset.
Record t := {
  id : string;                  (* asset.id, as the property key it is used as *)
  type : string;                (* asset.type *)
  data_assets : list string;    (* asset.data.assets, of a bundle *)
  data_info_maps_length : nat;  (* asset.data.info.maps.length, of a font *)
  getFileUrl : option string;   (* asset.getFileUrl(): null or a string *)
  loaded : bool;
  loading : bool;
  resource : option Resource;
}.
End Asset.

(** What the registry reads from outside at the time of a call: the asset
    objects, [this._assets.get] and the built-in [decodeURIComponent], which
    throws a URIError ([None]) on a malformed escape sequence. *)
Record Env := {
  objects : Ref → Asset.t;
  get : string → option Ref;
  decodeURIComponent : string → option string;
}.

(** ** The registry *)

Inductive Handler :=
  OnAssetAdded | OnAssetRemoved | OnBundleLoaded | OnBundleError.

Global Instance Handler_eq_dec : EqDecision Handler.
Proof. solve_decision. Defined.

(** One invocation of a continuation: [callback(err)] has no second
    argument, [callback(null, blobUrl)] has no error. *)
Record Call := {
  call_callback : Callback;
  call_err : option string;
  call_blobUrl : option string;
}.

Record State := {
  _bundleAssets : jsobj Ref;
  _assetsInBundles : jsobj Loc;
  (* a property of [_urlsInBundles] holds what [_assetsInBundles[asset.id]]
     was when it was written: an array or undefined *)
  _urlsInBundles : jsobj (option Loc);
  _fileRequests : jsobj (list Callback);
  (* the heap of arrays of bundle assets *)
  arrays : list (list Ref);
  (* the listeners of [this._assets] *)
  listeners : list (string * Handler);
  (* the continuations invoked so far *)
  calls : list Call;
}.

Definition set_bundleAssets (f : jsobj Ref → jsobj Ref) (s : State) : State :=
  {| _bundleAssets := f (_bundleAssets s);
     _assetsInBundles := _assetsInBundles s;
     _urlsInBundles := _urlsInBundles s;
     _fileRequests := _fileRequests s;
     arrays := arrays s; listeners := listeners s; calls := calls s |}.

Definition set_assetsInBundles (f : jsobj Loc → jsobj Loc) (s : State) : State :=
  {| _bundleAssets := _bundleAssets s;
     _assetsInBundles := f (_assetsInBundles s);
     _urlsInBundles := _urlsInBundles s;
     _fileRequests := _fileRequests s;
     arrays := arrays s; listeners := listeners s; calls := calls s |}.

Definition set_urlsInBundles
    (f : jsobj (option Loc) → jsobj (option Loc)) (s : State) : State :=
  {| _bundleAssets := _bundleAssets s;
     _assetsInBundles := _assetsInBundles s;
     _urlsInBundles := f (_urlsInBundles s);
     _fileRequests := _fileRequests s;
     arrays := arrays s; listeners := listeners s; calls := calls s |}.

Definition set_fileRequests
    (f : jsobj (list Callback) → jsobj (list Callback)) (s : State) : State :=
  {| _bundleAssets := _bundleAssets s;
     _assetsInBundles := _assetsInBundles s;
     _urlsInBundles := _urlsInBundles s;
     _fileRequests := f (_fileRequests s);
     arrays := arrays s; listeners := listeners s; calls := calls s |}.

Definition set_arrays (f : list (list Ref) → list (list Ref)) (s : State) : State :=
  {| _bundleAssets := _bundleAssets s;
     _assetsInBundles := _assetsInBundles s;
     _urlsInBundles := _urlsInBundles s;
     _fileRequests := _fileRequests s;
     arrays := f (arrays s); listeners := listeners s; calls := calls s |}.

Definition set_listeners
    (f : list (string * Handler) → list (string * Handler)) (s : State) : State :=
  {| _bundleAssets := _bundleAssets s;
     _assetsInBundles := _assetsInBundles s;
     _urlsInBundles := _urlsInBundles s;
     _fileRequests := _fileRequests s;
     arrays := arrays s; listeners := f (listeners s); calls := calls s |}.

(** [callback(err, blobUrl)] *)
Definition invoke (c : Callback) (err blobUrl : option string) (s : State) : State :=
  {| _bundleAssets := _bundleAssets s;
     _assetsInBundles := _assetsInBundles s;
     _urlsInBundles := _urlsInBundles s;
     _fileRequests := _fileRequests s;
     arrays := arrays s; listeners := listeners s;
     calls := calls s ++ [ {| call_callback := c; call_err := err; call_blobUrl := blobUrl |} ] |}.

(** Modelled from the spec: the [on] and [off] of the asset registry's event
    emitter, which is not among the sources; [on] subscribes a handler to an
    event name and [off] removes the subscriptions of that handler to that
    name. The scope argument is always the registry itself. *)
Definition on (name : string) (h : Handler) (s : State) : State :=
  set_listeners (λ ls, ls ++ [(name, h)]) s.

Definition off (name : string) (h : Handler) (s : State) : State :=
  set_listeners (filter (λ l, l ≠ (name, h))) s.

(** Exceptions. *)
Inductive Exn := TypeError | URIError.

Global Instance Exn_eq_dec : EqDecision Exn.
Proof. solve_decision. Defined.

(** What a statement leaves: the state, returned or thrown. *)
Inductive Result := Ok (s : State) | Throw (e : Exn) (s : State).

(** What an expression gives: a value, or an exception. *)
Inductive Completion (A : Type) : Type :=
  | Return (a : A)
  | Raise (e : Exn).

Arguments Return {A} a.
Arguments Raise {A} e.

Global Instance Completion_eq_dec {A : Type} `{EqDecision A} : EqDecision (Completion A).
Proof. solve_decision. Defined.

Definition bind (r : Result) (k : State → Result) : Result :=
  match r with
  | Ok s => k s
  | Throw e s => Throw e s
  end.


(** The state a result leaves, thrown or not. *)
Definition outcome (r : Result) : State :=
  match r with
  | Ok s => s
  | Throw _ s => s
  end.

(** A loop whose body may throw. *)
Fixpoint for_each {A : Type} (l : list A) (body : A → State → Result) (s : State) : Result :=
  match l with
  | [] => Ok s
  | x :: l' => bind (body x s) (for_each l' body)
  end.

(** [new BundleRegistry(assets)] *)
Definition BundleRegistry : State :=
  on "remove" OnAssetRemoved
    (on "add" OnAssetAdded
       {| _bundleAssets := []; _assetsInBundles := []; _urlsInBundles := [];
          _fileRequests := []; arrays := []; listeners := []; calls := [] |}).

(** [array.indexOf(x)], with [None] for -1. *)
Definition indexOf (x : Ref) (array : list Ref) : option nat :=
  fst <$> list_find (λ y, y = x) array.

Definition _normalizeUrl (url : string) : string := before_query url.

(** The URL of texture page [i] of a font: [url.replace('.png', i + '.png')]. *)
Definition page_url (url : string) (i : nat) : string :=
  replace ".png" (pretty i +:+ ".png") url.

Definition _getAssetFileUrls (a : Asset.t) : option (list string) :=
  match Asset.getFileUrl a with
  | None => None
  | Some url =>
      if decide (url = "") then None
      else
        let url := _normalizeUrl url in
        if decide (Asset.type a = "font") then
          let numFiles := Asset.data_info_maps_length a in
          Some ([url] ++ (page_url url <$> seq 1 (numFiles - 1)))
        else Some [url]
  end.

Definition _indexAssetFileUrls (w : Env) (asset : Ref) (s : State) : State :=
  match _getAssetFileUrls (objects w asset) with
  | None => s
  | Some urls =>
      foldl (λ s url,
               set_urlsInBundles
                 (obj_set url (obj_get (Asset.id (objects w asset)) (_assetsInBundles s))) s)
            s urls
  end.

Definition _indexAssetInBundle (w : Env) (assetId : string) (bundleAsset : Ref)
    (s : State) : State :=
  let s :=
    match obj_get assetId (_assetsInBundles s) with
    | None =>
        set_assetsInBundles (obj_set assetId (length (arrays s)))
          (set_arrays (λ h, h ++ [[bundleAsset]]) s)
    | Some loc =>
        let bundles := arrays s !!! loc in
        match indexOf bundleAsset bundles with
        | None => set_arrays (<[loc := bundles ++ [bundleAsset]]>) s
        | Some _ => s
        end
    end in
  match get w assetId with
  | Some asset => _indexAssetFileUrls w asset s
  | None => s
  end.

Definition _onAssetAdded (w : Env) (asset : Ref) (s : State) : State :=
  let a := objects w asset in
  if decide (Asset.type a = "bundle") then
    let s := set_bundleAssets (obj_set (Asset.id a) asset) s in
    let s := on ("load:" +:+ Asset.id a) OnBundleLoaded s in
    let s := on ("error:" +:+ Asset.id a) OnBundleError s in
    foldl (λ s assetId, _indexAssetInBundle w assetId asset s) s (Asset.data_assets a)
  else
    match obj_get (Asset.id a) (_assetsInBundles s) with
    | Some _ => _indexAssetFileUrls w asset s
    | None => s
    end.

(** The inner loop of [_onAssetRemoved]: every property of [_urlsInBundles]
    that holds the array at [loc] is deleted. *)
Definition purge_urls (loc : Loc) (urls : jsobj (option Loc)) : jsobj (option Loc) :=
  foldl (λ o url,
           if decide (obj_get url o = Some (Some loc)) then obj_delete url o else o)
        urls (for_in urls).

(** One round of the outer loop of [_onAssetRemoved] over [_assetsInBundles]. *)
Definition remove_bundle_from (asset : Ref) (id : string) (s : State) : State :=
  match obj_get id (_assetsInBundles s) with
  | None => s
  | Some loc =>
      let array := arrays s !!! loc in
      match indexOf asset array with
      | None => s
      | Some idx =>
          let array' := delete idx array in
          let s := set_arrays (<[loc := array']>) s in
          match array' with
          | [] =>
              set_urlsInBundles (purge_urls loc)
                (set_assetsInBundles (obj_delete id) s)
          | _ :: _ => s
          end
      end
  end.

Definition _onAssetRemoved (w : Env) (asset : Ref) (s : State) : Result :=
  let a := objects w asset in
  if decide (Asset.type a = "bundle") then
    let s := set_bundleAssets (obj_delete (Asset.id a)) s in
    let s := off ("load:" +:+ Asset.id a) OnBundleLoaded s in
    let s := off ("error:" +:+ Asset.id a) OnBundleError s in
    Ok (foldl (λ s id, remove_bundle_from asset id s) s (for_in (_assetsInBundles s)))
  else
    match obj_get (Asset.id a) (_assetsInBundles s) with
    | Some _ =>
        let s := set_assetsInBundles (obj_delete (Asset.id a)) s in
        match _getAssetFileUrls a with
        | None => Throw TypeError s          (* urls.length of null *)
        | Some urls =>
            Ok (foldl (λ s url, set_urlsInBundles (obj_delete url) s) s urls)
        end
    | None => Ok s
    end.

Definition is_loaded (w : Env) (b : Ref) : bool :=
  Asset.loaded (objects w b) && bool_decide (is_Some (Asset.resource (objects w b))).

Definition is_loading (w : Env) (b : Ref) : bool := Asset.loading (objects w b).

(** The members of [Object.prototype], which a plain object inherits, with
    the [length] of each: a method has the number of its parameters
    ([constructor] is [Object]), and the object that [__proto__] gives,
    [Object.prototype] itself, has none. None of them is enumerable, and
    none has a property [indexOf] or a property at an index. *)
Definition Object_prototype : jsobj (option nat) :=
  [ ("constructor", Some 1); ("__defineGetter__", Some 2); ("__defineSetter__", Some 2);
    ("hasOwnProperty", Some 1); ("__lookupGetter__", Some 1); ("__lookupSetter__", Some 1);
    ("isPrototypeOf", Some 1); ("propertyIsEnumerable", Some 1); ("toString", Some 0);
    ("valueOf", Some 0); ("__proto__", None); ("toLocaleString", Some 0) ].

(** The value of [this._urlsInBundles[url]]: an array of bundles,
    [undefined], or a member of [Object.prototype] with its [length]. *)
Inductive Value :=
  | Bundles (loc : Loc)
  | Undefined
  | Member (length : option nat).

Definition urlsInBundles_get (url : string) (s : State) : Value :=
  match obj_get url (_urlsInBundles s) with
  | Some (Some loc) => Bundles loc
  | Some None => Undefined
  | None =>
      match obj_get url Object_prototype with
      | Some length => Member length
      | None => Undefined
      end
  end.

Definition _findLoadedOrLoadingBundleForUrl (w : Env) (url : string) (s : State)
    : Completion (option Ref) :=
  match urlsInBundles_get url s with
  | Undefined => Return None
  | Bundles loc =>
      let bundles := arrays s !!! loc in
      match find (is_loaded w) bundles with
      | Some b => Return (Some b)
      | None => Return (find (is_loading w) bundles)
      end
  | Member (Some (S _)) => Raise TypeError   (* bundles[0].loaded of undefined *)
  | Member _ => Return None                  (* the loops run over no index *)
  end.

(** One round of the loop of [_onBundleError] over [_fileRequests]. *)
Definition fail_requests_for (w : Env) (err : string) (url : string) (s : State) : Result :=
  match obj_get url (_fileRequests s) with
  | None => Ok s
  | Some requests =>
      match _findLoadedOrLoadingBundleForUrl w url s with
      | Raise e => Throw e s
      | Return (Some _) => Ok s
      | Return None =>
          Ok (set_fileRequests (obj_delete url)
                (foldl (λ s r, invoke r (Some err) None s) s requests))
      end
  end.

Definition _onBundleError (w : Env) (err : string) (bundleAsset : Ref) (s : State) : Result :=
  for_each (for_in (_fileRequests s)) (fail_requests_for w err) s.

(** [requests[i](null, bundleAsset.resource.getBlobUrl(decodeURIComponent(url)))] *)
Definition resolve_request (w : Env) (res : Resource) (url : string) (r : Callback)
    (s : State) : Result :=
  match decodeURIComponent w url with
  | None => Throw URIError s
  | Some path => Ok (invoke r None (Some (getBlobUrl res path)) s)
  end.

(** One round of the loop of [_onBundleLoaded] over [_fileRequests]. *)
Definition resolve_requests_for (w : Env) (bundleAsset : Ref) (res : Resource)
    (url : string) (s : State) : Result :=
  match obj_get url (_fileRequests s) with
  | None => Ok s
  | Some requests =>
      match urlsInBundles_get url s with
      | Undefined => Ok s
      | Member _ => Throw TypeError s        (* bundles.indexOf is not a function *)
      | Bundles loc =>
          match indexOf bundleAsset (arrays s !!! loc) with
          | None => Ok s
          | Some _ =>
              bind (for_each requests (resolve_request w res url) s)
                   (λ s, Ok (set_fileRequests (obj_delete url) s))
          end
      end
  end.

Definition _onBundleLoaded (w : Env) (bundleAsset : Ref) (s : State) : Result :=
  match Asset.resource (objects w bundleAsset) with
  | None =>
      _onBundleError w
        ("Bundle " +:+ Asset.id (objects w bundleAsset) +:+ " failed to load")
        bundleAsset s
  | Some res =>
      for_each (for_in (_fileRequests s)) (resolve_requests_for w bundleAsset res) s
  end.

Definition listBundlesForAsset (w : Env) (asset : Ref) (s : State) : list Ref :=
  match obj_get (Asset.id (objects w asset)) (_assetsInBundles s) with
  | Some loc => arrays s !!! loc
  | None => []
  end.

(** [list()] *)
Definition list' (s : State) : list Ref := (for_in_entries (_bundleAssets s)).*2.

(** [!!this._urlsInBundles[url]]: an array and a member of
    [Object.prototype] are truthy. *)
Definition hasUrl (url : string) (s : State) : bool :=
  match urlsInBundles_get url s with
  | Undefined => false
  | Bundles _ | Member _ => true
  end.

Definition canLoadUrl (w : Env) (url : string) (s : State) : Completion bool :=
  match _findLoadedOrLoadingBundleForUrl w url s with
  | Return bundle => Return (bool_decide (is_Some bundle))
  | Raise e => Raise e
  end.

Definition loadUrl (w : Env) (url : string) (callback : Callback) (s : State) : Result :=
  match _findLoadedOrLoadingBundleForUrl w url s with
  | Raise e => Throw e s
  | Return None =>
      Ok (invoke callback (Some ("URL " +:+ url +:+ " not found in any bundles")) None s)
  | Return (Some bundle) =>
      if Asset.loaded (objects w bundle) then
        match Asset.resource (objects w bundle) with
        | None => Throw TypeError s          (* getBlobUrl of null *)
        | Some res =>
            match decodeURIComponent w url with
            | None => Throw URIError s
            | Some path => Ok (invoke callback None (Some (getBlobUrl res path)) s)
            end
        end
      else
        (* [this._fileRequests.hasOwnProperty] is the method of
           [Object.prototype] unless a queue is held under that name *)
        match obj_get "hasOwnProperty" (_fileRequests s) with
        | Some _ => Throw TypeError s        (* a queue is not a function *)
        | None =>
            if hasOwnProperty url (_fileRequests s) then
              (* this._fileRequests[url].push(callback) *)
              Ok (set_fileRequests
                    (obj_set url (default [] (obj_get url (_fileRequests s)) ++ [callback])) s)
            else Ok (set_fileRequests (obj_set url [callback]) s)
        end
  end.

(** What is left of the registry after [destroy]: its five fields are null,
    and the asset registry keeps the listeners it has. *)
Record Destroyed := {
  listeners_left : list (string * Handler);
  calls_made : list Call;
}.

Definition destroy (s : State) : Destroyed :=
  let s := off "add" OnAssetAdded s in
  let s := off "remove" OnAssetRemoved s in
  let s :=
    foldl (λ s id,
             on ("error:" +:+ id) OnBundleError (on ("load:" +:+ id) OnBundleLoaded s))
          s (for_in (_bundleAssets s)) in
  {| listeners_left := listeners s; calls_made := calls s |}.

(** ** Descriptions of what the handlers do *)

(** The calls a loop over a queue of continuations makes. *)
Definition calls_of (err blobUrl : option string) (requests : list Callback) : list Call :=
  (λ r, {| call_callback := r; call_err := err; call_blobUrl := blobUrl |}) <$> requests.

(** What [_onBundleError] does with one property of [_fileRequests]. *)
Definition failed_calls (w : Env) (err : string) (s : State)
    (e : string * list Callback) : list Call :=
  match canLoadUrl w e.1 s with
  | Return false => calls_of (Some err) None e.2
  | _ => []
  end.

(** [bundles.indexOf(bundleAsset) !== -1] for the bundles of a URL. *)
Definition covers (bundleAsset : Ref) (url : string) (s : State) : bool :=
  match obj_get url (_urlsInBundles s) with
  | Some (Some loc) => bool_decide (bundleAsset ∈ arrays s !!! loc)
  | _ => false
  end.

(** What [_onBundleLoaded] does with one property of [_fileRequests]. *)
Definition resolved_calls (w : Env) (bundleAsset : Ref) (res : Resource) (s : State)
    (e : string * list Callback) : list Call :=
  if covers bundleAsset e.1 s then
    match decodeURIComponent w e.1 with
    | Some path => calls_of None (Some (getBlobUrl res path)) e.2
    | None => []
    end
  else [].

(** The bundles of a URL, in the order of their array. *)
Definition bundles_of (url : string) (s : State) : list Ref :=
  match obj_get url (_urlsInBundles s) with
  | Some (Some loc) => arrays s !!! loc
  | _ => []
  end.

(** [b] is the first element of [l] that satisfies [P]. *)
Definition first_match (P : Ref → bool) (l : list Ref) (b : Ref) : Prop :=
  ∃ l1 l2, l = l1 ++ b :: l2 ∧ P b = true ∧ ∀ x, x ∈ l1 → P x = false.

(** A bundle of the URL is loaded with a resource, or is being loaded. *)
Definition survivor (w : Env) (url : string) (s : State) : Prop :=
  ∃ b, b ∈ bundles_of url s ∧ (is_loaded w b = true ∨ is_loading w b = true).

(** The URL has no property of its own in [_urlsInBundles] and is the name
    of a member of [Object.prototype], which a read of the index then
    finds. *)
Definition reads_member (url : string) (s : State) : Prop :=
  obj_get url (_urlsInBundles s) = None ∧ is_Some (obj_get url Object_prototype).

(** The member so found is a method with parameters: its [length] is
    positive, and it has nothing at index [0]. *)
Definition reads_method (url : string) (s : State) : Prop :=
  obj_get url (_urlsInBundles s) = None ∧
  ∃ n, obj_get url Object_prototype = Some (Some (S n)).

(** ** The invariant of the indices *)

(** The bundles [_assetsInBundles] holds for an asset id. *)
Definition bundles_by_id (id : string) (s : State) : list Ref :=
  match obj_get id (_assetsInBundles s) with
  | Some loc => arrays s !!! loc
  | None => []
  end.

(** The asset ids are distinct properties of [_assetsInBundles], each with an
    array of its own, allocated in the heap, in which no bundle occurs twice;
    the URLs of the request queue are distinct properties. *)
Record wf (s : State) : Prop := {
  wf_ids : NoDup (obj_keys (_assetsInBundles s));
  wf_own : NoDup (_assetsInBundles s).*2;
  wf_alloc : ∀ id loc, obj_get id (_assetsInBundles s) = Some loc → loc < length (arrays s);
  wf_once : ∀ id loc, obj_get id (_assetsInBundles s) = Some loc → NoDup (arrays s !!! loc);
  wf_requests : NoDup (obj_keys (_fileRequests s));
}.

(** What the removal of the bundle [b] leaves of [_urlsInBundles s0], once
    the arrays at [locs] have been visited. *)
Definition urls_after (b : Ref) (s0 : State) (locs : list Loc) (url : string)
    : option (option Loc) :=
  match obj_get url (_urlsInBundles s0) with
  | Some (Some loc) =>
      if decide (loc ∈ locs ∧ arrays s0 !!! loc = [b]) then None else Some (Some loc)
  | v => v
  end.

(** [l], with [b] added last unless it is there. *)
Definition add_once (b : Ref) (l : list Ref) : list Ref :=
  if decide (b ∈ l) then l else l ++ [b].

(** The URLs of [_urlsInBundles] have no query string. *)
Definition urls_normalized (s : State) : Prop :=
  ∀ k, k ∈ obj_keys (_urlsInBundles s) → _normalizeUrl k = k.

(** The states of the registry: the constructor, then any notification or
    call, in any environment, whether it returns or throws. *)
Inductive reachable : State → Prop :=
  | reach_new : reachable BundleRegistry
  | reach_added w asset s :
      reachable s → reachable (_onAssetAdded w asset s)
  | reach_removed w asset s :
      reachable s → reachable (outcome (_onAssetRemoved w asset s))
  | reach_loaded w bundleAsset s :
      reachable s → reachable (outcome (_onBundleLoaded w bundleAsset s))
  | reach_error w err bundleAsset s :
      reachable s → reachable (outcome (_onBundleError w err bundleAsset s))
  | reach_loadUrl w url callback s :
      reachable s → reachable (outcome (loadUrl w url callback s)).

(** ** What the further properties speak of *)

(** No array of [_assetsInBundles] is empty. *)
Definition sets_nonempty (s : State) : Prop :=
  ∀ id loc, obj_get id (_assetsInBundles s) = Some loc → arrays s !!! loc ≠ [].

(** No URL of [_urlsInBundles] holds an empty array. *)
Definition urls_nonempty (s : State) : Prop :=
  ∀ url loc, obj_get url (_urlsInBundles s) = Some (Some loc) → arrays s !!! loc ≠ [].

(** No queue of [_fileRequests] is empty. *)
Definition queues_nonempty (s : State) : Prop :=
  ∀ url requests, obj_get url (_fileRequests s) = Some requests → requests ≠ [].

(** The number of continuations that are queued. *)
Definition queued (requests : jsobj (list Callback)) : nat :=
  sum_list (length <$> requests.*2).

Definition pending (s : State) : nat := queued (_fileRequests s).

(** [this._assets.get(id)] returns an asset whose id is [id]. *)
Definition get_by_id (w : Env) : Prop :=
  ∀ id asset, get w id = Some asset → Asset.id (objects w asset) = id.

(** ** A small world to run the registry in

    Bundle "1" (reference 0) lists the assets "10", "11" and "12": a texture
    (reference 1), a font of three pages (reference 2) and an asset that has
    no file (reference 3). *)

Definition ex_res : Resource := {| getBlobUrl := λ path, "blob:" +:+ path |}.

Definition ex_bundle (loaded loading : bool) (resource : option Resource) : Asset.t :=
  {| Asset.id := "1"; Asset.type := "bundle";
     Asset.data_assets := ["10"; "11"; "12"];
     Asset.data_info_maps_length := 0; Asset.getFileUrl := Some "bundle.tar";
     Asset.loaded := loaded; Asset.loading := loading; Asset.resource := resource |}.

Definition ex_tex : Asset.t :=
  {| Asset.id := "10"; Asset.type := "texture"; Asset.data_assets := [];
     Asset.data_info_maps_length := 0; Asset.getFileUrl := Some "tex.png?t=3";
     Asset.loaded := false; Asset.loading := false; Asset.resource := None |}.

Definition ex_font (pages : nat) (url : string) : Asset.t :=
  {| Asset.id := "11"; Asset.type := "font"; Asset.data_assets := [];
     Asset.data_info_maps_length := pages; Asset.getFileUrl := Some url;
     Asset.loaded := false; Asset.loading := false; Asset.resource := None |}.

Definition ex_nofile : Asset.t :=
  {| Asset.id := "12"; Asset.type := "json"; Asset.data_assets := [];
     Asset.data_info_maps_length := 0; Asset.getFileUrl := None;
     Asset.loaded := false; Asset.loading := false; Asset.resource := None |}.

Definition ex_env (bundle font : Asset.t) : Env :=
  {| objects := λ r, match r with 0 => bundle | 1 => ex_tex | 2 => font | _ => ex_nofile end;
     get := λ i,
       if decide (i = "10") then Some 1
       else if decide (i = "11") then Some 2
       else if decide (i = "12") then Some 3
       else None;
     decodeURIComponent := λ url, Some url |}.

Definition ex_loading : Env := ex_env (ex_bundle false true None) (ex_font 3 "font.png").
Definition ex_loaded : Env := ex_env (ex_bundle true false (Some ex_res)) (ex_font 3 "font.png").
Definition ex_errored : Env := ex_env (ex_bundle true false None) (ex_font 3 "font.png").

(** The registry after the bundle has been added. *)
Definition ex_added : State := _onAssetAdded ex_loading 0 BundleRegistry.

(** Worlds for the font scenarios: the bundle is added before its assets are
    registered, then the font is. *)
Definition ex_unregistered : Env :=
  {| objects := objects ex_loading; get := λ _, None;
     decodeURIComponent := decodeURIComponent ex_loading |}.

Definition ex_json_font : Env :=
  ex_env (ex_bundle false true None) (ex_font 3 "font.json").

Definition ex_bundle_only : State := _onAssetAdded ex_unregistered 0 BundleRegistry.

(** The registry with the bundle added and a request for the texture queued. *)
Definition ex_queued : State := outcome (loadUrl ex_loading "tex.png" 7 ex_added).

(** The world of the loaded bundle, with a [decodeURIComponent] that rejects
    every URL. *)
Definition ex_undecodable : Env :=
  {| objects := objects ex_loaded; get := get ex_loaded;
     decodeURIComponent := λ _, None |}.

(** A second bundle, "2" (reference 4), that lists the texture too. *)
Definition ex_bundle2 (loaded loading : bool) (resource : option Resource) : Asset.t :=
  {| Asset.id := "2"; Asset.type := "bundle"; Asset.data_assets := ["10"];
     Asset.data_info_maps_length := 0; Asset.getFileUrl := Some "bundle2.tar";
     Asset.loaded := loaded; Asset.loading := loading; Asset.resource := resource |}.

Definition ex_env2 (bundle1 bundle2 : Asset.t) : Env :=
  {| objects := λ r,
       match r with
       | 0 => bundle1 | 1 => ex_tex | 2 => ex_font 3 "font.png" | 4 => bundle2
       | _ => ex_nofile
       end;
     get := get ex_loading;
     decodeURIComponent := λ url, Some url |}.

Definition ex_both_loading : Env :=
  ex_env2 (ex_bundle false true None) (ex_bundle2 false true None).
Definition ex_first_failed : Env :=
  ex_env2 (ex_bundle true false None) (ex_bundle2 false true None).
Definition ex_second_loaded : Env :=
  ex_env2 (ex_bundle true false None) (ex_bundle2 true false (Some ex_res)).

(** Both bundles are added, then the texture is requested. *)
Definition ex_two : State :=
  _onAssetAdded ex_both_loading 4 (_onAssetAdded ex_both_loading 0 BundleRegistry).

Definition ex_two_queued : State := outcome (loadUrl ex_both_loading "tex.png" 7 ex_two).




(** A world in which the file of asset "11" is named as a method of
    [Object.prototype]: the bundle is added, the file is requested while the
    bundle is loading, and the asset is removed. *)
Definition ex_named (bundle : Asset.t) : Env := ex_env bundle (ex_font 1 "constructor").

Definition ex_named_loading : Env := ex_named (ex_bundle false true None).
Definition ex_named_errored : Env := ex_named (ex_bundle true false None).

Definition ex_named_added : State := _onAssetAdded ex_named_loading 0 BundleRegistry.

Definition ex_named_queued : State :=
  outcome (loadUrl ex_named_loading "constructor" 7 ex_named_added).

Definition ex_named_removed : State :=
  outcome (_onAssetRemoved ex_named_loading 2 ex_named_queued).





(** * Properties *)

(** ** Objects *)

Section jsobj_facts.
Context {V : Type}.
Implicit Types (o : jsobj V) (k : string) (v : V).

Lemma obj_get_set_eq k v o : obj_get k (obj_set k v o) = Some v.
Proof.
  induction o as [|[k' v'] o IH]; simpl.
  - by rewrite decide_True.
  - destruct (decide (k = k')) as [->|Hne]; simpl.
    + by rewrite decide_True.
    + by rewrite decide_False.
Qed.

Lemma obj_get_set_ne k k' v o :
  k ≠ k' → obj_get k' (obj_set k v o) = obj_get k' o.
Proof.
  intros Hne. induction o as [|[k0 v0] o IH]; simpl.
  - rewrite decide_False; [done|congruence].
  - destruct (decide (k = k0)) as [->|Hk]; simpl.
    + rewrite !decide_False; [done|congruence..].
    + by rewrite IH.
Qed.

Lemma obj_get_delete k k' o :
  obj_get k' (obj_delete k o) = if decide (k' = k) then None else obj_get k' o.
Proof.
  unfold obj_delete. induction o as [|[k0 v0] o IH].
  - simpl. by destruct (decide (k' = k)).
  - rewrite filter_cons. cbn [fst]. destruct (decide (k0 ≠ k)) as [Hk|Hk]; cbn [obj_get].
    + rewrite IH. destruct (decide (k' = k)) as [->|]; [|done].
      rewrite decide_False; [done|congruence].
    + apply dec_stable in Hk as ->. rewrite IH.
      by destruct (decide (k' = k)).
Qed.

Lemma obj_get_delete_eq k o : obj_get k (obj_delete k o) = None.
Proof. rewrite obj_get_delete. by rewrite decide_True. Qed.

Lemma obj_get_delete_ne k k' o :
  k' ≠ k → obj_get k' (obj_delete k o) = obj_get k' o.
Proof. intros. rewrite obj_get_delete. by rewrite decide_False. Qed.

Lemma obj_get_None k o : obj_get k o = None ↔ k ∉ obj_keys o.
Proof.
  unfold obj_keys. induction o as [|[k' v'] o IH].
  - split; [intros _; apply not_elem_of_nil|done].
  - rewrite fmap_cons, not_elem_of_cons. cbn [obj_get fst].
    destruct (decide (k = k')) as [->|Hne].
    + split; [done|tauto].
    + rewrite IH. tauto.
Qed.

Lemma obj_get_Some_key k v o : obj_get k o = Some v → k ∈ obj_keys o.
Proof.
  intros H. destruct (decide (k ∈ obj_keys o)) as [|Hn]; [done|].
  apply obj_get_None in Hn. congruence.
Qed.

Lemma obj_get_elem k v o : obj_get k o = Some v → (k, v) ∈ o.
Proof.
  induction o as [|[k' v'] o IH]; simpl; [done|].
  destruct (decide (k = k')) as [->|]; intros H.
  - injection H as ->. left.
  - right. by apply IH.
Qed.

Lemma obj_get_of_elem k v o : NoDup (obj_keys o) → (k, v) ∈ o → obj_get k o = Some v.
Proof.
  unfold obj_keys. induction o as [|[k' v'] o IH]; intros Hnd Hin.
  - by apply not_elem_of_nil in Hin.
  - rewrite fmap_cons in Hnd. apply NoDup_cons in Hnd as [Hnin Hnd].
    cbn [obj_get]. apply elem_of_cons in Hin as [[= -> ->]|Hin].
    + by rewrite decide_True.
    + rewrite decide_False; [by apply IH|].
      intros ->. apply Hnin. apply list_elem_of_fmap. by exists (k', v).
Qed.


Lemma obj_delete_notin k o : k ∉ obj_keys o → obj_delete k o = o.
Proof.
  unfold obj_keys, obj_delete. induction o as [|[k' v'] o IH]; [done|].
  rewrite fmap_cons, not_elem_of_cons. cbn [fst]. intros [Hne Hnin].
  rewrite filter_cons. cbn [fst]. rewrite decide_True; [|congruence].
  by rewrite IH.
Qed.

Lemma obj_delete_app k o1 o2 :
  obj_delete k (o1 ++ o2) = obj_delete k o1 ++ obj_delete k o2.
Proof. apply filter_app. Qed.

Lemma obj_delete_cons_eq k v o : obj_delete k ((k, v) :: o) = obj_delete k o.
Proof.
  unfold obj_delete. rewrite filter_cons. cbn [fst].
  rewrite decide_False; [done|tauto].
Qed.

Lemma obj_keys_delete k o : obj_keys (obj_delete k o) = filter (λ k', k' ≠ k) (obj_keys o).
Proof.
  unfold obj_keys, obj_delete. induction o as [|[k' v'] o IH]; [done|].
  rewrite fmap_cons, !filter_cons. cbn [fst].
  destruct (decide (k' ≠ k)); [rewrite fmap_cons|]; by rewrite IH.
Qed.

Lemma obj_keys_set k v o :
  obj_keys (obj_set k v o) =
    if decide (k ∈ obj_keys o) then obj_keys o else obj_keys o ++ [k].
Proof.
  unfold obj_keys. induction o as [|[k' v'] o IH].
  - cbn. rewrite decide_False; [done|apply not_elem_of_nil].
  - cbn [obj_set]. destruct (decide (k = k')) as [->|Hne].
    + rewrite !fmap_cons. cbn [fst]. rewrite decide_True; [done|left].
    + rewrite !fmap_cons, IH. cbn [fst]. destruct (decide (k ∈ o.*1)).
      * rewrite decide_True; [done|by right].
      * rewrite decide_False; [done|]. rewrite not_elem_of_cons. tauto.
Qed.

Lemma NoDup_keys_delete k o : NoDup (obj_keys o) → NoDup (obj_keys (obj_delete k o)).
Proof. rewrite obj_keys_delete. apply NoDup_filter. Qed.

Lemma NoDup_keys_set k v o : NoDup (obj_keys o) → NoDup (obj_keys (obj_set k v o)).
Proof.
  intros Hnd. rewrite obj_keys_set. destruct (decide (k ∈ obj_keys o)); [done|].
  apply NoDup_app. split_and!; [done| |apply NoDup_singleton].
  intros x Hx Hx'%list_elem_of_singleton. by subst.
Qed.
End jsobj_facts.

(** ** The order of [for (k in o)] *)

Section for_in_facts.
Context {V : Type}.
Implicit Types (o : jsobj V) (k : string) (v : V).

Lemma insert_index_perm n (e : string * V) l : insert_index n e l ≡ₚ (n, e) :: l.
Proof.
  induction l as [|[m e'] l IH]; cbn [insert_index]; [done|].
  case_decide; [done|]. rewrite IH. apply Permutation_swap.
Qed.


Lemma index_entries_snoc o (e : string * V) :
  index_entries (o ++ [e]) =
    match array_index e.1 with
    | Some n => insert_index n e (index_entries o)
    | None => index_entries o
    end.
Proof. unfold index_entries. by rewrite foldl_app. Qed.

Lemma index_entries_perm o :
  (index_entries o).*2 ≡ₚ filter (λ e, is_Some (array_index e.1)) o.
Proof.
  induction o as [|e o IH] using rev_ind; [done|].
  rewrite index_entries_snoc, filter_app, filter_cons, filter_nil.
  destruct (array_index e.1) as [n|] eqn:Hn.
  - rewrite decide_True by eauto. rewrite insert_index_perm, fmap_cons. cbn [snd].
    rewrite IH. by rewrite Permutation_cons_append.
  - rewrite decide_False by (by intros [? ?]). by rewrite app_nil_r.
Qed.

Lemma for_in_entries_perm o : for_in_entries o ≡ₚ o.
Proof.
  unfold for_in_entries. rewrite index_entries_perm.
  induction o as [|e o IH]; [done|].
  rewrite !filter_cons. destruct (array_index e.1) as [n|] eqn:Hn.
  - rewrite decide_True by eauto. rewrite decide_False by done. cbn [app]. by rewrite IH.
  - rewrite decide_False by (by intros [? ?]). rewrite decide_True by done.
    rewrite <-Permutation_middle. by rewrite IH.
Qed.

Lemma for_in_perm o : for_in o ≡ₚ obj_keys o.
Proof. unfold for_in, obj_keys. by rewrite for_in_entries_perm. Qed.

Lemma elem_of_for_in o k : k ∈ for_in o ↔ k ∈ obj_keys o.
Proof. by rewrite for_in_perm. Qed.

Lemma elem_of_for_in_entries o (e : string * V) : e ∈ for_in_entries o ↔ e ∈ o.
Proof. by rewrite for_in_entries_perm. Qed.

Lemma NoDup_for_in o : NoDup (obj_keys o) → NoDup (for_in o).
Proof. by rewrite for_in_perm. Qed.

Lemma for_in_entries_lookup o (e : string * V) :
  NoDup (obj_keys o) → e ∈ for_in_entries o → obj_get e.1 o = Some e.2.
Proof.
  intros Hnd He. rewrite elem_of_for_in_entries in He. destruct e as [k v].
  cbn [fst snd]. by apply obj_get_of_elem.
Qed.

Lemma index_entries_none o :
  (∀ e, e ∈ o → array_index e.1 = None) → index_entries o = [].
Proof.
  induction o as [|e o IH] using rev_ind; [done|]. intros H.
  rewrite index_entries_snoc, (H e) by (apply elem_of_app; right; left).
  apply IH. intros e' He'. apply H, elem_of_app. by left.
Qed.

(** An object without array indices among its keys is visited in creation
    order. *)
Lemma for_in_entries_plain o :
  (∀ e, e ∈ o → array_index e.1 = None) → for_in_entries o = o.
Proof.
  intros H. unfold for_in_entries. rewrite index_entries_none by done.
  cbn [fmap list_fmap app].
  induction o as [|e o IH]; [done|]. rewrite filter_cons_True by (apply H; left).
  f_equal. apply IH. intros e' He'. apply H. by right.
Qed.





Lemma filter_ext_in (P Q : string * V → Prop)
    `{!∀ e, Decision (P e)} `{!∀ e, Decision (Q e)} o :
  (∀ e, e ∈ o → P e ↔ Q e) → filter P o = filter Q o.
Proof.
  induction o as [|e o IH]; intros Hext; [done|].
  rewrite !filter_cons. rewrite IH by (intros e' He'; apply Hext; by right).
  destruct (decide (P e)) as [HP|HP], (decide (Q e)) as [HQ|HQ]; try done.
  - apply (Hext e) in HP; [done|left].
  - apply (Hext e) in HQ; [done|left].
Qed.

Lemma filter_all (P : string * V → Prop) `{!∀ e, Decision (P e)} o :
  (∀ e, e ∈ o → P e) → filter P o = o.
Proof.
  induction o as [|e o IH]; intros Hall; [done|].
  rewrite filter_cons_True by (apply Hall; left). f_equal.
  apply IH. intros e' He'. apply Hall. by right.
Qed.

Lemma obj_delete_filter (P : string * V → Prop) `{!∀ e, Decision (P e)} k o :
  filter P (obj_delete k o) = filter (λ e, e.1 ≠ k ∧ P e) o.
Proof.
  unfold obj_delete. induction o as [|e o IH]; [done|].
  rewrite !filter_cons. destruct (decide (e.1 ≠ k)) as [Hk|Hk].
  - rewrite filter_cons. destruct (decide (P e)).
    + rewrite decide_True by done. by rewrite IH.
    + rewrite decide_False by tauto. done.
  - rewrite decide_False by tauto. done.
Qed.
Lemma obj_delete_of_filter (P : string * V → Prop) `{!∀ e, Decision (P e)} k o :
  obj_delete k (filter P o) = filter (λ e, e.1 ≠ k ∧ P e) o.
Proof.
  unfold obj_delete. induction o as [|e o IH]; [done|].
  rewrite !filter_cons. destruct (decide (P e)) as [HP|HP].
  - rewrite filter_cons. destruct (decide (e.1 ≠ k)).
    + rewrite decide_True by done. by rewrite IH.
    + rewrite decide_False by tauto. done.
  - rewrite decide_False by tauto. done.
Qed.
End for_in_facts.

(** ** States *)

(** Projections of updated states. *)
Ltac proj_state :=
  cbn [_bundleAssets _assetsInBundles _urlsInBundles _fileRequests arrays
       listeners calls set_bundleAssets set_assetsInBundles set_urlsInBundles
       set_fileRequests set_arrays set_listeners invoke on off] in *.

Lemma urlsInBundles_get_frame url s1 s2 :
  _urlsInBundles s1 = _urlsInBundles s2 →
  urlsInBundles_get url s1 = urlsInBundles_get url s2.
Proof. unfold urlsInBundles_get. by intros ->. Qed.

Lemma find_frame w url s1 s2 :
  _urlsInBundles s1 = _urlsInBundles s2 →
  arrays s1 = arrays s2 →
  _findLoadedOrLoadingBundleForUrl w url s1 = _findLoadedOrLoadingBundleForUrl w url s2.
Proof.
  intros HU HA. unfold _findLoadedOrLoadingBundleForUrl.
  by rewrite (urlsInBundles_get_frame url s1 s2), HA.
Qed.

Lemma canLoadUrl_frame w url s1 s2 :
  _urlsInBundles s1 = _urlsInBundles s2 →
  arrays s1 = arrays s2 →
  canLoadUrl w url s1 = canLoadUrl w url s2.
Proof. intros HU HA. unfold canLoadUrl. by rewrite (find_frame w url s1 s2). Qed.

Lemma reads_member_frame url s1 s2 :
  _urlsInBundles s1 = _urlsInBundles s2 → reads_member url s1 ↔ reads_member url s2.
Proof. unfold reads_member. by intros ->. Qed.

Lemma reads_method_frame url s1 s2 :
  _urlsInBundles s1 = _urlsInBundles s2 → reads_method url s1 ↔ reads_method url s2.
Proof. unfold reads_method. by intros ->. Qed.

Lemma reads_method_member url s : reads_method url s → reads_member url s.
Proof. intros [H (n & Hn)]. split; [done|]. by rewrite Hn. Qed.

Lemma canLoadUrl_true w url s :
  canLoadUrl w url s = Return true ↔
  ∃ b, _findLoadedOrLoadingBundleForUrl w url s = Return (Some b).
Proof.
  unfold canLoadUrl.
  destruct (_findLoadedOrLoadingBundleForUrl w url s) as [[b|]|e].
  - split; [by exists b|done].
  - split; [done|]. by intros [? ?].
  - split; [done|]. by intros [? ?].
Qed.

Lemma canLoadUrl_false w url s :
  canLoadUrl w url s = Return false ↔ _findLoadedOrLoadingBundleForUrl w url s = Return None.
Proof.
  unfold canLoadUrl. by destruct (_findLoadedOrLoadingBundleForUrl w url s) as [[b|]|e].
Qed.

Lemma canLoadUrl_raise w url s e :
  canLoadUrl w url s = Raise e ↔ _findLoadedOrLoadingBundleForUrl w url s = Raise e.
Proof.
  unfold canLoadUrl. destruct (_findLoadedOrLoadingBundleForUrl w url s) as [b|e'];
    [done|]. split; by intros [= ->].
Qed.

Lemma foldl_invoke err blobUrl requests s :
  foldl (λ s r, invoke r err blobUrl s) s requests =
  {| _bundleAssets := _bundleAssets s;
     _assetsInBundles := _assetsInBundles s;
     _urlsInBundles := _urlsInBundles s;
     _fileRequests := _fileRequests s;
     arrays := arrays s; listeners := listeners s;
     calls := calls s ++ calls_of err blobUrl requests |}.
Proof.
  revert s. induction requests as [|r rs IH]; intros s.
  - destruct s; simpl. by rewrite app_nil_r.
  - cbn [foldl]. rewrite IH. unfold invoke, calls_of. cbn.
    by rewrite <-app_assoc.
Qed.

(** ** The search for a bundle *)

Lemma find_first_match P l b : find P l = Some b ↔ first_match P l b.
Proof.
  unfold first_match. induction l as [|x l IH]; cbn [find].
  - split; [done|]. intros (l1 & l2 & H & _). by destruct l1.
  - destruct (P x) eqn:HP.
    + split.
      * intros [= ->]. exists [], l. split_and!; [done|done|].
        intros y Hy. by apply not_elem_of_nil in Hy.
      * intros (l1 & l2 & H & Hb & Hl1). destruct l1 as [|y l1].
        -- by injection H as -> _.
        -- injection H as -> _. rewrite Hl1 in HP; [done|left].
    + rewrite IH. split.
      * intros (l1 & l2 & -> & Hb & Hl1). exists (x :: l1), l2.
        split_and!; [done|done|]. intros y [->|Hy]%elem_of_cons; auto.
      * intros (l1 & l2 & H & Hb & Hl1). destruct l1 as [|y l1].
        -- injection H as -> _. congruence.
        -- injection H as -> ->. exists l1, l2. split_and!; [done|done|].
           intros z Hz. apply Hl1. by right.
Qed.

Lemma find_no_match P (l : list Ref) : find P l = None ↔ ∀ x, x ∈ l → P x = false.
Proof.
  induction l as [|x l IH]; cbn [find].
  - split; [|done]. intros _ y Hy. by apply not_elem_of_nil in Hy.
  - destruct (P x) eqn:HP.
    + split; [done|]. intros H. rewrite H in HP; [done|left].
    + rewrite IH. split.
      * intros H y [->|Hy]%elem_of_cons; auto.
      * intros H y Hy. apply H. by right.
Qed.

Lemma first_match_nil P b : ¬ first_match P [] b.
Proof. intros (l1 & l2 & H & _). by destruct l1. Qed.

Lemma find_bundle_spec w url s b :
  _findLoadedOrLoadingBundleForUrl w url s = Return (Some b) ↔
    first_match (is_loaded w) (bundles_of url s) b ∨
    ((∀ x, x ∈ bundles_of url s → is_loaded w x = false) ∧
     first_match (is_loading w) (bundles_of url s) b).
Proof.
  unfold _findLoadedOrLoadingBundleForUrl, urlsInBundles_get, bundles_of.
  destruct (obj_get url (_urlsInBundles s)) as [[loc|]|].
  - destruct (find (is_loaded w) (arrays s !!! loc)) as [b'|] eqn:Hf.
    + split.
      * intros [= ->]. left. by apply find_first_match.
      * intros [H|[H _]].
        -- apply find_first_match in H. congruence.
        -- apply find_no_match in H. congruence.
    + split.
      * intros [= H]. right. split; [by apply find_no_match|by apply find_first_match].
      * intros [H|[_ H]]; [apply find_first_match in H; congruence|].
        apply find_first_match in H. by rewrite H.
  - split; [done|]. by intros [H|[_ H]]; apply first_match_nil in H.
  - assert (Hno : ¬ (first_match (is_loaded w) [] b ∨
                     ((∀ x : Ref, x ∈ [] → is_loaded w x = false) ∧
                      first_match (is_loading w) [] b))).
    { by intros [H|[_ H]]; apply first_match_nil in H. }
    destruct (obj_get url Object_prototype) as [[[|n]|]|]; by split.
Qed.

(** The search throws, a TypeError, exactly when it reads a method of
    [Object.prototype] that has parameters. *)
Lemma find_bundle_raise w url s e :
  _findLoadedOrLoadingBundleForUrl w url s = Raise e ↔ e = TypeError ∧ reads_method url s.
Proof.
  unfold _findLoadedOrLoadingBundleForUrl, urlsInBundles_get, reads_method.
  destruct (obj_get url (_urlsInBundles s)) as [[loc|]|].
  - split; [by destruct (find (is_loaded w) (arrays s !!! loc))|]. by intros (_ & ? & _).
  - split; [done|]. by intros (_ & ? & _).
  - destruct (obj_get url Object_prototype) as [[[|n]|]|].
    + split; [done|]. by intros (_ & _ & ? & ?).
    + split; [intros [= <-]; eauto|by intros (-> & _)].
    + split; [done|]. by intros (_ & _ & ? & ?).
    + split; [done|]. by intros (_ & _ & ? & ?).
Qed.

Lemma find_bundle_None w url s :
  _findLoadedOrLoadingBundleForUrl w url s = Return None ↔
    (∀ b, b ∈ bundles_of url s → is_loaded w b = false ∧ is_loading w b = false) ∧
    ¬ reads_method url s.
Proof.
  unfold _findLoadedOrLoadingBundleForUrl, urlsInBundles_get, bundles_of, reads_method.
  destruct (obj_get url (_urlsInBundles s)) as [[loc|]|].
  - destruct (find (is_loaded w) (arrays s !!! loc)) as [b'|] eqn:Hf.
    + split; [done|]. intros [H _]. apply find_some in Hf as [Hin Hb].
      apply list_elem_of_In, H in Hin as [? _]. congruence.
    + rewrite find_no_match in Hf. split.
      * intros [= H]. rewrite find_no_match in H. split; [|by intros [? _]].
        intros b Hb. split; auto.
      * intros [H _]. f_equal. apply find_no_match. intros b Hb. by apply H.
  - split; [|done]. intros _. split; [|by intros [? _]].
    intros b Hb. by apply not_elem_of_nil in Hb.
  - assert (Hnil : ∀ b : Ref, b ∈ [] → is_loaded w b = false ∧ is_loading w b = false).
    { intros b Hb. by apply not_elem_of_nil in Hb. }
    destruct (obj_get url Object_prototype) as [[[|n]|]|].
    + split; [|done]. intros _. split; [done|]. by intros (_ & ? & ?).
    + split; [done|]. intros [_ H]. destruct H. eauto.
    + split; [|done]. intros _. split; [done|]. by intros (_ & ? & ?).
    + split; [|done]. intros _. split; [done|]. by intros (_ & ? & ?).
Qed.

Lemma canLoadUrl_survivor w url s : canLoadUrl w url s = Return true ↔ survivor w url s.
Proof.
  rewrite canLoadUrl_true. unfold survivor. split.
  - intros [b Hb]. apply find_bundle_spec in Hb as [H|[_ H]];
      destruct H as (l1 & l2 & Hl & Hb & _); exists b;
      (split; [rewrite Hl; apply elem_of_app; right; left|by auto]).
  - intros (b & Hin & Hb).
    destruct (_findLoadedOrLoadingBundleForUrl w url s) as [[b'|]|e] eqn:Hf; [by eauto|..].
    + rewrite find_bundle_None in Hf. destruct Hf as [Hf _].
      destruct (Hf b Hin) as [H1 H2]. destruct Hb; congruence.
    + apply find_bundle_raise in Hf as (_ & HU & _).
      unfold bundles_of in Hin. rewrite HU in Hin. by apply not_elem_of_nil in Hin.
Qed.

(** A URL with a property of its own in [_urlsInBundles], and a URL that
    is no member of [Object.prototype], is read as the index holds it. *)
Lemma hasUrl_own url s v :
  obj_get url (_urlsInBundles s) = Some v → hasUrl url s = bool_decide (is_Some v).
Proof.
  intros H. unfold hasUrl, urlsInBundles_get. rewrite H. destruct v; [|done].
  by rewrite bool_decide_eq_true_2.
Qed.

Lemma hasUrl_absent url s :
  obj_get url (_urlsInBundles s) = None →
  hasUrl url s = bool_decide (is_Some (obj_get url Object_prototype)).
Proof.
  intros H. unfold hasUrl, urlsInBundles_get. rewrite H.
  destruct (obj_get url Object_prototype); [by rewrite bool_decide_eq_true_2|done].
Qed.

Lemma hasUrl_true url s :
  hasUrl url s = true ↔
  (∃ loc, obj_get url (_urlsInBundles s) = Some (Some loc)) ∨ reads_member url s.
Proof.
  unfold hasUrl, urlsInBundles_get, reads_member.
  destruct (obj_get url (_urlsInBundles s)) as [[loc|]|].
  - split; [eauto|done].
  - split; [done|]. by intros [[? ?]|[? _]].
  - destruct (obj_get url Object_prototype) as [len|].
    + split; [|done]. intros _. right. eauto.
    + split; [done|]. intros [[? ?]|[_ [? ?]]]; done.
Qed.

(** ** Loops whose body may throw *)

(** A property of the states before and after one round, whether the round
    returns or throws, holds of the loop. *)
Lemma for_each_outcome {A : Type} (P : State → Prop) (R : State → State → Prop)
    (body : A → State → Result) :
  (∀ s, R s s) →
  (∀ s1 s2 s3, R s1 s2 → R s2 s3 → R s1 s3) →
  (∀ x s, P s → P (outcome (body x s)) ∧ R s (outcome (body x s))) →
  ∀ l s, P s → P (outcome (for_each l body s)) ∧ R s (outcome (for_each l body s)).
Proof.
  intros Hrefl Htrans Hstep. induction l as [|x l IH]; intros s HP; cbn [for_each].
  - by split.
  - destruct (Hstep x s HP) as [HP1 HR1]. destruct (body x s) as [s1|e s1]; cbn [bind].
    + cbn [outcome] in HP1, HR1. destruct (IH s1 HP1) as [HP2 HR2]. split; [done|].
      by eapply Htrans.
    + done.
Qed.

(** ** The error handler *)

(** What one round of the loop of [_onBundleError] does. *)
Lemma fail_requests_for_cases w err url s :
  (obj_get url (_fileRequests s) = None ∧ fail_requests_for w err url s = Ok s) ∨
  (∃ requests, obj_get url (_fileRequests s) = Some requests ∧
     ((canLoadUrl w url s = Return true ∧ fail_requests_for w err url s = Ok s) ∨
      (canLoadUrl w url s = Return false ∧
       fail_requests_for w err url s =
         Ok (set_fileRequests (obj_delete url)
               (foldl (λ s r, invoke r (Some err) None s) s requests))) ∨
      (reads_method url s ∧ fail_requests_for w err url s = Throw TypeError s))).
Proof.
  unfold fail_requests_for.
  destruct (obj_get url (_fileRequests s)) as [requests|]; [right|by left].
  exists requests. split; [done|].
  destruct (_findLoadedOrLoadingBundleForUrl w url s) as [[b|]|e] eqn:Hf.
  - left. split; [|done]. apply canLoadUrl_true. eauto.
  - right. left. split; [|done]. by apply canLoadUrl_false.
  - right. right. apply find_bundle_raise in Hf as [-> Hm]. done.
Qed.

(** The frame of the error handler, whether it returns or throws. *)
Lemma error_loop_frame w err urls s :
  NoDup (obj_keys (_fileRequests s)) →
  let s' := outcome (for_each urls (fail_requests_for w err) s) in
  NoDup (obj_keys (_fileRequests s')) ∧
  _bundleAssets s' = _bundleAssets s ∧
  _assetsInBundles s' = _assetsInBundles s ∧
  _urlsInBundles s' = _urlsInBundles s ∧
  arrays s' = arrays s ∧
  listeners s' = listeners s ∧
  (∀ url requests, obj_get url (_fileRequests s') = Some requests →
                   obj_get url (_fileRequests s) = Some requests) ∧
  ∃ new, calls s' = calls s ++ new ∧
         Forall (λ c, call_err c = Some err ∧ call_blobUrl c = None) new.
Proof.
  intros Hnd.
  apply (for_each_outcome (λ s, NoDup (obj_keys (_fileRequests s)))
    (λ s s', _bundleAssets s' = _bundleAssets s ∧
             _assetsInBundles s' = _assetsInBundles s ∧
             _urlsInBundles s' = _urlsInBundles s ∧
             arrays s' = arrays s ∧
             listeners s' = listeners s ∧
             (∀ url requests, obj_get url (_fileRequests s') = Some requests →
                              obj_get url (_fileRequests s) = Some requests) ∧
             ∃ new, calls s' = calls s ++ new ∧
                    Forall (λ c, call_err c = Some err ∧ call_blobUrl c = None) new));
    [| | |done].
  - intros s0. split_and!; try done. exists []. by rewrite app_nil_r.
  - intros s1 s2 s3 (A1 & A2 & A3 & A4 & A5 & A6 & n1 & A7 & A8)
      (B1 & B2 & B3 & B4 & B5 & B6 & n2 & B7 & B8).
    split_and!; try congruence; [by eauto|].
    exists (n1 ++ n2). split; [by rewrite B7, A7, app_assoc|by apply Forall_app].
  - intros url s0 Hnd0.
    assert (Hsame : NoDup (obj_keys (_fileRequests s0)) ∧
       _bundleAssets s0 = _bundleAssets s0 ∧ _assetsInBundles s0 = _assetsInBundles s0 ∧
       _urlsInBundles s0 = _urlsInBundles s0 ∧ arrays s0 = arrays s0 ∧
       listeners s0 = listeners s0 ∧
       (∀ url requests, obj_get url (_fileRequests s0) = Some requests →
                        obj_get url (_fileRequests s0) = Some requests) ∧
       ∃ new, calls s0 = calls s0 ++ new ∧
              Forall (λ c, call_err c = Some err ∧ call_blobUrl c = None) new).
    { split_and!; try done. exists []. by rewrite app_nil_r. }
    destruct (fail_requests_for_cases w err url s0)
      as [[_ ->]|(requests & Hq & [[_ ->]|[[_ ->]|[_ ->]]])]; cbn [outcome]; try done.
    rewrite foldl_invoke. proj_state. split_and!; try done.
    + by apply NoDup_keys_delete.
    + intros url' requests'. rewrite obj_get_delete. by case_decide.
    + eexists. split; [done|]. unfold calls_of. apply Forall_fmap, Forall_true. done.
Qed.

(** The error handler on properties whose search does not throw. *)
Lemma error_loop w err s0 entries : ∀ s,
  _urlsInBundles s = _urlsInBundles s0 →
  arrays s = arrays s0 →
  NoDup (obj_keys (_fileRequests s)) →
  NoDup entries.*1 →
  (∀ e, e ∈ entries → obj_get e.1 (_fileRequests s) = Some e.2) →
  (∀ e, e ∈ entries → ¬ reads_method e.1 s0) →
  ∃ s', for_each entries.*1 (fail_requests_for w err) s = Ok s' ∧
  _fileRequests s' =
    filter (λ e, e.1 ∉ entries.*1 ∨ canLoadUrl w e.1 s0 = Return true) (_fileRequests s) ∧
  calls s' = calls s ++ flat_map (failed_calls w err s0) entries.
Proof.
  induction entries as [|[url requests] entries IH]; intros s HU HA Hnd Hks Hget Hsafe.
  - exists s. split_and!; [done| |by rewrite app_nil_r].
    cbn [fmap list_fmap]. symmetry. apply filter_all.
    intros e _. left. apply not_elem_of_nil.
  - rewrite fmap_cons in Hks. cbn [fst] in Hks. apply NoDup_cons in Hks as [Hnin Hks].
    assert (Hq : obj_get url (_fileRequests s) = Some requests).
    { apply (Hget (url, requests)). left. }
    assert (Hget' : ∀ e, e ∈ entries → obj_get e.1 (_fileRequests s) = Some e.2).
    { intros e He. apply Hget. by right. }
    assert (Hsafe' : ∀ e, e ∈ entries → ¬ reads_method e.1 s0).
    { intros e He. apply Hsafe. by right. }
    assert (Hne : ∀ e, e ∈ entries → e.1 ≠ url).
    { intros e He Heq. apply Hnin. rewrite <-Heq. apply list_elem_of_fmap. by exists e. }
    rewrite fmap_cons. cbn [for_each flat_map fst].
    unfold failed_calls at 1. cbn [fst snd].
    rewrite <-(canLoadUrl_frame w url s s0) by done.
    destruct (fail_requests_for_cases w err url s)
      as [[Hq' _]|(requests' & Hq' & [[Hc ->]|[[Hc ->]|[Hm _]]])].
    + congruence.
    + rewrite Hc. cbn [bind app].
      destruct (IH s HU HA Hnd Hks Hget' Hsafe') as (s' & E0 & E1 & E2).
      exists s'. split_and!; [done| |done]. rewrite E1. apply filter_ext_in.
      intros [k v] _. cbn [fst]. rewrite not_elem_of_cons.
      destruct (decide (k = url)) as [->|Hk]; [|tauto].
      rewrite <-(canLoadUrl_frame w url s s0) by done. tauto.
    + rewrite Hc. cbn [bind]. rewrite foldl_invoke.
      assert (requests' = requests) as -> by congruence.
      match goal with |- context [for_each _ _ ?s1] =>
        destruct (IH s1) as (s' & E0 & E1 & E2) end; try done.
      { proj_state. by apply NoDup_keys_delete. }
      { intros e He. proj_state. rewrite obj_get_delete_ne by (by apply Hne). by apply Hget'. }
      exists s'. proj_state. split_and!; [done| |by rewrite E2, <-app_assoc].
      rewrite E1, obj_delete_filter. apply filter_ext_in.
      intros [k v] _. cbn [fst]. rewrite not_elem_of_cons.
      destruct (decide (k = url)) as [->|Hk]; [|tauto].
      rewrite <-(canLoadUrl_frame w url s s0), Hc by done. split; [tauto|].
      intros [[? _]|?]; done.
    + exfalso. apply (Hsafe (url, requests)); [left|].
      by apply (reads_method_frame url s s0).
Qed.

(** The closed form of the error handler, for a queue in which no URL is
    read as a method of [Object.prototype]. *)
Lemma onBundleError_spec w err b s :
  NoDup (obj_keys (_fileRequests s)) →
  (∀ url, url ∈ obj_keys (_fileRequests s) → ¬ reads_method url s) →
  ∃ s', _onBundleError w err b s = Ok s' ∧
  _fileRequests s' = filter (λ e, canLoadUrl w e.1 s = Return true) (_fileRequests s) ∧
  calls s' = calls s ++ flat_map (failed_calls w err s) (for_in_entries (_fileRequests s)) ∧
  _bundleAssets s' = _bundleAssets s ∧
  _assetsInBundles s' = _assetsInBundles s ∧
  _urlsInBundles s' = _urlsInBundles s ∧
  arrays s' = arrays s ∧
  listeners s' = listeners s.
Proof.
  intros Hnd Hsafe. unfold _onBundleError, for_in.
  destruct (error_loop w err s (for_in_entries (_fileRequests s)) s)
    as (s' & E0 & E1 & E2); try done.
  - by apply NoDup_for_in.
  - intros e He. by apply for_in_entries_lookup.
  - intros e He. apply Hsafe. apply elem_of_for_in. unfold for_in, obj_keys.
    apply list_elem_of_fmap. by exists e.
  - exists s'. unfold obj_keys at 1. rewrite E0.
    destruct (error_loop_frame w err (for_in_entries (_fileRequests s)).*1 s Hnd)
      as (_ & F1 & F2 & F3 & F4 & F5 & _).
    unfold obj_keys in E0. rewrite E0 in F1, F2, F3, F4, F5. cbn [outcome] in *.
    split_and!; try done. rewrite E1. apply filter_ext_in.
    intros e He. split; [|tauto]. intros [Hn|?]; [|done]. destruct Hn.
    change (e.1 ∈ for_in (_fileRequests s)). apply elem_of_for_in.
    unfold obj_keys. apply list_elem_of_fmap. by exists e.
Qed.

Lemma onBundleError_frame w err b s :
  NoDup (obj_keys (_fileRequests s)) →
  let s' := outcome (_onBundleError w err b s) in
  NoDup (obj_keys (_fileRequests s')) ∧
  _bundleAssets s' = _bundleAssets s ∧
  _assetsInBundles s' = _assetsInBundles s ∧
  _urlsInBundles s' = _urlsInBundles s ∧
  arrays s' = arrays s ∧
  listeners s' = listeners s ∧
  (∀ url requests, obj_get url (_fileRequests s') = Some requests →
                   obj_get url (_fileRequests s) = Some requests) ∧
  ∃ new, calls s' = calls s ++ new ∧
         Forall (λ c, call_err c = Some err ∧ call_blobUrl c = None) new.
Proof. intros Hnd. unfold _onBundleError. by apply error_loop_frame. Qed.

(** ** The load handler *)

Lemma indexOf_None x l : indexOf x l = None ↔ x ∉ l.
Proof.
  unfold indexOf. rewrite fmap_None, list_find_None, Forall_forall.
  split.
  - intros H Hin. by apply (H x).
  - intros H y Hy ->. done.
Qed.

Lemma indexOf_Some x l i :
  indexOf x l = Some i → l !! i = Some x ∧ x ∉ take i l.
Proof.
  unfold indexOf. rewrite fmap_Some. intros ([j y] & Hf & ->).
  apply list_find_Some in Hf as (Hl & -> & Hlt). cbn [fst]. split; [done|].
  intros Hin. apply list_elem_of_lookup in Hin as [k Hk].
  apply lookup_take_Some in Hk as [Hk Hki].
  by apply (Hlt k x).
Qed.

Lemma covers_frame b url s1 s2 :
  _urlsInBundles s1 = _urlsInBundles s2 →
  arrays s1 = arrays s2 →
  covers b url s1 = covers b url s2.
Proof. unfold covers. by intros -> ->. Qed.

Lemma covers_true b url s : covers b url s = true ↔ b ∈ bundles_of url s.
Proof.
  unfold covers, bundles_of.
  destruct (obj_get url (_urlsInBundles s)) as [[loc|]|];
    [apply bool_decide_eq_true|split; [done|by intros ?%elem_of_nil]..].
Qed.

Lemma for_each_resolve w res url path requests s :
  decodeURIComponent w url = Some path →
  for_each requests (resolve_request w res url) s =
  Ok (foldl (λ s r, invoke r None (Some (getBlobUrl res path)) s) s requests).
Proof.
  intros Hd. revert s. induction requests as [|r rs IH]; intros s; [done|].
  cbn [for_each foldl]. unfold resolve_request at 1. rewrite Hd. cbn [bind].
  apply IH.
Qed.

Lemma for_each_resolve_throws w res url r requests s :
  decodeURIComponent w url = None →
  for_each (r :: requests) (resolve_request w res url) s = Throw URIError s.
Proof.
  intros Hd. cbn [for_each]. unfold resolve_request at 1. by rewrite Hd.
Qed.

Lemma resolve_requests_for_covered w b res url path requests s :
  obj_get url (_fileRequests s) = Some requests →
  covers b url s = true →
  decodeURIComponent w url = Some path →
  resolve_requests_for w b res url s =
  Ok (set_fileRequests (obj_delete url)
        (foldl (λ s r, invoke r None (Some (getBlobUrl res path)) s) s requests)).
Proof.
  intros Hq Hc Hd. unfold resolve_requests_for, urlsInBundles_get, covers in *. rewrite Hq.
  destruct (obj_get url (_urlsInBundles s)) as [[loc|]|]; try done.
  apply bool_decide_eq_true in Hc.
  destruct (indexOf b (arrays s !!! loc)) eqn:Hi.
  - by rewrite (for_each_resolve w res url path).
  - by apply indexOf_None in Hi.
Qed.

Lemma resolve_requests_for_other w b res url s :
  covers b url s = false →
  ¬ reads_member url s →
  resolve_requests_for w b res url s = Ok s.
Proof.
  intros Hc Hm. unfold resolve_requests_for, urlsInBundles_get, covers, reads_member in *.
  destruct (obj_get url (_fileRequests s)); [|done].
  destruct (obj_get url (_urlsInBundles s)) as [[loc|]|]; try done.
  - apply bool_decide_eq_false in Hc.
    destruct (indexOf b (arrays s !!! loc)) as [i|] eqn:Hi; [|done].
    apply indexOf_Some in Hi as [Hi _]. destruct Hc.
    by eapply list_elem_of_lookup_2.
  - destruct (obj_get url Object_prototype); [|done]. destruct Hm. eauto.
Qed.

(** What one round of the loop of [_onBundleLoaded] does, whether it returns
    or throws. *)
Lemma resolve_requests_for_cases w b res url s :
  (resolve_requests_for w b res url s = Ok s) ∨
  (∃ requests path,
     obj_get url (_fileRequests s) = Some requests ∧ covers b url s = true ∧
     decodeURIComponent w url = Some path ∧
     resolve_requests_for w b res url s =
       Ok (set_fileRequests (obj_delete url)
             (foldl (λ s r, invoke r None (Some (getBlobUrl res path)) s) s requests))) ∨
  (obj_get url (_fileRequests s) = Some [] ∧ covers b url s = true ∧
   resolve_requests_for w b res url s = Ok (set_fileRequests (obj_delete url) s)) ∨
  (∃ requests,
     obj_get url (_fileRequests s) = Some requests ∧ requests ≠ [] ∧
     covers b url s = true ∧ decodeURIComponent w url = None ∧
     resolve_requests_for w b res url s = Throw URIError s) ∨
  (∃ requests,
     obj_get url (_fileRequests s) = Some requests ∧ reads_member url s ∧
     resolve_requests_for w b res url s = Throw TypeError s).
Proof.
  destruct (obj_get url (_fileRequests s)) as [requests|] eqn:Hq;
    [|left; unfold resolve_requests_for; by rewrite Hq].
  destruct (covers b url s) eqn:Hc.
  - destruct (decodeURIComponent w url) as [path|] eqn:Hd.
    + right. left. exists requests, path. split_and!; try done.
      by apply resolve_requests_for_covered.
    + assert (Hi : ∃ i, ∃ loc, obj_get url (_urlsInBundles s) = Some (Some loc) ∧
                               indexOf b (arrays s !!! loc) = Some i).
      { unfold covers in Hc. destruct (obj_get url (_urlsInBundles s)) as [[loc|]|]; try done.
        apply bool_decide_eq_true in Hc.
        destruct (indexOf b (arrays s !!! loc)) as [i|] eqn:Hi; [by eauto|].
        by apply indexOf_None in Hi. }
      destruct Hi as (i & loc & HU & Hi).
      unfold resolve_requests_for, urlsInBundles_get. rewrite Hq, HU, Hi.
      destruct requests as [|r requests].
      * right. right. left. done.
      * right. right. right. left. exists (r :: requests). split_and!; try done.
        by rewrite for_each_resolve_throws.
  - destruct (obj_get url (_urlsInBundles s)) as [v|] eqn:HU.
    + left. apply resolve_requests_for_other; [done|]. intros [? _]. congruence.
    + destruct (obj_get url Object_prototype) as [len|] eqn:Hp.
      * right. right. right. right. exists requests. split_and!; [done| |].
        -- split; [done|]. by rewrite Hp.
        -- unfold resolve_requests_for, urlsInBundles_get. by rewrite Hq, HU, Hp.
      * left. apply resolve_requests_for_other; [done|]. intros [_ [? ?]]. congruence.
Qed.

(** The frame of the loop of the load handler, whether it returns or
    throws. *)
Lemma resolve_loop_frame w b res urls s :
  NoDup (obj_keys (_fileRequests s)) →
  let s' := outcome (for_each urls (resolve_requests_for w b res) s) in
  NoDup (obj_keys (_fileRequests s')) ∧
  _bundleAssets s' = _bundleAssets s ∧
  _assetsInBundles s' = _assetsInBundles s ∧
  _urlsInBundles s' = _urlsInBundles s ∧
  arrays s' = arrays s ∧
  listeners s' = listeners s ∧
  (∀ url requests, obj_get url (_fileRequests s') = Some requests →
                   obj_get url (_fileRequests s) = Some requests).
Proof.
  intros Hnd.
  apply (for_each_outcome (λ s, NoDup (obj_keys (_fileRequests s)))
    (λ s s', _bundleAssets s' = _bundleAssets s ∧
             _assetsInBundles s' = _assetsInBundles s ∧
             _urlsInBundles s' = _urlsInBundles s ∧
             arrays s' = arrays s ∧
             listeners s' = listeners s ∧
             (∀ url requests, obj_get url (_fileRequests s') = Some requests →
                              obj_get url (_fileRequests s) = Some requests)));
    [| | |done].
  - intros s0. by split_and!.
  - intros s1 s2 s3 (A1 & A2 & A3 & A4 & A5 & A6) (B1 & B2 & B3 & B4 & B5 & B6).
    split_and!; try congruence. by eauto.
  - intros url s0 Hnd0.
    destruct (resolve_requests_for_cases w b res url s0)
      as [->|[(q & path & _ & _ & _ & ->)|[(_ & _ & ->)|[(q & _ & _ & _ & _ & ->)
          |(q & _ & _ & ->)]]]]; cbn [outcome]; try done.
    + rewrite foldl_invoke. proj_state. split_and!; try done.
      * by apply NoDup_keys_delete.
      * intros url' requests'. rewrite obj_get_delete. by case_decide.
    + proj_state. split_and!; try done.
      * by apply NoDup_keys_delete.
      * intros url' requests'. rewrite obj_get_delete. by case_decide.
Qed.

(** The load handler on properties that are read as the index holds them
    and whose URLs can be decoded. *)
Lemma resolve_loop w b res s0 entries : ∀ s,
  _urlsInBundles s = _urlsInBundles s0 →
  arrays s = arrays s0 →
  NoDup (obj_keys (_fileRequests s)) →
  NoDup entries.*1 →
  (∀ e, e ∈ entries → obj_get e.1 (_fileRequests s) = Some e.2) →
  (∀ e, e ∈ entries → ¬ reads_member e.1 s0) →
  (∀ e, e ∈ entries → covers b e.1 s0 = true → is_Some (decodeURIComponent w e.1)) →
  ∃ s', for_each entries.*1 (resolve_requests_for w b res) s = Ok s' ∧
  _fileRequests s' =
    filter (λ e, e.1 ∉ entries.*1 ∨ covers b e.1 s0 = false) (_fileRequests s) ∧
  calls s' = calls s ++ flat_map (resolved_calls w b res s0) entries.
Proof.
  induction entries as [|[url requests] entries IH];
    intros s HU HA Hnd Hks Hget Hsafe Hdec.
  - exists s. split_and!; [done| |by rewrite app_nil_r].
    cbn [fmap list_fmap]. symmetry. apply filter_all.
    intros e _. left. apply not_elem_of_nil.
  - rewrite fmap_cons in Hks. cbn [fst] in Hks. apply NoDup_cons in Hks as [Hnin Hks].
    assert (Hq : obj_get url (_fileRequests s) = Some requests).
    { apply (Hget (url, requests)). left. }
    assert (Hget' : ∀ e, e ∈ entries → obj_get e.1 (_fileRequests s) = Some e.2).
    { intros e He. apply Hget. by right. }
    assert (Hsafe' : ∀ e, e ∈ entries → ¬ reads_member e.1 s0).
    { intros e He. apply Hsafe. by right. }
    assert (Hdec' : ∀ e, e ∈ entries → covers b e.1 s0 = true →
                         is_Some (decodeURIComponent w e.1)).
    { intros e He. apply Hdec. by right. }
    assert (Hne : ∀ e, e ∈ entries → e.1 ≠ url).
    { intros e He Heq. apply Hnin. rewrite <-Heq. apply list_elem_of_fmap. by exists e. }
    rewrite fmap_cons. cbn [for_each flat_map fst].
    unfold resolved_calls at 1. cbn [fst snd].
    destruct (covers b url s0) eqn:Hc.
    + destruct (Hdec (url, requests)) as [path Hpath]; [left|done|]. cbn [fst] in Hpath.
      rewrite (resolve_requests_for_covered w b res url path requests), Hpath;
        [|done|by rewrite (covers_frame b url s s0)|done].
      cbn [bind]. rewrite foldl_invoke.
      match goal with |- context [for_each _ _ ?s1] =>
        destruct (IH s1) as (s' & E0 & E1 & E2) end; try done.
      { proj_state. by apply NoDup_keys_delete. }
      { intros e He. proj_state. rewrite obj_get_delete_ne by (by apply Hne). by apply Hget'. }
      exists s'. proj_state. split_and!; [done| |by rewrite E2, <-app_assoc].
      rewrite E1, obj_delete_filter. apply filter_ext_in.
      intros [k v] _. cbn [fst]. rewrite not_elem_of_cons.
      destruct (decide (k = url)) as [->|Hk]; [|tauto].
      rewrite Hc. split; [tauto|]. intros [[? _]|?]; done.
    + rewrite resolve_requests_for_other;
        [|by rewrite (covers_frame b url s s0)
         |rewrite (reads_member_frame url s s0) by done; apply (Hsafe (url, requests)); left].
      cbn [bind app].
      destruct (IH s HU HA Hnd Hks Hget' Hsafe' Hdec') as (s' & E0 & E1 & E2).
      exists s'. split_and!; [done| |done]. rewrite E1. apply filter_ext_in.
      intros [k v] _. cbn [fst]. rewrite not_elem_of_cons.
      destruct (decide (k = url)) as [->|Hk]; [|tauto]. rewrite Hc. tauto.
Qed.

(** The closed form of the load handler. *)
Lemma onBundleLoaded_spec w b res s :
  NoDup (obj_keys (_fileRequests s)) →
  Asset.resource (objects w b) = Some res →
  (∀ url, url ∈ obj_keys (_fileRequests s) → ¬ reads_member url s) →
  (∀ url, url ∈ obj_keys (_fileRequests s) → covers b url s = true →
          is_Some (decodeURIComponent w url)) →
  ∃ s', _onBundleLoaded w b s = Ok s' ∧
  _fileRequests s' = filter (λ e, covers b e.1 s = false) (_fileRequests s) ∧
  calls s' =
    calls s ++ flat_map (resolved_calls w b res s) (for_in_entries (_fileRequests s)) ∧
  _bundleAssets s' = _bundleAssets s ∧
  _assetsInBundles s' = _assetsInBundles s ∧
  _urlsInBundles s' = _urlsInBundles s ∧
  arrays s' = arrays s ∧
  listeners s' = listeners s.
Proof.
  intros Hnd Hres Hsafe Hdec. unfold _onBundleLoaded, for_in. rewrite Hres.
  assert (Hin : ∀ e, e ∈ for_in_entries (_fileRequests s) →
                     e.1 ∈ obj_keys (_fileRequests s)).
  { intros e He. apply elem_of_for_in. unfold for_in, obj_keys.
    apply list_elem_of_fmap. by exists e. }
  destruct (resolve_loop w b res s (for_in_entries (_fileRequests s)) s)
    as (s' & E0 & E1 & E2); try done.
  - by apply NoDup_for_in.
  - intros e He. by apply for_in_entries_lookup.
  - intros e He. by apply Hsafe, Hin.
  - intros e He. by apply Hdec, Hin.
  - exists s'. unfold obj_keys at 1. rewrite E0.
    destruct (resolve_loop_frame w b res (for_in_entries (_fileRequests s)).*1 s Hnd)
      as (_ & F1 & F2 & F3 & F4 & F5 & _).
    unfold obj_keys in E0. rewrite E0 in F1, F2, F3, F4, F5. cbn [outcome] in *.
    split_and!; try done. rewrite E1. apply filter_ext_in.
    intros e He. split; [|tauto]. intros [Hn|?]; [|done]. destruct Hn.
    change (e.1 ∈ for_in (_fileRequests s)). apply elem_of_for_in.
    unfold obj_keys. apply list_elem_of_fmap. by exists e.
Qed.

Lemma onBundleLoaded_frame w b s :
  NoDup (obj_keys (_fileRequests s)) →
  let s' := outcome (_onBundleLoaded w b s) in
  NoDup (obj_keys (_fileRequests s')) ∧
  _bundleAssets s' = _bundleAssets s ∧
  _assetsInBundles s' = _assetsInBundles s ∧
  _urlsInBundles s' = _urlsInBundles s ∧
  arrays s' = arrays s ∧
  listeners s' = listeners s ∧
  (∀ url requests, obj_get url (_fileRequests s') = Some requests →
                   obj_get url (_fileRequests s) = Some requests).
Proof.
  intros Hnd. unfold _onBundleLoaded.
  destruct (Asset.resource (objects w b)) as [res|].
  - by apply resolve_loop_frame.
  - destruct (onBundleError_frame w
      ("Bundle " +:+ Asset.id (objects w b) +:+ " failed to load") b s Hnd)
      as (H1 & H2 & H3 & H4 & H5 & H6 & H7 & _). done.
Qed.

(** ** [loadUrl] *)

Lemma obj_set_app_r {V} k (v : V) (o1 o2 : jsobj V) :
  k ∉ obj_keys o1 → obj_set k v (o1 ++ o2) = o1 ++ obj_set k v o2.
Proof.
  unfold obj_keys. induction o1 as [|[k' v'] o1 IH]; [done|].
  rewrite fmap_cons, not_elem_of_cons. cbn [fst]. intros [Hne Hnin].
  cbn [app obj_set]. rewrite decide_False by done. by rewrite IH.
Qed.

Lemma obj_set_notin {V} k (v : V) (o : jsobj V) :
  k ∉ obj_keys o → obj_set k v o = o ++ [(k, v)].
Proof.
  intros H. rewrite <-(app_nil_r o) at 1. by rewrite obj_set_app_r.
Qed.

Lemma loadUrl_not_found w url callback s :
  _findLoadedOrLoadingBundleForUrl w url s = Return None →
  loadUrl w url callback s =
  Ok (invoke callback (Some ("URL " +:+ url +:+ " not found in any bundles")) None s).
Proof. intros H. unfold loadUrl. by rewrite H. Qed.


Lemma loadUrl_found_loaded w url callback s b res :
  first_match (is_loaded w) (bundles_of url s) b →
  Asset.resource (objects w b) = Some res →
  loadUrl w url callback s =
    match decodeURIComponent w url with
    | None => Throw URIError s
    | Some path => Ok (invoke callback None (Some (getBlobUrl res path)) s)
    end.
Proof.
  intros Hfirst Hres.
  assert (Hf : _findLoadedOrLoadingBundleForUrl w url s = Return (Some b)).
  { apply find_bundle_spec. by left. }
  destruct Hfirst as (_ & _ & _ & Hb & _).
  unfold is_loaded in Hb. apply andb_true_iff in Hb as [Hb _].
  unfold loadUrl. by rewrite Hf, Hb, Hres.
Qed.

Lemma loadUrl_loaded w url callback s b res path :
  first_match (is_loaded w) (bundles_of url s) b →
  Asset.resource (objects w b) = Some res →
  decodeURIComponent w url = Some path →
  loadUrl w url callback s = Ok (invoke callback None (Some (getBlobUrl res path)) s).
Proof.
  intros Hfirst Hres Hpath.
  by rewrite (loadUrl_found_loaded w url callback s b res), Hpath.
Qed.











(** ** A load notification without a resource *)

Lemma onBundleError_calls w err b s :
  ∃ new, calls (outcome (_onBundleError w err b s)) = calls s ++ new ∧
         Forall (λ c, call_err c = Some err ∧ call_blobUrl c = None) new.
Proof.
  unfold _onBundleError.
  apply (for_each_outcome (λ _, True)
    (λ s s', ∃ new, calls s' = calls s ++ new ∧
                    Forall (λ c, call_err c = Some err ∧ call_blobUrl c = None) new));
    [| | |done].
  - intros s0. exists []. by rewrite app_nil_r.
  - intros s1 s2 s3 (n1 & A1 & A2) (n2 & B1 & B2).
    exists (n1 ++ n2). split; [by rewrite B1, A1, app_assoc|by apply Forall_app].
  - intros url s0 _. split; [done|].
    destruct (fail_requests_for_cases w err url s0)
      as [[_ ->]|(requests & Hq & [[_ ->]|[[_ ->]|[_ ->]]])]; cbn [outcome];
      try (exists []; by rewrite app_nil_r).
    rewrite foldl_invoke. proj_state. eexists. split; [done|].
    unfold calls_of. apply Forall_fmap, Forall_true. done.
Qed.

(** C7. A load notification for a bundle that has no resource is handled as
    the error notification with the message ['Bundle <id> failed to load'],
    and every continuation it invokes gets that error and no blob URL. *)
Theorem onBundleLoaded_without_resource w b s :
  Asset.resource (objects w b) = None →
  let err := "Bundle " +:+ Asset.id (objects w b) +:+ " failed to load" in
  _onBundleLoaded w b s = _onBundleError w err b s ∧
  ∃ new, calls (outcome (_onBundleLoaded w b s)) = calls s ++ new ∧
         Forall (λ c, call_err c = Some err ∧ call_blobUrl c = None) new.
Proof.
  intros Hres err.
  assert (E : _onBundleLoaded w b s = _onBundleError w err b s).
  { unfold _onBundleLoaded. by rewrite Hres. }
  split; [done|]. rewrite E. apply onBundleError_calls.
Qed.
(** ** Removal *)

Lemma remove_bundle_from_frame asset id s :
  _fileRequests (remove_bundle_from asset id s) = _fileRequests s ∧
  calls (remove_bundle_from asset id s) = calls s ∧
  _bundleAssets (remove_bundle_from asset id s) = _bundleAssets s ∧
  listeners (remove_bundle_from asset id s) = listeners s.
Proof.
  unfold remove_bundle_from.
  destruct (obj_get id (_assetsInBundles s)) as [loc|]; [|done].
  destruct (indexOf asset (arrays s !!! loc)) as [idx|]; [|done].
  by destruct (delete idx (arrays s !!! loc)).
Qed.

Lemma remove_bundle_loop_frame asset ids s :
  let s' := foldl (λ s id, remove_bundle_from asset id s) s ids in
  _fileRequests s' = _fileRequests s ∧ calls s' = calls s ∧
  _bundleAssets s' = _bundleAssets s ∧ listeners s' = listeners s.
Proof.
  revert s. induction ids as [|id ids IH]; intros s; [done|].
  cbn [foldl]. destruct (IH (remove_bundle_from asset id s)) as (E1 & E2 & E3 & E4).
  destruct (remove_bundle_from_frame asset id s) as (F1 & F2 & F3 & F4).
  cbv zeta. rewrite E1, E2, E3, E4. done.
Qed.

(** C9. The remove notification of a bundle returns normally and leaves the
    request queue as it is: no entry is added or deleted and no continuation
    is invoked, whatever bundles the queued URLs have. *)
Theorem onAssetRemoved_bundle_keeps_requests w b s :
  Asset.type (objects w b) = "bundle" →
  ∃ s', _onAssetRemoved w b s = Ok s' ∧
        _fileRequests s' = _fileRequests s ∧
        calls s' = calls s.
Proof.
  intros Hty. unfold _onAssetRemoved. rewrite decide_True by done.
  eexists. split; [done|].
  match goal with |- context [foldl _ ?s0 ?ids] =>
    destruct (remove_bundle_loop_frame b ids s0) as (E1 & E2 & _) end.
  by rewrite E1, E2.
Qed.

(** C10. For an asset that is not a bundle, that is in [_assetsInBundles] and
    whose [getFileUrl()] returns null, [_getAssetFileUrls] returns null and
    the remove notification throws a TypeError, once the entry of the asset
    has been deleted, on reading the length of that null. *)
Theorem onAssetRemoved_without_url_throws w a s :
  Asset.type (objects w a) ≠ "bundle" →
  is_Some (obj_get (Asset.id (objects w a)) (_assetsInBundles s)) →
  Asset.getFileUrl (objects w a) = None →
  _getAssetFileUrls (objects w a) = None ∧
  _onAssetRemoved w a s =
    Throw TypeError (set_assetsInBundles (obj_delete (Asset.id (objects w a))) s).
Proof.
  intros Hty [loc Hloc] Hurl.
  assert (Hnone : _getAssetFileUrls (objects w a) = None).
  { unfold _getAssetFileUrls. by rewrite Hurl. }
  split; [done|].
  unfold _onAssetRemoved. rewrite decide_False by done. by rewrite Hloc, Hnone.
Qed.

(** ** Strings *)

Lemma string_app_nil (s : string) : "" +:+ s = s.
Proof. reflexivity. Qed.

Lemma string_app_cons c (s1 s2 : string) : String c s1 +:+ s2 = String c (s1 +:+ s2).
Proof. reflexivity. Qed.

Lemma string_app_length (s1 s2 : string) :
  String.length (s1 +:+ s2) = String.length s1 + String.length s2.
Proof.
  induction s1 as [|c s1 IH]; [done|].
  rewrite string_app_cons. cbn [String.length]. by rewrite IH.
Qed.

Lemma string_app_assoc (s1 s2 s3 : string) :
  (s1 +:+ s2) +:+ s3 = s1 +:+ (s2 +:+ s3).
Proof.
  induction s1 as [|c s1 IH]; [done|]. rewrite !string_app_cons. by rewrite IH.
Qed.

Lemma string_app_eq_length (a b x y : string) :
  a +:+ x = b +:+ y → String.length a = String.length b → a = b ∧ x = y.
Proof.
  revert b. induction a as [|c a IH]; intros [|d b] H Hlen; try done.
  rewrite !string_app_cons in H. cbn in Hlen. injection H as -> H. injection Hlen as Hlen.
  destruct (IH b H Hlen) as [-> ->]. done.
Qed.

Lemma strip_prefix_Some pat s rest :
  strip_prefix pat s = Some rest ↔ s = pat +:+ rest.
Proof.
  revert s. induction pat as [|a pat IH]; intros s; cbn [strip_prefix].
  - rewrite string_app_nil. split; [by intros [= ->]|by intros ->].
  - rewrite string_app_cons. destruct s as [|c s]; [done|].
    destruct (decide (a = c)) as [->|Hne].
    + rewrite IH. split; [by intros ->|by intros [= ->]].
    + split; [done|]. intros [= -> _]. done.
Qed.

(** The replacement takes place at an occurrence of the pattern, and no
    occurrence starts before it. *)
Lemma replace_occurrence pat s :
  (∃ p q, s = p +:+ pat +:+ q) →
  ∃ p q, s = p +:+ pat +:+ q ∧
         (∀ p' q', s = p' +:+ pat +:+ q' → (String.length p ≤ String.length p')%nat) ∧
         ∀ rep, replace pat rep s = p +:+ rep +:+ q.
Proof.
  induction s as [|c s IH]; intros (p0 & q0 & H0).
  - destruct p0; [|done]. rewrite string_app_nil in H0.
    exists "", q0. split_and!; [done|cbn; lia|].
    intros rep. cbn [replace]. apply strip_prefix_Some in H0.
    by rewrite H0.
  - destruct (strip_prefix pat (String c s)) as [rest|] eqn:Hs.
    + exists "", rest. apply strip_prefix_Some in Hs as Hs'.
      split_and!; [done|cbn; lia|]. intros rep. cbn [replace]. by rewrite Hs.
    + destruct p0 as [|c0 p0].
      { rewrite string_app_nil in H0. apply strip_prefix_Some in H0. congruence. }
      rewrite string_app_cons in H0. injection H0 as <- H0.
      destruct IH as (p & q & Hpq & Hmin & Hrep); [by exists p0, q0|].
      exists (String c p), q. split_and!.
      * rewrite string_app_cons. by rewrite <-Hpq.
      * intros [|c' p'] q' H'.
        -- rewrite string_app_nil in H'. apply strip_prefix_Some in H'. congruence.
        -- rewrite string_app_cons in H'. injection H' as _ H'.
           cbn [String.length]. apply le_n_S. by eapply Hmin.
      * intros rep. cbn [replace]. rewrite Hs, string_app_cons. by rewrite Hrep.
Qed.

Lemma replace_no_occurrence pat rep s :
  (∀ p q, s ≠ p +:+ pat +:+ q) → replace pat rep s = s.
Proof.
  induction s as [|c s IH]; intros Hno.
  - cbn [replace]. destruct (strip_prefix pat "") as [rest|] eqn:Hs; [|done].
    apply strip_prefix_Some in Hs. by destruct (Hno "" rest).
  - cbn [replace]. destruct (strip_prefix pat (String c s)) as [rest|] eqn:Hs.
    + apply strip_prefix_Some in Hs. by destruct (Hno "" rest).
    + rewrite IH; [done|]. intros p q ->. by apply (Hno (String c p) q).
Qed.

Lemma pretty_N_go_length x s :
  (String.length s ≤ String.length (pretty_N_go x s))%nat.
Proof.
  revert s. induction (N.lt_wf_0 x) as [x _ IH]; intros s.
  destruct (decide (x = 0%N)) as [->|Hx]; [by rewrite pretty_N_go_0|].
  rewrite pretty_N_go_step by lia.
  etrans; [|apply IH; apply N.div_lt; lia]. cbn. lia.
Qed.

Lemma pretty_nat_nonempty (i : nat) : (0 < String.length (pretty i))%nat.
Proof.
  unfold pretty, pretty_nat, pretty, pretty_N.
  destruct (decide (N.of_nat i = 0%N)) as [|Hx]; [cbn; lia|].
  rewrite pretty_N_go_step by lia.
  eapply Nat.lt_le_trans; [|apply pretty_N_go_length]. cbn. lia.
Qed.

(** ** The URLs of an asset *)

Lemma index_urls_loop id urls : ∀ s,
  let v := obj_get id (_assetsInBundles s) in
  let s' :=
    foldl (λ s url,
             set_urlsInBundles (obj_set url (obj_get id (_assetsInBundles s))) s)
          s urls in
  (∀ url, url ∈ urls → obj_get url (_urlsInBundles s') = Some v) ∧
  (∀ url, url ∉ urls → obj_get url (_urlsInBundles s') = obj_get url (_urlsInBundles s)) ∧
  _assetsInBundles s' = _assetsInBundles s ∧
  arrays s' = arrays s ∧
  _bundleAssets s' = _bundleAssets s ∧
  _fileRequests s' = _fileRequests s ∧
  listeners s' = listeners s ∧
  calls s' = calls s.
Proof.
  induction urls as [|url0 urls IH]; intros s; cbv zeta.
  - cbn [foldl]. split_and!; try done. intros url Hin. by apply not_elem_of_nil in Hin.
  - cbn [foldl].
    set (s1 := set_urlsInBundles _ s).
    destruct (IH s1) as (E1 & E2 & E3 & E4 & E5 & E6 & E7 & E8).
    split_and!; try done.
    + intros url Hin. destruct (decide (url ∈ urls)) as [Hin'|Hnin].
      * by rewrite E1.
      * apply elem_of_cons in Hin as [->|]; [|done].
        rewrite E2 by done. subst s1. proj_state. apply obj_get_set_eq.
    + intros url [Hne Hnin]%not_elem_of_cons. rewrite E2 by done.
      subst s1. proj_state. by apply obj_get_set_ne.
Qed.

Lemma page_url_occurrence u :
  (∃ p q, u = p +:+ ".png" +:+ q) →
  ∃ p q, u = p +:+ ".png" +:+ q ∧
         (∀ p' q', u = p' +:+ ".png" +:+ q' → (String.length p ≤ String.length p')%nat) ∧
         ∀ i, page_url u i = p +:+ pretty i +:+ ".png" +:+ q.
Proof.
  intros H. destruct (replace_occurrence ".png" u H) as (p & q & Hu & Hmin & Hrep).
  exists p, q. split_and!; [done|done|].
  intros i. unfold page_url. by rewrite Hrep, string_app_assoc.
Qed.

(** Without ['.png'] in the URL every page has the URL of page 0. *)
Lemma page_url_no_png u i :
  (∀ p q, u ≠ p +:+ ".png" +:+ q) → page_url u i = u.
Proof. apply replace_no_occurrence. Qed.

Lemma page_urls_NoDup u n :
  (∃ p q, u = p +:+ ".png" +:+ q) →
  NoDup (u :: (page_url u <$> seq 1 (n - 1))).
Proof.
  intros H. destruct (page_url_occurrence u H) as (p & q & Hu & _ & Hpage).
  apply NoDup_cons. split.
  - intros (i & Hi & _)%list_elem_of_fmap. rewrite Hpage in Hi. rewrite Hu in Hi at 1.
    apply String.app_inj in Hi.
    apply (f_equal String.length) in Hi. rewrite !string_app_length in Hi.
    pose proof (pretty_nat_nonempty i). lia.
  - apply NoDup_fmap_2_strong; [|apply NoDup_seq].
    intros i j _ _ Hij. rewrite !Hpage in Hij. apply String.app_inj in Hij.
    destruct (decide (String.length (pretty i) = String.length (pretty j))) as [Hl|Hl].
    + apply string_app_eq_length in Hij as [Hij _]; [|done].
      by apply (inj pretty).
    + apply (f_equal String.length) in Hij. rewrite !string_app_length in Hij. lia.
Qed.

(** C8, as the code has it. For a font asset with [n >= 1] texture pages
    whose normalized URL [u] contains ['.png'], indexing the asset installs
    exactly [n] distinct URLs: [u] for page 0 and, for each page [i] from 1
    to [n - 1], [u] with [i] inserted before its first ['.png']; each of them
    holds the very array that [_assetsInBundles] holds for the asset, and no
    other property of [_urlsInBundles] changes. *)
Theorem font_page_urls_indexed w asset s raw loc :
  Asset.type (objects w asset) = "font" →
  Asset.getFileUrl (objects w asset) = Some raw →
  raw ≠ "" →
  (1 ≤ Asset.data_info_maps_length (objects w asset))%nat →
  (∃ p q, _normalizeUrl raw = p +:+ ".png" +:+ q) →
  obj_get (Asset.id (objects w asset)) (_assetsInBundles s) = Some loc →
  ∃ urls p q,
    _getAssetFileUrls (objects w asset) = Some urls ∧
    length urls = Asset.data_info_maps_length (objects w asset) ∧
    NoDup urls ∧
    urls !! 0 = Some (_normalizeUrl raw) ∧
    _normalizeUrl raw = p +:+ ".png" +:+ q ∧
    (∀ p' q', _normalizeUrl raw = p' +:+ ".png" +:+ q' →
              (String.length p ≤ String.length p')%nat) ∧
    (∀ i, (1 ≤ i < Asset.data_info_maps_length (objects w asset))%nat →
          urls !! i = Some (p +:+ pretty i +:+ ".png" +:+ q)) ∧
    (∀ url, url ∈ urls →
            obj_get url (_urlsInBundles (_indexAssetFileUrls w asset s)) = Some (Some loc)) ∧
    (∀ url, url ∉ urls →
            obj_get url (_urlsInBundles (_indexAssetFileUrls w asset s)) =
            obj_get url (_urlsInBundles s)) ∧
    obj_get (Asset.id (objects w asset))
      (_assetsInBundles (_indexAssetFileUrls w asset s)) = Some loc.
Proof.
  intros Hty Hurl Hraw Hn Hocc Hloc.
  set (n := Asset.data_info_maps_length (objects w asset)) in *.
  set (u := _normalizeUrl raw) in *.
  destruct (page_url_occurrence u Hocc) as (p & q & Hu & Hmin & Hpage).
  assert (Hurls : _getAssetFileUrls (objects w asset) =
                  Some (u :: (page_url u <$> seq 1 (n - 1)))).
  { unfold _getAssetFileUrls. rewrite Hurl, decide_False, decide_True by done. done. }
  exists (u :: (page_url u <$> seq 1 (n - 1))), p, q.
  unfold _indexAssetFileUrls. rewrite Hurls.
  destruct (index_urls_loop (Asset.id (objects w asset))
              (u :: (page_url u <$> seq 1 (n - 1))) s)
    as (E1 & E2 & E3 & _).
  split_and!; try done.
  - cbn [length]. rewrite length_fmap, length_seq. lia.
  - by apply page_urls_NoDup.
  - intros i [Hi1 Hi2]. destruct i as [|i]; [lia|]. rewrite lookup_cons.
    rewrite list_lookup_fmap, lookup_seq_lt by lia. cbn. by rewrite Hpage.
  - intros url Hin. rewrite E1 by done. by rewrite Hloc.
  - by rewrite E3.
Qed.

(** The pages of the font of the small world. *)
Example font_png_three_pages :
  _getAssetFileUrls (ex_font 3 "font.png") = Some ["font.png"; "font1.png"; "font2.png"].
Proof. reflexivity. Qed.

(** A font of three pages whose URL has no ['.png']: one URL is indexed, the
    pages 1 and 2 get the URL of page 0. *)
Lemma font_json_one_url :
  Asset.type (objects ex_json_font 2) = "font" ∧
  Asset.data_info_maps_length (objects ex_json_font 2) = 3 ∧
  _getAssetFileUrls (objects ex_json_font 2) = Some ["font.json"; "font.json"; "font.json"] ∧
  obj_keys (_urlsInBundles ex_bundle_only) = [] ∧
  obj_keys (_urlsInBundles (_onAssetAdded ex_json_font 2 ex_bundle_only)) = ["font.json"] ∧
  length (obj_keys (_urlsInBundles (_onAssetAdded ex_json_font 2 ex_bundle_only))) ≠
    Asset.data_info_maps_length (objects ex_json_font 2).
Proof. vm_compute. split_and!; try done. Qed.

(** ** Query strings *)

Lemma before_query_length_le p q :
  (String.length (before_query (p +:+ "?" +:+ q)) ≤ String.length p)%nat.
Proof.
  induction p as [|c p IH].
  - rewrite string_app_nil, string_app_cons. cbn [before_query].
    rewrite decide_True by done. cbn. lia.
  - rewrite string_app_cons. cbn [before_query String.length].
    destruct (decide (c = "?"%char)); cbn [String.length]; lia.
Qed.

Lemma normalizeUrl_query_ne p q : _normalizeUrl (p +:+ "?" +:+ q) ≠ p +:+ "?" +:+ q.
Proof.
  unfold _normalizeUrl. intros H. apply (f_equal String.length) in H.
  pose proof (before_query_length_le p q) as Hle.
  rewrite H, !string_app_length in Hle. cbn in Hle. lia.
Qed.

Lemma normalizeUrl_query p q :
  _normalizeUrl p = p → _normalizeUrl (p +:+ "?" +:+ q) = p.
Proof.
  unfold _normalizeUrl. induction p as [|c p IH].
  - done.
  - rewrite string_app_cons. cbn [before_query].
    destruct (decide (c = "?"%char)); [done|].
    intros [= H]. by rewrite IH.
Qed.

Lemma normalizeUrl_idemp url : _normalizeUrl (_normalizeUrl url) = _normalizeUrl url.
Proof.
  unfold _normalizeUrl. induction url as [|c url IH]; [done|].
  cbn [before_query]. destruct (decide (c = "?"%char)) as [|Hc]; [done|].
  cbn [before_query]. rewrite decide_False by done. by rewrite IH.
Qed.

(** No member of [Object.prototype] has a question mark in its name. *)
Lemma Object_prototype_normalized name :
  is_Some (obj_get name Object_prototype) → _normalizeUrl name = name.
Proof.
  intros [len H]. apply obj_get_Some_key in H. unfold Object_prototype, obj_keys in H.
  cbn [fmap list_fmap fst] in H.
  repeat (apply elem_of_cons in H as [->|H]; [vm_compute; reflexivity|]).
  by apply not_elem_of_nil in H.
Qed.

(** C5, as the code has it. [loadUrl] does not normalize its argument: the
    search and the request queue use the URL as it is given. For a URL
    without a query string that is the normalized URL. For a URL with a
    query string, when the URLs of [_urlsInBundles] are normalized, as
    indexing leaves them, no bundle is found and the continuation is invoked
    at once with ['URL <url> not found in any bundles']. *)
Theorem loadUrl_uses_url_as_given w url callback s :
  urls_normalized s →
  (_normalizeUrl url = url →
     loadUrl w url callback s = loadUrl w (_normalizeUrl url) callback s) ∧
  (∀ p q, url = p +:+ "?" +:+ q →
     loadUrl w url callback s =
     Ok (invoke callback (Some ("URL " +:+ url +:+ " not found in any bundles")) None s)).
Proof.
  intros Hkeys. split.
  - by intros ->.
  - intros p q Hurl. apply loadUrl_not_found, find_bundle_None.
    assert (Hne : _normalizeUrl url ≠ url).
    { rewrite Hurl. apply normalizeUrl_query_ne. }
    split.
    + unfold bundles_of. destruct (obj_get url (_urlsInBundles s)) as [v|] eqn:Hget.
      * by apply obj_get_Some_key, Hkeys in Hget.
      * intros b Hb. by apply not_elem_of_nil in Hb.
    + intros Hm%reads_method_member. destruct Hm as [_ Hm].
      by apply Object_prototype_normalized in Hm.
Qed.

(** The texture of the small world is indexed under "tex.png"; asked with a
    query string, [loadUrl] fails, asked without, it succeeds. *)
Lemma loadUrl_query_not_stripped :
  _normalizeUrl "tex.png?t=3" = "tex.png" ∧
  loadUrl ex_loaded "tex.png?t=3" 7 ex_added =
    Ok (invoke 7 (Some "URL tex.png?t=3 not found in any bundles") None ex_added) ∧
  loadUrl ex_loaded (_normalizeUrl "tex.png?t=3") 7 ex_added =
    Ok (invoke 7 None (Some "blob:tex.png") ex_added) ∧
  loadUrl ex_loaded "tex.png?t=3" 7 ex_added ≠
    loadUrl ex_loaded (_normalizeUrl "tex.png?t=3") 7 ex_added.
Proof. split_and!; [reflexivity..|]. vm_compute. discriminate. Qed.

(** ** [destroy] *)

Lemma destroy_loop ids : ∀ s,
  let s' :=
    foldl (λ s id,
             on ("error:" +:+ id) OnBundleError (on ("load:" +:+ id) OnBundleLoaded s))
          s ids in
  (∀ l, l ∈ listeners s → l ∈ listeners s') ∧
  (∀ id, id ∈ ids →
         ("load:" +:+ id, OnBundleLoaded) ∈ listeners s' ∧
         ("error:" +:+ id, OnBundleError) ∈ listeners s') ∧
  (∀ l, l ∈ listeners s' →
        l ∈ listeners s ∨ l.2 = OnBundleLoaded ∨ l.2 = OnBundleError).
Proof.
  induction ids as [|id ids IH]; intros s; cbv zeta; cbn [foldl].
  - split_and!; [done| |by left]. intros id Hin. by apply not_elem_of_nil in Hin.
  - set (s1 := on _ _ (on _ _ s)).
    destruct (IH s1) as (E1 & E2 & E3).
    assert (Hs1 : listeners s1 =
                  listeners s ++ [("load:" +:+ id, OnBundleLoaded)] ++
                  [("error:" +:+ id, OnBundleError)]).
    { subst s1. proj_state. by rewrite <-app_assoc. }
    split_and!.
    + intros l Hl. apply E1. rewrite Hs1. apply elem_of_app. by left.
    + intros id' [->|Hin]%elem_of_cons; [|by apply E2].
      split; apply E1; rewrite Hs1; apply elem_of_app; right.
      * left.
      * right. left.
    + intros l Hl. apply E3 in Hl as [Hl|Hl]; [|by right].
      rewrite Hs1 in Hl. apply elem_of_app in Hl as [Hl|Hl]; [by left|].
      right. apply elem_of_cons in Hl as [->|Hl]; [by left|].
      apply list_elem_of_singleton in Hl as ->. by right.
Qed.

(** What [destroy] does with the listeners: the two global ones are removed,
    and the ones of every bundle of [_bundleAssets] are there afterwards. *)
Lemma destroy_listeners s :
  (("add", OnAssetAdded) ∉ listeners_left (destroy s)) ∧
  (("remove", OnAssetRemoved) ∉ listeners_left (destroy s)) ∧
  ∀ id, id ∈ obj_keys (_bundleAssets s) →
        ("load:" +:+ id, OnBundleLoaded) ∈ listeners_left (destroy s) ∧
        ("error:" +:+ id, OnBundleError) ∈ listeners_left (destroy s).
Proof.
  unfold destroy. cbn [listeners_left].
  set (s1 := off "remove" OnAssetRemoved (off "add" OnAssetAdded s)).
  destruct (destroy_loop (for_in (_bundleAssets s1)) s1) as (E1 & E2 & E3).
  assert (Hs1 : ∀ l, l ∈ listeners s1 →
                     l ≠ ("add", OnAssetAdded) ∧ l ≠ ("remove", OnAssetRemoved)).
  { intros l. subst s1. proj_state.
    rewrite !list_elem_of_filter. tauto. }
  split_and!.
  - intros Hin. apply E3 in Hin as [Hin|[Hin|Hin]]; [|done..].
    by apply Hs1 in Hin as [? _].
  - intros Hin. apply E3 in Hin as [Hin|[Hin|Hin]]; [|done..].
    by apply Hs1 in Hin as [_ ?].
  - intros id Hid. apply E2. by apply elem_of_for_in.
Qed.

(** C4, at a registry that knows one bundle: after [destroy] the asset
    registry holds the load and error listeners of the bundle, which
    [destroy] has subscribed once more instead of removing them. *)
Theorem destroy_keeps_bundle_listeners :
  listeners ex_added =
    [("add", OnAssetAdded); ("remove", OnAssetRemoved);
     ("load:1", OnBundleLoaded); ("error:1", OnBundleError)] ∧
  listeners_left (destroy ex_added) =
    [("load:1", OnBundleLoaded); ("error:1", OnBundleError);
     ("load:1", OnBundleLoaded); ("error:1", OnBundleError)].
Proof. split; reflexivity. Qed.

(** ** Removing a bundle *)

Lemma filter_ne_notin (b : Ref) (l : list Ref) :
  b ∉ l → filter (λ y, y ≠ b) l = l.
Proof.
  induction l as [|x l IH]; [done|].
  intros [Hne Hnin]%not_elem_of_cons.
  rewrite filter_cons_True by congruence. by rewrite IH.
Qed.

Lemma delete_first_occurrence (b : Ref) (l : list Ref) idx :
  NoDup l → indexOf b l = Some idx → delete idx l = filter (λ y, y ≠ b) l.
Proof.
  intros Hnd Hidx. apply indexOf_Some in Hidx as [Hl Hnin].
  rewrite delete_take_drop.
  assert (Hsplit : l = take idx l ++ b :: drop (S idx) l) by (by rewrite take_drop_middle).
  rewrite Hsplit in Hnd. apply NoDup_app in Hnd as (_ & _ & Hnd).
  apply NoDup_cons in Hnd as [Hnd _].
  rewrite Hsplit at 3.
  rewrite filter_app, filter_cons_False by tauto.
  by rewrite !filter_ne_notin.
Qed.

Lemma filter_ne_nil (b : Ref) (l : list Ref) :
  NoDup l → b ∈ l → filter (λ y, y ≠ b) l = [] → l = [b].
Proof.
  intros Hnd Hin Hf. destruct l as [|x l]; [by apply not_elem_of_nil in Hin|].
  rewrite filter_cons in Hf. destruct (decide (x ≠ b)) as [|Hx]; [done|].
  apply dec_stable in Hx as ->. apply NoDup_cons in Hnd as [Hnin _].
  rewrite filter_ne_notin in Hf by done. by subst.
Qed.

Lemma purge_urls_lookup loc urls url :
  obj_get url (purge_urls loc urls) =
    if decide (obj_get url urls = Some (Some loc)) then None else obj_get url urls.
Proof.
  unfold purge_urls.
  assert (Hloop : ∀ ks o,
    obj_get url
      (foldl (λ o url,
                if decide (obj_get url o = Some (Some loc)) then obj_delete url o else o)
             o ks) =
    if decide (url ∈ ks ∧ obj_get url o = Some (Some loc)) then None else obj_get url o).
  { induction ks as [|k ks IH]; intros o; cbn [foldl].
    - rewrite decide_False; [done|]. intros [Hin _]. by apply not_elem_of_nil in Hin.
    - rewrite IH. destruct (decide (obj_get k o = Some (Some loc))) as [Hk|Hk].
      + rewrite obj_get_delete. destruct (decide (url = k)) as [->|Hne].
        * rewrite decide_False by (by intros [_ ?]).
          rewrite decide_True; [done|]. split; [left|done].
        * destruct (decide (url ∈ ks ∧ obj_get url o = Some (Some loc))) as [[H1 H2]|Hn].
          -- rewrite decide_True; [done|]. split; [by right|done].
          -- rewrite decide_False; [done|].
             intros [[->|H1]%elem_of_cons H2]; [done|]. by apply Hn.
      + destruct (decide (url ∈ ks ∧ obj_get url o = Some (Some loc))) as [[H1 H2]|Hn].
        * rewrite decide_True; [done|]. split; [by right|done].
        * rewrite decide_False; [done|].
          intros [[->|H1]%elem_of_cons H2]; [done|]. by apply Hn. }
  rewrite Hloop.
  destruct (decide (obj_get url urls = Some (Some loc))) as [Hg|Hg].
  - rewrite decide_True; [done|]. split; [|done].
    apply elem_of_for_in. by eapply obj_get_Some_key.
  - rewrite decide_False; [done|]. by intros [_ ?].
Qed.

Lemma remove_bundle_from_step b id loc s :
  obj_get id (_assetsInBundles s) = Some loc →
  loc < length (arrays s) →
  NoDup (arrays s !!! loc) →
  arrays (remove_bundle_from b id s) =
    <[loc := filter (λ y, y ≠ b) (arrays s !!! loc)]> (arrays s) ∧
  _assetsInBundles (remove_bundle_from b id s) =
    (if decide (arrays s !!! loc = [b]) then obj_delete id (_assetsInBundles s)
     else _assetsInBundles s) ∧
  _urlsInBundles (remove_bundle_from b id s) =
    (if decide (arrays s !!! loc = [b]) then purge_urls loc (_urlsInBundles s)
     else _urlsInBundles s).
Proof.
  intros Hid Hlt Hnd. unfold remove_bundle_from. rewrite Hid.
  destruct (indexOf b (arrays s !!! loc)) as [idx|] eqn:Hidx.
  - rewrite (delete_first_occurrence b _ idx Hnd Hidx).
    assert (Hin : b ∈ arrays s !!! loc).
    { apply indexOf_Some in Hidx as [Hl _]. by eapply list_elem_of_lookup_2. }
    destruct (filter (λ y, y ≠ b) (arrays s !!! loc)) as [|x l'] eqn:Hf.
    + apply filter_ne_nil in Hf; [|done..]. rewrite !decide_True by done. done.
    + assert (Hne : arrays s !!! loc ≠ [b]).
      { intros Heq. rewrite Heq, filter_cons_False, filter_nil in Hf by tauto. done. }
      rewrite !decide_False by done. done.
  - apply indexOf_None in Hidx.
    assert (Hne : arrays s !!! loc ≠ [b]).
    { intros Heq. apply Hidx. rewrite Heq. left. }
    rewrite !decide_False by done. rewrite filter_ne_notin by done.
    split_and!; [|done..]. symmetry. apply list_insert_id.
    by apply list_lookup_lookup_total_lt.
Qed.

Lemma urls_after_snoc b s0 locs loc url :
  loc ∉ locs →
  urls_after b s0 (locs ++ [loc]) url =
    if decide (arrays s0 !!! loc = [b]) then
      if decide (urls_after b s0 locs url = Some (Some loc)) then None
      else urls_after b s0 locs url
    else urls_after b s0 locs url.
Proof.
  intros Hnin. unfold urls_after.
  destruct (obj_get url (_urlsInBundles s0)) as [[loc'|]|];
    [|by repeat case_decide..].
  destruct (decide (loc' = loc)) as [->|Hne].
  - rewrite (decide_False (P := loc ∈ locs ∧ _)) by tauto.
    destruct (decide (arrays s0 !!! loc = [b])) as [Hb|Hb].
    + rewrite !decide_True; [done|done|]. split; [|done].
      apply elem_of_app. right. left.
    + rewrite decide_False; [done|]. tauto.
  - assert (Hiff : loc' ∈ locs ++ [loc] ↔ loc' ∈ locs).
    { rewrite elem_of_app, list_elem_of_singleton. tauto. }
    destruct (decide (loc' ∈ locs ∧ arrays s0 !!! loc' = [b])) as [Hd|Hd].
    + rewrite decide_True by tauto. by repeat case_decide.
    + rewrite decide_False by tauto.
      destruct (decide (arrays s0 !!! loc = [b])); [|done].
      rewrite decide_False; [done|]. congruence.
Qed.

Lemma obj_get_filter {V} (P : string * V → Prop) `{!∀ e, Decision (P e)}
    k (o : jsobj V) :
  NoDup (obj_keys o) →
  obj_get k (filter P o) =
    match obj_get k o with
    | Some v => if decide (P (k, v)) then Some v else None
    | None => None
    end.
Proof.
  unfold obj_keys. induction o as [|[k' v'] o IH]; intros Hnd; [done|].
  rewrite fmap_cons in Hnd. apply NoDup_cons in Hnd as [Hnin Hnd]. cbn [fst] in Hnin.
  rewrite filter_cons. cbn [obj_get].
  destruct (decide (k = k')) as [->|Hne].
  - destruct (decide (P (k', v'))) as [HP|HP].
    + cbn [obj_get]. by rewrite decide_True.
    + apply obj_get_None. unfold obj_keys. intros Hin.
      apply list_elem_of_fmap in Hin as (e & -> & Hin).
      apply list_elem_of_filter in Hin as [_ Hin]. apply Hnin.
      apply list_elem_of_fmap. by exists e.
  - destruct (decide (P (k', v'))); [cbn [obj_get]; rewrite decide_False by done|];
      by apply IH.
Qed.

Lemma NoDup_snd_inj {V} (o : jsobj V) k1 k2 v :
  NoDup o.*2 → (k1, v) ∈ o → (k2, v) ∈ o → k1 = k2.
Proof.
  induction o as [|[k' v'] o IH]; intros Hnd H1 H2.
  - by apply not_elem_of_nil in H1.
  - rewrite fmap_cons in Hnd. apply NoDup_cons in Hnd as [Hnin Hnd]. cbn [snd] in Hnin.
    apply elem_of_cons in H1 as [H1|H1]; apply elem_of_cons in H2 as [H2|H2].
    + congruence.
    + injection H1 as -> ->. destruct Hnin. apply list_elem_of_fmap. by exists (k2, v').
    + injection H2 as -> ->. destruct Hnin. apply list_elem_of_fmap. by exists (k1, v').
    + by apply IH.
Qed.

Lemma urls_after_ext b s0 locs1 locs2 url :
  (∀ loc, loc ∈ locs1 ↔ loc ∈ locs2) →
  urls_after b s0 locs1 url = urls_after b s0 locs2 url.
Proof.
  intros H. unfold urls_after.
  destruct (obj_get url (_urlsInBundles s0)) as [[loc|]|]; [|done..].
  destruct (decide (loc ∈ locs1 ∧ arrays s0 !!! loc = [b])) as [[H1 H2]|Hn].
  - rewrite decide_True; [done|]. split; [by apply H|done].
  - rewrite decide_False; [done|]. intros [H1 H2]. apply Hn. split; [by apply H|done].
Qed.

(** The loop of [_onAssetRemoved] over [_assetsInBundles], in whatever order
    the ids are visited. *)
Lemma remove_loop b s0 todo : ∀ visited s,
  NoDup (obj_keys (_assetsInBundles s0)) →
  NoDup (_assetsInBundles s0).*2 →
  (∀ e, e ∈ _assetsInBundles s0 →
        e.2 < length (arrays s0) ∧ NoDup (arrays s0 !!! e.2)) →
  (∀ e, e ∈ visited ++ todo → e ∈ _assetsInBundles s0) →
  NoDup (visited ++ todo).*1 →
  _assetsInBundles s =
    filter (λ e, e.1 ∉ visited.*1 ∨ arrays s0 !!! e.2 ≠ [b]) (_assetsInBundles s0) →
  length (arrays s) = length (arrays s0) →
  (∀ loc, arrays s !!! loc =
          if decide (loc ∈ visited.*2) then filter (λ y, y ≠ b) (arrays s0 !!! loc)
          else arrays s0 !!! loc) →
  (∀ url, obj_get url (_urlsInBundles s) = urls_after b s0 visited.*2 url) →
  ∃ s', foldl (λ s id, remove_bundle_from b id s) s todo.*1 = s' ∧
  _assetsInBundles s' =
    filter (λ e, e.1 ∉ (visited ++ todo).*1 ∨ arrays s0 !!! e.2 ≠ [b])
      (_assetsInBundles s0) ∧
  length (arrays s') = length (arrays s0) ∧
  (∀ loc, arrays s' !!! loc =
          if decide (loc ∈ (visited ++ todo).*2)
          then filter (λ y, y ≠ b) (arrays s0 !!! loc)
          else arrays s0 !!! loc) ∧
  (∀ url, obj_get url (_urlsInBundles s') = urls_after b s0 (visited ++ todo).*2 url).
Proof.
  induction todo as [|[id loc] todo IH];
    intros visited s Hk Hl Hw Hsub Hnd HA Hlen Harr HU.
  - eexists. split; [done|]. rewrite !app_nil_r. done.
  - assert (Hin0 : (id, loc) ∈ _assetsInBundles s0).
    { apply Hsub. apply elem_of_app. right. left. }
    assert (Hid0 : obj_get id (_assetsInBundles s0) = Some loc)
      by (by apply obj_get_of_elem).
    assert (Hnv : id ∉ visited.*1).
    { rewrite fmap_app, fmap_cons in Hnd. apply NoDup_app in Hnd as (_ & Hd & _).
      intros Hin. apply (Hd _ Hin). left. }
    assert (Hloc : loc ∉ visited.*2).
    { intros Hin. apply list_elem_of_fmap in Hin as ([id' loc'] & Heq & Hin').
      cbn [snd] in Heq. subst loc'. apply Hnv.
      assert (Hin1 : (id', loc) ∈ _assetsInBundles s0).
      { apply Hsub. apply elem_of_app. by left. }
      rewrite (NoDup_snd_inj _ id id' loc Hl Hin0 Hin1).
      apply list_elem_of_fmap. by exists (id', loc). }
    assert (Hsame : ∀ k l, (k, l) ∈ _assetsInBundles s0 → k = id → l = loc).
    { intros k l He ->. apply (obj_get_of_elem _ _ _ Hk) in He. congruence. }
    destruct (Hw (id, loc) Hin0) as [Hlt Hnd0]. cbn [snd] in Hlt, Hnd0.
    assert (Hid : obj_get id (_assetsInBundles s) = Some loc).
    { rewrite HA, obj_get_filter, Hid0 by done. cbn [fst snd].
      rewrite decide_True; [done|by left]. }
    assert (Hcur : arrays s !!! loc = arrays s0 !!! loc).
    { rewrite Harr. by rewrite decide_False. }
    destruct (remove_bundle_from_step b id loc s Hid) as (S1 & S2 & S3);
      [by rewrite Hlen|by rewrite Hcur|].
    rewrite Hcur in S1, S2, S3.
    rewrite fmap_cons. cbn [foldl fst].
    set (s1 := remove_bundle_from b id s) in *.
    specialize (IH (visited ++ [(id, loc)]) s1).
    rewrite <-!app_assoc in IH. cbn [app] in IH.
    apply IH; clear IH; try done.
    + rewrite S2, HA. destruct (decide (arrays s0 !!! loc = [b])) as [Hb|Hb].
      * rewrite obj_delete_of_filter. apply filter_ext_in.
        intros [k l] He. cbn [fst snd]. rewrite fmap_app, not_elem_of_app.
        cbn [fmap list_fmap fst]. rewrite list_elem_of_singleton.
        destruct (decide (k = id)) as [->|Hne]; [|tauto].
        rewrite (Hsame id l He eq_refl). tauto.
      * apply filter_ext_in.
        intros [k l] He. cbn [fst snd]. rewrite fmap_app, not_elem_of_app.
        cbn [fmap list_fmap fst]. rewrite list_elem_of_singleton.
        destruct (decide (k = id)) as [->|Hne]; [|tauto].
        rewrite (Hsame id l He eq_refl). tauto.
    + by rewrite S1, length_insert.
    + intros loc'. rewrite S1. destruct (decide (loc' = loc)) as [->|Hne].
      * rewrite list_lookup_total_insert_eq by (by rewrite Hlen).
        rewrite decide_True; [done|]. rewrite fmap_app. apply elem_of_app. right. left.
      * rewrite list_lookup_total_insert_ne by done. rewrite Harr.
        assert (Hiff : loc' ∈ (visited ++ [(id, loc)]).*2 ↔ loc' ∈ visited.*2).
        { rewrite fmap_app, elem_of_app. cbn. rewrite list_elem_of_singleton. tauto. }
        destruct (decide (loc' ∈ visited.*2)).
        -- rewrite decide_True; [done|]. tauto.
        -- rewrite decide_False; [done|]. tauto.
    + intros url. rewrite fmap_app. cbn [fmap list_fmap snd].
      rewrite urls_after_snoc by done. rewrite S3.
      destruct (decide (arrays s0 !!! loc = [b])).
      * rewrite purge_urls_lookup, HU. done.
      * apply HU.
Qed.

(** What the remove notification of a bundle leaves of the indices. *)
Lemma onAssetRemoved_bundle_spec w b s :
  wf s →
  Asset.type (objects w b) = "bundle" →
  ∃ s', _onAssetRemoved w b s = Ok s' ∧
  _assetsInBundles s' =
    filter (λ e, arrays s !!! e.2 ≠ [b]) (_assetsInBundles s) ∧
  length (arrays s') = length (arrays s) ∧
  (∀ loc, arrays s' !!! loc =
          if decide (loc ∈ (_assetsInBundles s).*2)
          then filter (λ y, y ≠ b) (arrays s !!! loc)
          else arrays s !!! loc) ∧
  (∀ url, obj_get url (_urlsInBundles s') =
          urls_after b s (_assetsInBundles s).*2 url) ∧
  _bundleAssets s' = obj_delete (Asset.id (objects w b)) (_bundleAssets s) ∧
  _fileRequests s' = _fileRequests s ∧
  calls s' = calls s.
Proof.
  intros Hwf Hty. unfold _onAssetRemoved. rewrite decide_True by done.
  set (s1 := off _ _ (off _ _ (set_bundleAssets _ s))).
  change (_assetsInBundles s1) with (_assetsInBundles s). unfold for_in, obj_keys.
  destruct (remove_loop b s (for_in_entries (_assetsInBundles s)) [] s1)
    as (s' & Hs' & E1 & E2 & E3 & E4); try done.
  - apply Hwf.
  - apply Hwf.
  - intros [id loc] Hin. cbn [snd].
    assert (Hid : obj_get id (_assetsInBundles s) = Some loc).
    { apply obj_get_of_elem; [apply Hwf|done]. }
    split; [by eapply wf_alloc|by eapply wf_once].
  - intros e He. cbn [app] in He. by apply elem_of_for_in_entries.
  - cbn [app]. apply NoDup_for_in, Hwf.
  - symmetry. apply filter_all. intros e _. left. apply not_elem_of_nil.
  - intros url. unfold urls_after. cbn.
    destruct (obj_get url (_urlsInBundles s)) as [[loc|]|]; [|done..].
    rewrite decide_False; [done|]. intros [Hin _]. by apply not_elem_of_nil in Hin.
  - exists s'. cbn [app] in *. rewrite Hs'. split; [done|].
    assert (Hlocs : ∀ loc, loc ∈ (for_in_entries (_assetsInBundles s)).*2 ↔
                           loc ∈ (_assetsInBundles s).*2).
    { intros loc. by rewrite for_in_entries_perm. }
    destruct (remove_bundle_loop_frame b (for_in_entries (_assetsInBundles s)).*1 s1)
      as (F1 & F2 & F3 & F4). rewrite Hs' in F1, F2, F3, F4.
    split_and!; try done.
    + rewrite E1. apply filter_ext_in. intros e He. split; [|tauto].
      intros [Hn|?]; [|done]. destruct Hn. apply list_elem_of_fmap. exists e.
      split; [done|]. by apply elem_of_for_in_entries.
    + intros loc. rewrite E3. destruct (decide (loc ∈ (_assetsInBundles s).*2)) as [Hin|Hn].
      * rewrite decide_True; [done|]. by apply Hlocs.
      * rewrite decide_False; [done|]. by rewrite Hlocs.
    + intros url. rewrite E4. by apply urls_after_ext.
Qed.

(** ** The invariant *)

Lemma wf_inj s id1 id2 loc :
  wf s →
  obj_get id1 (_assetsInBundles s) = Some loc →
  obj_get id2 (_assetsInBundles s) = Some loc →
  id1 = id2.
Proof.
  intros Hwf H1%obj_get_elem H2%obj_get_elem.
  eapply NoDup_snd_inj; [apply Hwf|done..].
Qed.

Lemma wf_frame s1 s2 :
  _assetsInBundles s1 = _assetsInBundles s2 →
  arrays s1 = arrays s2 →
  _fileRequests s1 = _fileRequests s2 →
  wf s1 → wf s2.
Proof.
  intros HA Harr HF [H1 H2 H3 H4 H5]. rewrite HA, Harr, HF in *. by constructor.
Qed.

Lemma bundles_by_id_frame id s1 s2 :
  _assetsInBundles s1 = _assetsInBundles s2 →
  arrays s1 = arrays s2 →
  bundles_by_id id s1 = bundles_by_id id s2.
Proof. unfold bundles_by_id. by intros -> ->. Qed.

Lemma wf_BundleRegistry : wf BundleRegistry.
Proof.
  constructor; cbn; try apply NoDup_nil_2; intros id loc H; discriminate.
Qed.

Lemma onAssetRemoved_bundle_wf w b s s' :
  wf s → Asset.type (objects w b) = "bundle" → _onAssetRemoved w b s = Ok s' → wf s'.
Proof.
  intros Hwf Hty Hs'.
  destruct (onAssetRemoved_bundle_spec w b s Hwf Hty)
    as (s'' & Hs'' & E1 & E2 & E3 & E4 & E5 & E6 & E7).
  rewrite Hs' in Hs''. injection Hs'' as <-.
  assert (Hget : ∀ id loc, obj_get id (_assetsInBundles s') = Some loc →
                           obj_get id (_assetsInBundles s) = Some loc).
  { intros id loc. rewrite E1, obj_get_filter by apply Hwf.
    destruct (obj_get id (_assetsInBundles s)); [|done]. by case_decide. }
  constructor.
  - rewrite E1. eapply sublist_NoDup; [apply Hwf|].
    unfold obj_keys. apply fmap_sublist, sublist_filter.
  - rewrite E1. eapply sublist_NoDup; [apply Hwf|]. apply fmap_sublist, sublist_filter.
  - intros id loc Hid%Hget. rewrite E2. by eapply wf_alloc.
  - intros id loc Hid%Hget. rewrite E3. case_decide.
    + apply NoDup_filter. by eapply wf_once.
    + by eapply wf_once.
  - rewrite E6. apply Hwf.
Qed.

Lemma indexAssetFileUrls_frame w asset s :
  let s' := _indexAssetFileUrls w asset s in
  _assetsInBundles s' = _assetsInBundles s ∧
  arrays s' = arrays s ∧
  _bundleAssets s' = _bundleAssets s ∧
  _fileRequests s' = _fileRequests s ∧
  listeners s' = listeners s ∧
  calls s' = calls s.
Proof.
  unfold _indexAssetFileUrls. destruct (_getAssetFileUrls (objects w asset)) as [urls|];
    [|done].
  destruct (index_urls_loop (Asset.id (objects w asset)) urls s) as (_ & _ & H).
  apply H.
Qed.

Lemma indexAssetInBundle_spec w assetId b s :
  wf s →
  let s' := _indexAssetInBundle w assetId b s in
  wf s' ∧
  (∀ id, bundles_by_id id s' =
         if decide (id = assetId) then add_once b (bundles_by_id id s)
         else bundles_by_id id s) ∧
  _bundleAssets s' = _bundleAssets s ∧
  _fileRequests s' = _fileRequests s ∧
  listeners s' = listeners s ∧
  calls s' = calls s.
Proof.
  intros Hwf. unfold _indexAssetInBundle.
  set (s1 := match obj_get assetId (_assetsInBundles s) with
             | Some loc => _ | None => _ end).
  assert (H1 : wf s1 ∧
    (∀ id, bundles_by_id id s1 =
           if decide (id = assetId) then add_once b (bundles_by_id id s)
           else bundles_by_id id s) ∧
    _bundleAssets s1 = _bundleAssets s ∧ _fileRequests s1 = _fileRequests s ∧
    listeners s1 = listeners s ∧ calls s1 = calls s).
  { subst s1. destruct (obj_get assetId (_assetsInBundles s)) as [loc|] eqn:Hid.
    - (* the asset has an array *)
      pose proof (wf_alloc s Hwf _ _ Hid) as Hlt.
      pose proof (wf_once s Hwf _ _ Hid) as Hnd.
      destruct (indexOf b (arrays s !!! loc)) as [idx|] eqn:Hidx.
      + split_and!; try done. intros id. case_decide as Hc; [|done]. subst id.
        unfold bundles_by_id, add_once. rewrite Hid. rewrite decide_True; [done|].
        apply indexOf_Some in Hidx as [Hl _]. by eapply list_elem_of_lookup_2.
      + apply indexOf_None in Hidx. split_and!; try done.
        * constructor; proj_state; try apply Hwf.
          -- intros id loc' Hid'. rewrite length_insert. by eapply wf_alloc.
          -- intros id loc' Hid'. destruct (decide (loc = loc')) as [<-|Hne].
             ++ rewrite list_lookup_total_insert_eq by done.
                apply NoDup_app. split_and!; [done| |apply NoDup_singleton].
                by intros x Hx ->%list_elem_of_singleton.
             ++ rewrite list_lookup_total_insert_ne by done. by eapply wf_once.
        * intros id. unfold bundles_by_id. proj_state.
          destruct (decide (id = assetId)) as [->|Hne].
          -- rewrite Hid, list_lookup_total_insert_eq by done.
             unfold add_once. by rewrite decide_False.
          -- destruct (obj_get id (_assetsInBundles s)) as [loc'|] eqn:Hid'; [|done].
             rewrite list_lookup_total_insert_ne; [done|].
             intros <-. apply Hne. by eapply wf_inj.
    - (* a new array *)
      apply obj_get_None in Hid as Hnin.
      assert (Hold : ∀ id loc, obj_get id (_assetsInBundles s) = Some loc →
                               (arrays s ++ [[b]]) !!! loc = arrays s !!! loc).
      { intros id loc Hl. apply lookup_total_app_l. by eapply wf_alloc. }
      split_and!; try done.
      + constructor; proj_state.
        * apply NoDup_keys_set, Hwf.
        * rewrite obj_set_notin, fmap_app by done. apply NoDup_app.
          split_and!; [apply Hwf| |apply NoDup_singleton].
          intros loc Hloc ->%list_elem_of_singleton.
          apply list_elem_of_fmap in Hloc as ([id loc] & Heq & Hin). cbn in Heq. subst loc.
          apply obj_get_of_elem in Hin; [|apply Hwf].
          apply (wf_alloc s Hwf) in Hin. lia.
        * intros id loc. rewrite length_app. cbn [length].
          destruct (decide (id = assetId)) as [->|Hne].
          -- rewrite obj_get_set_eq. intros [= <-]. lia.
          -- rewrite obj_get_set_ne by done. intros Hl%(wf_alloc s Hwf). lia.
        * intros id loc. destruct (decide (id = assetId)) as [->|Hne].
          -- rewrite obj_get_set_eq. intros [= <-].
             rewrite list_lookup_total_middle by done. apply NoDup_singleton.
          -- rewrite obj_get_set_ne by done. intros Hl. rewrite (Hold id) by done.
             by eapply wf_once.
        * apply Hwf.
      + intros id. unfold bundles_by_id. proj_state.
        destruct (decide (id = assetId)) as [->|Hne].
        * rewrite obj_get_set_eq, Hid, list_lookup_total_middle by done. done.
        * rewrite obj_get_set_ne by done.
          destruct (obj_get id (_assetsInBundles s)) as [loc'|] eqn:Hid'; [|done].
          by apply (Hold id). }
  destruct H1 as (W1 & B1 & F1 & F2 & F3 & F4).
  destruct (get w assetId) as [asset|]; [|done].
  destruct (indexAssetFileUrls_frame w asset s1) as (E1 & E2 & E3 & E4 & E5 & E6).
  cbv zeta. split_and!.
  - eapply (wf_frame s1); done.
  - intros id. rewrite <-B1. by apply bundles_by_id_frame.
  - congruence.
  - congruence.
  - congruence.
  - congruence.
Qed.

Lemma add_once_idemp b l : add_once b (add_once b l) = add_once b l.
Proof.
  unfold add_once. destruct (decide (b ∈ l)) as [Hin|Hnin].
  - by rewrite decide_True.
  - rewrite decide_True; [done|]. apply elem_of_app. right. left.
Qed.



Lemma index_bundle_loop w b ids : ∀ s,
  wf s →
  let s' := foldl (λ s assetId, _indexAssetInBundle w assetId b s) s ids in
  wf s' ∧
  (∀ id, bundles_by_id id s' =
         if decide (id ∈ ids) then add_once b (bundles_by_id id s)
         else bundles_by_id id s) ∧
  _bundleAssets s' = _bundleAssets s ∧
  _fileRequests s' = _fileRequests s ∧
  listeners s' = listeners s ∧
  calls s' = calls s.
Proof.
  induction ids as [|a ids IH]; intros s Hwf; cbv zeta; cbn [foldl].
  - split_and!; done.
  - destruct (indexAssetInBundle_spec w a b s Hwf) as (W1 & B1 & F1 & F2 & F3 & F4).
    destruct (IH _ W1) as (W2 & B2 & G1 & G2 & G3 & G4).
    split_and!; try congruence.
    intros id. rewrite B2, B1.
    destruct (decide (id = a)) as [->|Hne].
    + rewrite (decide_True (P := a ∈ a :: ids)) by left.
      case_decide; [apply add_once_idemp|done].
    + destruct (decide (id ∈ ids)) as [Hin|Hnin].
      * rewrite decide_True; [done|by right].
      * rewrite decide_False; [done|]. rewrite not_elem_of_cons. tauto.
Qed.

(** What the add notification leaves of the indices: the bundle is added,
    once, to the array of every asset it lists. *)
Lemma onAssetAdded_spec w asset s :
  wf s →
  let s' := _onAssetAdded w asset s in
  wf s' ∧
  (∀ id, bundles_by_id id s' =
         if decide (Asset.type (objects w asset) = "bundle" ∧
                    id ∈ Asset.data_assets (objects w asset))
         then add_once asset (bundles_by_id id s)
         else bundles_by_id id s) ∧
  _fileRequests s' = _fileRequests s ∧
  calls s' = calls s.
Proof.
  intros Hwf. unfold _onAssetAdded.
  destruct (decide (Asset.type (objects w asset) = "bundle")) as [Hty|Hty].
  - set (s1 := on _ _ (on _ _ (set_bundleAssets _ s))).
    assert (W1 : wf s1) by (by eapply (wf_frame s)).
    destruct (index_bundle_loop w asset (Asset.data_assets (objects w asset)) s1 W1)
      as (W2 & B2 & _ & G2 & _ & G4).
    cbv zeta. split_and!; try done.
    intros id. rewrite B2.
    destruct (decide (id ∈ Asset.data_assets (objects w asset))).
    + by rewrite decide_True.
    + rewrite decide_False; [done|]. tauto.
  - assert (Hno : ∀ id, bundles_by_id id s =
                  if decide (Asset.type (objects w asset) = "bundle" ∧
                             id ∈ Asset.data_assets (objects w asset))
                  then add_once asset (bundles_by_id id s)
                  else bundles_by_id id s).
    { intros id. rewrite decide_False; [done|]. tauto. }
    destruct (obj_get (Asset.id (objects w asset)) (_assetsInBundles s)); [|done].
    destruct (indexAssetFileUrls_frame w asset s) as (E1 & E2 & E3 & E4 & E5 & E6).
    cbv zeta. split_and!; try done.
    + by eapply (wf_frame s).
    + intros id. rewrite <-Hno. by apply bundles_by_id_frame.
Qed.

Lemma listBundlesForAsset_by_id w asset s :
  listBundlesForAsset w asset s = bundles_by_id (Asset.id (objects w asset)) s.
Proof. done. Qed.



(** ** The invariant holds of every state of the registry *)

Lemma obj_delete_wf id s :
  wf s → wf (set_assetsInBundles (obj_delete id) s).
Proof.
  intros Hwf.
  assert (Hget : ∀ id' loc, obj_get id' (obj_delete id (_assetsInBundles s)) = Some loc →
                            obj_get id' (_assetsInBundles s) = Some loc).
  { intros id' loc. rewrite obj_get_delete. by case_decide. }
  constructor; proj_state.
  - apply NoDup_keys_delete, Hwf.
  - eapply sublist_NoDup; [apply Hwf|]. apply fmap_sublist, sublist_filter.
  - intros id' loc Hid%Hget. by eapply wf_alloc.
  - intros id' loc Hid%Hget. by eapply wf_once.
  - apply Hwf.
Qed.

Lemma delete_urls_frame urls : ∀ s,
  let s' := foldl (λ s url, set_urlsInBundles (obj_delete url) s) s urls in
  _assetsInBundles s' = _assetsInBundles s ∧
  arrays s' = arrays s ∧
  _fileRequests s' = _fileRequests s ∧
  ∀ k, k ∈ obj_keys (_urlsInBundles s') → k ∈ obj_keys (_urlsInBundles s).
Proof.
  induction urls as [|url urls IH]; intros s; cbv zeta; cbn [foldl]; [done|].
  destruct (IH (set_urlsInBundles (obj_delete url) s)) as (E1 & E2 & E3 & E4).
  split_and!; try done. intros k Hk%E4. proj_state.
  rewrite obj_keys_delete in Hk. by apply list_elem_of_filter in Hk as [_ ?].
Qed.

Lemma onAssetRemoved_wf w asset s :
  wf s → wf (outcome (_onAssetRemoved w asset s)).
Proof.
  intros Hwf.
  destruct (decide (Asset.type (objects w asset) = "bundle")) as [Hty|Hty].
  - destruct (onAssetRemoved_bundle_spec w asset s Hwf Hty) as (s' & Hs' & _).
    rewrite Hs'. by eapply onAssetRemoved_bundle_wf.
  - unfold _onAssetRemoved. rewrite decide_False by done.
    destruct (obj_get (Asset.id (objects w asset)) (_assetsInBundles s)); [|done].
    pose proof (obj_delete_wf (Asset.id (objects w asset)) s Hwf) as Hwf1.
    destruct (_getAssetFileUrls (objects w asset)) as [urls|]; [|done].
    cbn [outcome].
    match goal with |- wf (foldl _ ?s1 _) =>
      destruct (delete_urls_frame urls s1) as (E1 & E2 & E3 & _) end.
    by eapply (wf_frame (set_assetsInBundles _ s)).
Qed.

Lemma onBundleError_wf w err b s : wf s → wf (outcome (_onBundleError w err b s)).
Proof.
  intros Hwf.
  destruct (onBundleError_frame w err b s (wf_requests s Hwf))
    as (E1 & _ & E3 & _ & E5 & _).
  destruct Hwf as [H1 H2 H3 H4 H5].
  constructor; rewrite ?E3, ?E5; done.
Qed.

Lemma onBundleLoaded_wf w b s : wf s → wf (outcome (_onBundleLoaded w b s)).
Proof.
  intros Hwf.
  destruct (onBundleLoaded_frame w b s (wf_requests s Hwf))
    as (E1 & _ & E3 & _ & E5 & _).
  destruct Hwf as [H1 H2 H3 H4 H5].
  constructor; rewrite ?E3, ?E5; done.
Qed.

Lemma loadUrl_frame w url callback s :
  let s' := outcome (loadUrl w url callback s) in
  _assetsInBundles s' = _assetsInBundles s ∧
  arrays s' = arrays s ∧
  _urlsInBundles s' = _urlsInBundles s ∧
  (_fileRequests s' = _fileRequests s ∨
   ∃ requests, _fileRequests s' = obj_set url requests (_fileRequests s)).
Proof.
  unfold loadUrl.
  destruct (_findLoadedOrLoadingBundleForUrl w url s) as [[b|]|e]; [|by auto..].
  destruct (Asset.loaded (objects w b)).
  - destruct (Asset.resource (objects w b)) as [res|]; [|by auto].
    destruct (decodeURIComponent w url); by auto.
  - destruct (obj_get "hasOwnProperty" (_fileRequests s)); [by auto|].
    destruct (hasOwnProperty url (_fileRequests s)); cbn [outcome]; proj_state;
      split_and!; try done; right; by eexists.
Qed.

Lemma loadUrl_wf w url callback s : wf s → wf (outcome (loadUrl w url callback s)).
Proof.
  intros Hwf. destruct (loadUrl_frame w url callback s) as (E1 & E2 & E3 & E4).
  destruct Hwf as [H1 H2 H3 H4 H5]. constructor; rewrite ?E1, ?E2; try done.
  destruct E4 as [->|[requests ->]]; [done|by apply NoDup_keys_set].
Qed.

Theorem reachable_wf s : reachable s → wf s.
Proof.
  induction 1 as [|w asset s _ IH|w asset s _ IH|w b s _ IH|w err b s _ IH
                  |w url callback s _ IH].
  - apply wf_BundleRegistry.
  - by apply onAssetAdded_spec.
  - by apply onAssetRemoved_wf.
  - by apply onBundleLoaded_wf.
  - by apply onBundleError_wf.
  - by apply loadUrl_wf.
Qed.

(** ** The indexed URLs have no query string *)

Lemma before_query_cons c s :
  before_query (String c s) = String c s ↔ c ≠ "?"%char ∧ before_query s = s.
Proof.
  cbn [before_query]. destruct (decide (c = "?"%char)) as [->|Hc].
  - split; [done|]. by intros [? _].
  - split.
    + by intros [= ->].
    + by intros [_ ->].
Qed.

Lemma before_query_app a b :
  before_query a = a → before_query b = b → before_query (a +:+ b) = a +:+ b.
Proof.
  induction a as [|c a IH]; [done|].
  rewrite string_app_cons, !before_query_cons. intros [Hc Ha] Hb. auto.
Qed.

Lemma before_query_app_inv_r a b :
  before_query (a +:+ b) = a +:+ b → before_query b = b.
Proof.
  induction a as [|c a IH]; [done|].
  rewrite string_app_cons, before_query_cons. intros [_ H]. auto.
Qed.

Lemma replace_before_query pat rep s :
  before_query rep = rep → before_query s = s →
  before_query (replace pat rep s) = replace pat rep s.
Proof.
  intros Hrep. induction s as [|c s IH]; intros Hs; cbn [replace].
  - destruct (strip_prefix pat "") as [rest|] eqn:Hp; [|done].
    apply strip_prefix_Some in Hp. apply before_query_app; [done|].
    apply (before_query_app_inv_r pat). by rewrite <-Hp.
  - destruct (strip_prefix pat (String c s)) as [rest|] eqn:Hp.
    + apply strip_prefix_Some in Hp. apply before_query_app; [done|].
      apply (before_query_app_inv_r pat). by rewrite <-Hp.
    + apply before_query_cons in Hs as [Hc Hs]. apply before_query_cons. auto.
Qed.

Lemma pretty_N_go_before_query x s :
  before_query s = s → before_query (pretty_N_go x s) = pretty_N_go x s.
Proof.
  revert s. induction (N.lt_wf_0 x) as [x _ IH]; intros s Hs.
  destruct (decide (x = 0%N)) as [->|Hx]; [by rewrite pretty_N_go_0|].
  rewrite pretty_N_go_step by lia. apply IH; [apply N.div_lt; lia|].
  apply before_query_cons. split; [|done].
  unfold pretty_N_char. by repeat case_match.
Qed.

Lemma pretty_nat_before_query (i : nat) : before_query (pretty i) = pretty i.
Proof.
  unfold pretty, pretty_nat, pretty, pretty_N. case_decide; [done|].
  by apply pretty_N_go_before_query.
Qed.

Lemma getAssetFileUrls_normalized a urls :
  _getAssetFileUrls a = Some urls → ∀ url, url ∈ urls → _normalizeUrl url = url.
Proof.
  unfold _getAssetFileUrls.
  destruct (Asset.getFileUrl a) as [raw|]; [|done].
  destruct (decide (raw = "")); [done|].
  assert (Hpage : ∀ i, _normalizeUrl (page_url (_normalizeUrl raw) i) =
                       page_url (_normalizeUrl raw) i).
  { intros i. unfold page_url. apply replace_before_query.
    - apply before_query_app; [apply pretty_nat_before_query|done].
    - apply normalizeUrl_idemp. }
  destruct (decide (Asset.type a = "font")); intros [= <-] url Hin.
  - apply elem_of_cons in Hin as [->|Hin].
    + apply normalizeUrl_idemp.
    + apply list_elem_of_fmap in Hin as (i & -> & _). apply Hpage.
  - apply list_elem_of_singleton in Hin as ->. apply normalizeUrl_idemp.
Qed.

Lemma obj_keys_set_elem {V} k k' (v : V) (o : jsobj V) :
  k' ∈ obj_keys (obj_set k v o) → k' = k ∨ k' ∈ obj_keys o.
Proof.
  rewrite obj_keys_set. case_decide; [by right|].
  rewrite elem_of_app, list_elem_of_singleton. tauto.
Qed.

Lemma obj_keys_delete_elem {V} k k' (o : jsobj V) :
  k' ∈ obj_keys (obj_delete k o) → k' ∈ obj_keys o.
Proof. rewrite obj_keys_delete. by intros [_ ?]%list_elem_of_filter. Qed.

Lemma index_urls_loop_keys id urls : ∀ s k,
  k ∈ obj_keys (_urlsInBundles
        (foldl (λ s url,
                  set_urlsInBundles (obj_set url (obj_get id (_assetsInBundles s))) s)
               s urls)) →
  k ∈ urls ∨ k ∈ obj_keys (_urlsInBundles s).
Proof.
  induction urls as [|url urls IH]; intros s k; cbn [foldl]; [by right|].
  intros [Hk|Hk]%IH; [left; by right|]. proj_state.
  apply obj_keys_set_elem in Hk as [->|Hk]; [left; left|by right].
Qed.

Lemma indexAssetFileUrls_normalized w asset s :
  urls_normalized s → urls_normalized (_indexAssetFileUrls w asset s).
Proof.
  intros Hs k. unfold _indexAssetFileUrls.
  destruct (_getAssetFileUrls (objects w asset)) as [urls|] eqn:Hurls; [|apply Hs].
  intros [Hk|Hk]%index_urls_loop_keys; [|by apply Hs].
  by eapply getAssetFileUrls_normalized.
Qed.

Lemma indexAssetInBundle_urls w assetId b s :
  urls_normalized s → urls_normalized (_indexAssetInBundle w assetId b s).
Proof.
  intros Hs. unfold _indexAssetInBundle.
  set (s1 := match obj_get assetId (_assetsInBundles s) with
             | Some loc => _ | None => _ end).
  assert (H1 : urls_normalized s1).
  { subst s1. destruct (obj_get assetId (_assetsInBundles s)) as [loc|]; [|done].
    by destruct (indexOf b (arrays s !!! loc)). }
  destruct (get w assetId); [by apply indexAssetFileUrls_normalized|done].
Qed.

Lemma onAssetAdded_urls w asset s :
  urls_normalized s → urls_normalized (_onAssetAdded w asset s).
Proof.
  intros Hs. unfold _onAssetAdded. case_decide.
  - set (s1 := on _ _ (on _ _ (set_bundleAssets _ s))).
    assert (H1 : urls_normalized s1) by done. clearbody s1.
    revert s1 H1. induction (Asset.data_assets (objects w asset)) as [|a ids IH];
      intros s1 H1; cbn [foldl]; [done|].
    apply IH. by apply indexAssetInBundle_urls.
  - destruct (obj_get (Asset.id (objects w asset)) (_assetsInBundles s)); [|done].
    by apply indexAssetFileUrls_normalized.
Qed.

Lemma purge_urls_keys loc urls k :
  k ∈ obj_keys (purge_urls loc urls) → k ∈ obj_keys urls.
Proof.
  intros Hk. destruct (obj_get k (purge_urls loc urls)) as [v|] eqn:Hg.
  - rewrite purge_urls_lookup in Hg. case_decide; [done|]. by eapply obj_get_Some_key.
  - by apply obj_get_None in Hg.
Qed.

Lemma remove_bundle_from_urls b id s :
  urls_normalized s → urls_normalized (remove_bundle_from b id s).
Proof.
  intros Hs. unfold remove_bundle_from.
  destruct (obj_get id (_assetsInBundles s)) as [loc|]; [|done].
  destruct (indexOf b (arrays s !!! loc)) as [idx|]; [|done].
  destruct (delete idx (arrays s !!! loc)); [|done].
  intros k Hk. proj_state. by apply purge_urls_keys, Hs in Hk.
Qed.

Lemma onAssetRemoved_urls w asset s :
  urls_normalized s → urls_normalized (outcome (_onAssetRemoved w asset s)).
Proof.
  intros Hs. unfold _onAssetRemoved. case_decide.
  - cbn [outcome].
    set (s1 := off _ _ (off _ _ (set_bundleAssets _ s))).
    assert (H1 : urls_normalized s1) by done.
    change (_assetsInBundles s1) with (_assetsInBundles s). clearbody s1.
    revert s1 H1. induction (for_in (_assetsInBundles s)) as [|id ids IH];
      intros s1 H1; cbn [foldl]; [done|].
    apply IH. by apply remove_bundle_from_urls.
  - destruct (obj_get (Asset.id (objects w asset)) (_assetsInBundles s)); [|done].
    destruct (_getAssetFileUrls (objects w asset)) as [urls|]; [|done].
    cbn [outcome]. intros k Hk.
    match goal with H : k ∈ obj_keys (_urlsInBundles (foldl _ ?s1 _)) |- _ =>
      destruct (delete_urls_frame urls s1) as (_ & _ & _ & E) end.
    by apply E, Hs in Hk.
Qed.

Theorem reachable_urls_normalized s : reachable s → urls_normalized s.
Proof.
  induction 1 as [|w asset s _ IH|w asset s _ IH|w b s Hr IH|w err b s Hr IH
                  |w url callback s _ IH].
  - intros k Hk. by apply not_elem_of_nil in Hk.
  - by apply onAssetAdded_urls.
  - by apply onAssetRemoved_urls.
  - unfold urls_normalized.
    destruct (onBundleLoaded_frame w b s) as (_ & _ & _ & -> & _);
      [apply wf_requests; by apply reachable_wf|done].
  - unfold urls_normalized.
    destruct (onBundleError_frame w err b s) as (_ & _ & _ & -> & _);
      [apply wf_requests; by apply reachable_wf|done].
  - unfold urls_normalized.
    destruct (loadUrl_frame w url callback s) as (_ & _ & -> & _). done.
Qed.


(** ** The theorems at work in the small world *)

Lemma reachable_ex_added : reachable ex_added.
Proof. apply reach_added, reach_new. Qed.

Lemma reachable_ex_queued : reachable ex_queued.
Proof. apply reach_loadUrl, reachable_ex_added. Qed.

Lemma reachable_ex_bundle_only : reachable ex_bundle_only.
Proof. apply reach_added, reach_new. Qed.





Lemma ex_bundle_is_bundle : Asset.type (objects ex_loading 0) = "bundle".
Proof. vm_compute. reflexivity. Qed.






(** A URL with a query string is not found, although the texture is indexed. *)
Lemma loadUrl_uses_url_as_given_witness :
  loadUrl ex_loaded "tex.png?t=3" 7 ex_added =
  Ok (invoke 7 (Some ("URL " +:+ "tex.png?t=3" +:+ " not found in any bundles")) None ex_added).
Proof.
  destruct (loadUrl_uses_url_as_given ex_loaded "tex.png?t=3" 7 ex_added) as [_ H].
  - apply reachable_urls_normalized, reachable_ex_added.
  - apply (H "tex.png" "t=3"). vm_compute. reflexivity.
Defined.



(** The bundle is reported loaded, but has no resource. *)
Lemma onBundleLoaded_without_resource_witness :
  let err := "Bundle " +:+ Asset.id (objects ex_errored 0) +:+ " failed to load" in
  _onBundleLoaded ex_errored 0 ex_queued = _onBundleError ex_errored err 0 ex_queued ∧
  ∃ new, calls (outcome (_onBundleLoaded ex_errored 0 ex_queued)) = calls ex_queued ++ new ∧
         Forall (λ c, call_err c = Some err ∧ call_blobUrl c = None) new.
Proof.
  apply (onBundleLoaded_without_resource ex_errored 0 ex_queued). vm_compute. reflexivity.
Defined.

(** The font of the small world: three pages, three URLs, one array. *)
Lemma font_page_urls_indexed_witness :
  ∃ urls,
    _getAssetFileUrls (objects ex_loading 2) = Some urls ∧
    length urls = Asset.data_info_maps_length (objects ex_loading 2) ∧
    NoDup urls ∧
    ∀ url, url ∈ urls →
           obj_get url (_urlsInBundles (_indexAssetFileUrls ex_loading 2 ex_bundle_only)) =
           Some (Some 1).
Proof.
  destruct (font_page_urls_indexed ex_loading 2 ex_bundle_only "font.png" 1)
    as (urls & p & q & H1 & H2 & H3 & _ & _ & _ & _ & H8 & _).
  - vm_compute. reflexivity.
  - vm_compute. reflexivity.
  - discriminate.
  - vm_compute. lia.
  - exists "font", "". vm_compute. reflexivity.
  - vm_compute. reflexivity.
  - exists urls. split; [exact H1|]. split; [exact H2|]. split; [exact H3|exact H8].
Defined.

(** The bundle is removed while a request for the texture is queued. *)
Lemma onAssetRemoved_bundle_keeps_requests_witness :
  ∃ s', _onAssetRemoved ex_loading 0 ex_queued = Ok s' ∧
        _fileRequests s' = _fileRequests ex_queued ∧
        calls s' = calls ex_queued.
Proof.
  apply (onAssetRemoved_bundle_keeps_requests ex_loading 0 ex_queued).
  exact ex_bundle_is_bundle.
Defined.

(** The asset of the small world that has no file is removed. *)
Lemma onAssetRemoved_without_url_throws_witness :
  _getAssetFileUrls (objects ex_loading 3) = None ∧
  _onAssetRemoved ex_loading 3 ex_added =
    Throw TypeError
      (set_assetsInBundles (obj_delete (Asset.id (objects ex_loading 3))) ex_added).
Proof.
  apply (onAssetRemoved_without_url_throws ex_loading 3 ex_added).
  - vm_compute. discriminate.
  - vm_compute. by eexists.
  - vm_compute. reflexivity.
Defined.

(** A request whose one bundle has been removed stays queued; the next error
    notification that is handled, of whatever bundle, finds no bundle for its
    URL and fails it. *)
Example removed_bundle_request_fails_on_next_error :
  ∃ s' s'', _onAssetRemoved ex_loading 0 ex_queued = Ok s' ∧
            _fileRequests s' = [("tex.png", [7])] ∧
            hasUrl "tex.png" s' = false ∧
            _onBundleError ex_loading "another bundle failed" 4 s' = Ok s'' ∧
            calls s'' =
              [ {| call_callback := 7; call_err := Some "another bundle failed";
                   call_blobUrl := None |} ].
Proof.
  eexists _, _. split; [vm_compute; reflexivity|].
  split; [vm_compute; reflexivity|]. split; [vm_compute; reflexivity|].
  split; vm_compute; reflexivity.
Qed.

(** * Further properties of the registry *)

(** ** Invariants of the indices and of the queue *)

Lemma filter_ne_nonempty (b : Ref) (l : list Ref) :
  NoDup l → l ≠ [] → l ≠ [b] → filter (λ y, y ≠ b) l ≠ [].
Proof.
  intros Hnd Hne Hb Hf. destruct (decide (b ∈ l)) as [Hin|Hnin].
  - by apply Hb, filter_ne_nil.
  - rewrite filter_ne_notin in Hf by done. done.
Qed.

Lemma add_once_nonempty b l : add_once b l ≠ [].
Proof.
  unfold add_once. case_decide as Hin.
  - intros ->. by apply not_elem_of_nil in Hin.
  - by destruct l.
Qed.

Lemma sets_nonempty_frame s1 s2 :
  _assetsInBundles s1 = _assetsInBundles s2 →
  arrays s1 = arrays s2 →
  sets_nonempty s1 → sets_nonempty s2.
Proof. unfold sets_nonempty. by intros -> ->. Qed.

Lemma indexAssetInBundle_nonempty w assetId b s :
  wf s → sets_nonempty s → sets_nonempty (_indexAssetInBundle w assetId b s).
Proof.
  intros Hwf Hs id loc Hid.
  destruct (indexAssetInBundle_spec w assetId b s Hwf) as (_ & Hby & _).
  specialize (Hby id). unfold bundles_by_id in Hby at 1. rewrite Hid in Hby.
  rewrite Hby. case_decide; [apply add_once_nonempty|].
  unfold bundles_by_id in *.
  destruct (obj_get id (_assetsInBundles s)) as [loc0|] eqn:Hid0; [by eapply Hs|].
  (* an id without an array before has one after only if it is the asset's *)
  exfalso. revert Hid. unfold _indexAssetInBundle.
  set (s1 := match obj_get assetId (_assetsInBundles s) with
             | Some loc => _ | None => _ end).
  assert (H1 : obj_get id (_assetsInBundles s1) = None).
  { subst s1. destruct (obj_get assetId (_assetsInBundles s)) as [loc1|].
    - by destruct (indexOf b (arrays s !!! loc1)).
    - proj_state. rewrite obj_get_set_ne by done. done. }
  destruct (get w assetId) as [asset|]; [|congruence].
  destruct (indexAssetFileUrls_frame w asset s1) as (-> & _). congruence.
Qed.

Lemma onAssetAdded_nonempty w asset s :
  wf s → sets_nonempty s → sets_nonempty (_onAssetAdded w asset s).
Proof.
  intros Hwf Hs. unfold _onAssetAdded. case_decide.
  - set (s1 := on _ _ (on _ _ (set_bundleAssets _ s))).
    assert (W1 : wf s1) by (by eapply (wf_frame s)).
    assert (H1 : sets_nonempty s1) by done. clearbody s1.
    revert s1 W1 H1. induction (Asset.data_assets (objects w asset)) as [|a ids IH];
      intros s1 W1 H1; cbn [foldl]; [done|].
    apply IH.
    + by apply indexAssetInBundle_spec.
    + by apply indexAssetInBundle_nonempty.
  - destruct (obj_get (Asset.id (objects w asset)) (_assetsInBundles s)); [|done].
    destruct (indexAssetFileUrls_frame w asset s) as (E1 & E2 & _).
    by eapply (sets_nonempty_frame s).
Qed.

Lemma onAssetRemoved_nonempty w asset s :
  wf s → sets_nonempty s → sets_nonempty (outcome (_onAssetRemoved w asset s)).
Proof.
  intros Hwf Hs.
  destruct (decide (Asset.type (objects w asset) = "bundle")) as [Hty|Hty].
  - destruct (onAssetRemoved_bundle_spec w asset s Hwf Hty)
      as (s' & Hs' & E1 & _ & E3 & _).
    rewrite Hs'. cbn [outcome]. intros id loc.
    rewrite E1, obj_get_filter by apply Hwf.
    destruct (obj_get id (_assetsInBundles s)) as [loc0|] eqn:Hid; [|done].
    cbn [snd]. case_decide as Hb; [|done]. intros [= <-].
    rewrite E3, decide_True.
    + apply filter_ne_nonempty; [by eapply wf_once|by eapply Hs|done].
    + apply obj_get_elem in Hid. apply list_elem_of_fmap. by exists (id, loc0).
  - unfold _onAssetRemoved. rewrite decide_False by done.
    destruct (obj_get (Asset.id (objects w asset)) (_assetsInBundles s)); [|done].
    assert (H1 : sets_nonempty
                   (set_assetsInBundles (obj_delete (Asset.id (objects w asset))) s)).
    { intros id loc. proj_state. rewrite obj_get_delete. case_decide; [done|]. apply Hs. }
    destruct (_getAssetFileUrls (objects w asset)) as [urls|]; [|done].
    cbn [outcome].
    match goal with |- sets_nonempty (foldl _ ?s1 _) =>
      destruct (delete_urls_frame urls s1) as (E1 & E2 & _) end.
    by eapply (sets_nonempty_frame (set_assetsInBundles _ s)).
Qed.

Lemma reachable_sets_nonempty s : reachable s → sets_nonempty s.
Proof.
  induction 1 as [|w asset s Hr IH|w asset s Hr IH|w b s Hr IH|w err b s Hr IH
                  |w url callback s Hr IH].
  - intros id loc H. discriminate.
  - apply onAssetAdded_nonempty; [by apply reachable_wf|done].
  - apply onAssetRemoved_nonempty; [by apply reachable_wf|done].
  - apply reachable_wf in Hr as Hwf.
    destruct (onBundleLoaded_frame w b s) as (_ & _ & E1 & _ & E2 & _); [apply Hwf|].
    by eapply (sets_nonempty_frame s).
  - apply reachable_wf in Hr as Hwf.
    destruct (onBundleError_frame w err b s) as (_ & _ & E1 & _ & E2 & _); [apply Hwf|].
    by eapply (sets_nonempty_frame s).
  - destruct (loadUrl_frame w url callback s) as (E1 & E2 & _).
    by eapply (sets_nonempty_frame s).
Qed.

(** X1. In every state the registry can reach, no bundle is listed twice for
    an asset, an asset id has an entry exactly when some bundle is listed for
    it, and two asset ids never share an array. *)
Theorem reachable_sets_distinct s :
  reachable s →
  (∀ w asset, NoDup (listBundlesForAsset w asset s)) ∧
  (∀ w asset, listBundlesForAsset w asset s = [] ↔
              obj_get (Asset.id (objects w asset)) (_assetsInBundles s) = None) ∧
  (∀ id1 id2 loc,
     obj_get id1 (_assetsInBundles s) = Some loc →
     obj_get id2 (_assetsInBundles s) = Some loc → id1 = id2).
Proof.
  intros Hr. pose proof (reachable_wf s Hr) as Hwf.
  pose proof (reachable_sets_nonempty s Hr) as Hne. split_and!.
  - intros w asset. unfold listBundlesForAsset.
    destruct (obj_get _ (_assetsInBundles s)) as [loc|] eqn:Hid; [|apply NoDup_nil_2].
    by eapply wf_once.
  - intros w asset. unfold listBundlesForAsset.
    destruct (obj_get _ (_assetsInBundles s)) as [loc|] eqn:Hid; [|done].
    split; [|done]. intros Hnil. by apply Hne in Hid.
  - intros id1 id2 loc. by apply wf_inj.
Qed.

Lemma delete_urls_lookup urls : ∀ s,
  let s' := foldl (λ s url, set_urlsInBundles (obj_delete url) s) s urls in
  (∀ url, obj_get url (_urlsInBundles s') =
          if decide (url ∈ urls) then None else obj_get url (_urlsInBundles s)) ∧
  calls s' = calls s ∧
  _bundleAssets s' = _bundleAssets s ∧
  listeners s' = listeners s.
Proof.
  induction urls as [|url0 urls IH]; intros s; cbv zeta; cbn [foldl].
  - split_and!; done.
  - destruct (IH (set_urlsInBundles (obj_delete url0) s)) as (E1 & E2 & E3 & E4).
    split_and!; try done. intros url. rewrite E1. proj_state.
    destruct (decide (url ∈ urls)) as [Hin|Hnin].
    + rewrite decide_True; [done|by right].
    + rewrite obj_get_delete. destruct (decide (url = url0)) as [->|Hne].
      * rewrite decide_True; [done|left].
      * rewrite decide_False; [done|]. rewrite not_elem_of_cons. tauto.
Qed.

Lemma onAssetRemoved_requests_frame w asset s :
  _fileRequests (outcome (_onAssetRemoved w asset s)) = _fileRequests s ∧
  calls (outcome (_onAssetRemoved w asset s)) = calls s.
Proof.
  unfold _onAssetRemoved. case_decide.
  - cbn [outcome].
    match goal with |- context [foldl _ ?s0 ?ids] =>
      destruct (remove_bundle_loop_frame asset ids s0) as (E1 & E2 & _) end.
    by rewrite E1, E2.
  - destruct (obj_get (Asset.id (objects w asset)) (_assetsInBundles s)); [|done].
    destruct (_getAssetFileUrls (objects w asset)) as [urls|]; [|done].
    cbn [outcome].
    match goal with |- context [foldl _ ?s1 urls] =>
      destruct (delete_urls_frame urls s1) as (_ & _ & E1 & _);
      destruct (delete_urls_lookup urls s1) as (_ & E2 & _) end.
    by rewrite E1, E2.
Qed.

Lemma loadUrl_requests w url callback s :
  _fileRequests (outcome (loadUrl w url callback s)) = _fileRequests s ∨
  _fileRequests (outcome (loadUrl w url callback s)) =
    obj_set url (default [] (obj_get url (_fileRequests s)) ++ [callback])
      (_fileRequests s).
Proof.
  unfold loadUrl.
  destruct (_findLoadedOrLoadingBundleForUrl w url s) as [[b|]|e]; [|by left..].
  destruct (Asset.loaded (objects w b)).
  - destruct (Asset.resource (objects w b)) as [res|]; [|by left].
    destruct (decodeURIComponent w url); by left.
  - destruct (obj_get "hasOwnProperty" (_fileRequests s)); [by left|].
    unfold hasOwnProperty. destruct (obj_get url (_fileRequests s)) as [q|] eqn:Hq.
    + rewrite bool_decide_eq_true_2 by done. by right.
    + rewrite bool_decide_eq_false_2 by (by intros [? ?]). by right.
Qed.

Lemma reachable_queues_nonempty s : reachable s → queues_nonempty s.
Proof.
  induction 1 as [|w asset s Hr IH|w asset s Hr IH|w b s Hr IH|w err b s Hr IH
                  |w url callback s Hr IH]; intros u q.
  - discriminate.
  - destruct (onAssetAdded_spec w asset s (reachable_wf s Hr)) as (_ & _ & -> & _).
    apply IH.
  - destruct (onAssetRemoved_requests_frame w asset s) as [-> _]. apply IH.
  - destruct (onBundleLoaded_frame w b s) as (_ & _ & _ & _ & _ & _ & E);
      [apply wf_requests; by apply reachable_wf|].
    intros H%E. by eapply IH.
  - destruct (onBundleError_frame w err b s) as (_ & _ & _ & _ & _ & _ & E & _);
      [apply wf_requests; by apply reachable_wf|].
    intros H%E. by eapply IH.
  - destruct (loadUrl_requests w url callback s) as [-> | ->]; [apply IH|].
    destruct (decide (u = url)) as [->|Hne].
    + rewrite obj_get_set_eq. intros [= <-]. by destruct (default [] _).
    + rewrite obj_get_set_ne by done. apply IH.
Qed.

(** X2. In every state the registry can reach, the URLs of the request queue
    are distinct and each has at least one continuation queued: an entry is
    created with its first continuation and deleted as a whole. *)
Theorem reachable_queues s :
  reachable s →
  NoDup (obj_keys (_fileRequests s)) ∧
  ∀ url requests, obj_get url (_fileRequests s) = Some requests → requests ≠ [].
Proof.
  intros Hr. split.
  - apply wf_requests. by apply reachable_wf.
  - by apply reachable_queues_nonempty.
Qed.

(** X3. In every state the registry can reach, [hasUrl] holds only of URLs
    without a query string: every URL that is indexed has gone through
    [_normalizeUrl], and a page URL of a font has none either. *)
Theorem reachable_hasUrl_normalized s url :
  reachable s → hasUrl url s = true → _normalizeUrl url = url.
Proof.
  intros Hr Hhas. apply hasUrl_true in Hhas as [(loc & Hg)|[_ Hm]].
  - apply (reachable_urls_normalized s Hr). by eapply obj_get_Some_key.
  - by apply Object_prototype_normalized.
Qed.

(** ** Adding and removing *)

(** X4. Adding a bundle appends it to the bundles listed for each asset id of
    its manifest, unless it is there already, keeps the order of the bundles
    that were listed, and leaves the lists of all other assets, the request
    queue and the continuations alone. *)
Theorem bundle_added_is_listed w b s :
  wf s →
  Asset.type (objects w b) = "bundle" →
  (∀ w' a,
     listBundlesForAsset w' a (_onAssetAdded w b s) =
       if decide (Asset.id (objects w' a) ∈ Asset.data_assets (objects w b))
       then add_once b (listBundlesForAsset w' a s)
       else listBundlesForAsset w' a s) ∧
  _fileRequests (_onAssetAdded w b s) = _fileRequests s ∧
  calls (_onAssetAdded w b s) = calls s.
Proof.
  intros Hwf Hty. destruct (onAssetAdded_spec w b s Hwf) as (_ & Hby & HF & HC).
  split_and!; [|done..]. intros w' a. rewrite !listBundlesForAsset_by_id, Hby.
  destruct (decide (Asset.id (objects w' a) ∈ Asset.data_assets (objects w b))).
  - by rewrite decide_True.
  - rewrite decide_False; [done|]. tauto.
Qed.

(** X5. Adding the same bundle a second time changes the bundles listed for
    no asset: [_indexAssetInBundle] looks the bundle up before it pushes. *)
Theorem bundle_added_twice w b s :
  wf s →
  ∀ w' a,
    listBundlesForAsset w' a (_onAssetAdded w b (_onAssetAdded w b s)) =
    listBundlesForAsset w' a (_onAssetAdded w b s).
Proof.
  intros Hwf w' a.
  destruct (onAssetAdded_spec w b s Hwf) as (Hwf1 & Hby1 & _).
  destruct (onAssetAdded_spec w b _ Hwf1) as (_ & Hby2 & _).
  rewrite !listBundlesForAsset_by_id, Hby2, Hby1.
  destruct (decide (_ ∧ _)); [apply add_once_idemp|done].
Qed.

Lemma filter_ne_absent {A} `{EqDecision A} (x : A) (l : list A) :
  x ∉ l → filter (λ y, y ≠ x) l = l.
Proof.
  induction l as [|y l IH]; [done|].
  intros [Hne Hnin]%not_elem_of_cons.
  rewrite filter_cons_True by congruence. by rewrite IH.
Qed.

Lemma obj_delete_set_eq {V} k (v : V) (o : jsobj V) :
  obj_delete k (obj_set k v o) = obj_delete k o.
Proof.
  induction o as [|[k' v'] o IH]; cbn [obj_set].
  - by rewrite obj_delete_cons_eq.
  - destruct (decide (k = k')) as [->|Hne].
    + by rewrite !obj_delete_cons_eq.
    + unfold obj_delete in *. rewrite !filter_cons. cbn [fst].
      destruct (decide (k' ≠ k)); by rewrite IH.
Qed.

Lemma onAssetAdded_bundle_frame w b s :
  wf s →
  Asset.type (objects w b) = "bundle" →
  listeners (_onAssetAdded w b s) =
    listeners s ++ [("load:" +:+ Asset.id (objects w b), OnBundleLoaded);
                    ("error:" +:+ Asset.id (objects w b), OnBundleError)] ∧
  _bundleAssets (_onAssetAdded w b s) =
    obj_set (Asset.id (objects w b)) b (_bundleAssets s).
Proof.
  intros Hwf Hty. unfold _onAssetAdded. rewrite decide_True by done.
  set (s1 := on _ _ (on _ _ (set_bundleAssets _ s))).
  assert (W1 : wf s1) by (by eapply (wf_frame s)).
  destruct (index_bundle_loop w b (Asset.data_assets (objects w b)) s1 W1)
    as (_ & _ & E1 & _ & E2 & _).
  rewrite E1, E2. subst s1. proj_state. by rewrite <-app_assoc.
Qed.

(** X6. After the remove notification of a bundle the asset registry holds no
    load or error listener of the registry for the id of the bundle, and
    [_bundleAssets] has no entry for it. Adding a bundle and then removing it
    restores the listeners and the result of [list()], when the id was not
    known before. *)
Theorem bundle_add_remove_round_trip w w' b s :
  wf s →
  Asset.type (objects w b) = "bundle" →
  Asset.type (objects w' b) = "bundle" →
  Asset.id (objects w' b) = Asset.id (objects w b) →
  ∃ s2, _onAssetRemoved w' b (_onAssetAdded w b s) = Ok s2 ∧
    (("load:" +:+ Asset.id (objects w b), OnBundleLoaded) ∉ listeners s2) ∧
    (("error:" +:+ Asset.id (objects w b), OnBundleError) ∉ listeners s2) ∧
    obj_get (Asset.id (objects w b)) (_bundleAssets s2) = None ∧
    ((("load:" +:+ Asset.id (objects w b), OnBundleLoaded) ∉ listeners s) →
     (("error:" +:+ Asset.id (objects w b), OnBundleError) ∉ listeners s) →
     (Asset.id (objects w b) ∉ obj_keys (_bundleAssets s)) →
     listeners s2 = listeners s ∧ list' s2 = list' s).
Proof.
  intros Hwf Hty Hty' Hid.
  destruct (onAssetAdded_bundle_frame w b s Hwf Hty) as (HL & HB).
  set (id := Asset.id (objects w b)) in *.
  set (s1 := _onAssetAdded w b s) in *.
  unfold _onAssetRemoved. rewrite decide_True, Hid by done. fold id.
  eexists. split; [done|]. unfold list'.
  match goal with |- context [foldl _ ?s0 ?ids] =>
    destruct (remove_bundle_loop_frame b ids s0) as (_ & _ & E1 & E2) end.
  rewrite E1, E2. proj_state. rewrite HL, HB.
  set (ld := ("load:" +:+ id, OnBundleLoaded)).
  set (er := ("error:" +:+ id, OnBundleError)).
  assert (Hfilter : filter (λ l, l ≠ er) (filter (λ l, l ≠ ld) (listeners s ++ [ld; er])) =
                    filter (λ l, l ≠ er) (filter (λ l, l ≠ ld) (listeners s))).
  { rewrite (filter_app _ (listeners s)).
    rewrite (filter_cons_False _ ld) by tauto.
    rewrite (filter_cons_True _ er) by (subst ld er; by intros [=]).
    rewrite filter_nil, filter_app, (filter_cons_False _ er), filter_nil by tauto.
    by rewrite app_nil_r. }
  rewrite Hfilter, obj_delete_set_eq. split_and!.
  - rewrite !list_elem_of_filter. intros (_ & Hne & _). done.
  - rewrite !list_elem_of_filter. tauto.
  - apply obj_get_delete_eq.
  - intros H1 H2 H3. split.
    + by rewrite (filter_ne_absent ld), (filter_ne_absent er).
    + by rewrite obj_delete_notin.
Qed.

(** X7. The remove notification of an asset that is not a bundle, that some
    bundle lists and that has file URLs deletes the entry of the asset and
    every entry of its URLs, whatever array they hold: afterwards no bundle is
    listed for the asset and its URLs are no properties of [_urlsInBundles],
    also a URL that another indexed asset has: [hasUrl] is false for them,
    unless the URL is the name of a member of [Object.prototype]. The other
    ids and URLs, the arrays and the known bundles stay as they are. *)
Theorem asset_removed_is_unindexed w a s urls :
  Asset.type (objects w a) ≠ "bundle" →
  is_Some (obj_get (Asset.id (objects w a)) (_assetsInBundles s)) →
  _getAssetFileUrls (objects w a) = Some urls →
  ∃ s', _onAssetRemoved w a s = Ok s' ∧
    listBundlesForAsset w a s' = [] ∧
    (∀ url, url ∈ urls →
            obj_get url (_urlsInBundles s') = None ∧
            hasUrl url s' = bool_decide (is_Some (obj_get url Object_prototype))) ∧
    (∀ url, url ∉ urls → obj_get url (_urlsInBundles s') = obj_get url (_urlsInBundles s)) ∧
    (∀ id, id ≠ Asset.id (objects w a) →
           obj_get id (_assetsInBundles s') = obj_get id (_assetsInBundles s)) ∧
    arrays s' = arrays s ∧
    _bundleAssets s' = _bundleAssets s.
Proof.
  intros Hty [loc Hloc] Hurls. unfold _onAssetRemoved.
  rewrite decide_False, Hloc, Hurls by done. eexists. split; [done|].
  match goal with |- context [foldl _ ?s1 urls] =>
    destruct (delete_urls_frame urls s1) as (E1 & E2 & _);
    destruct (delete_urls_lookup urls s1) as (E3 & _ & E4 & _) end.
  unfold listBundlesForAsset. rewrite E1, E2, E4. proj_state.
  split_and!; try done.
  - by rewrite obj_get_delete_eq.
  - intros url Hin.
    assert (Hg : obj_get url (_urlsInBundles
               (foldl (λ s url, set_urlsInBundles (obj_delete url) s)
                  (set_assetsInBundles (obj_delete (Asset.id (objects w a))) s) urls)) =
               None) by (rewrite E3; by rewrite decide_True).
    split; [done|by apply hasUrl_absent].
  - intros url Hnin. rewrite E3. by rewrite decide_False.
  - intros id Hne. by rewrite obj_get_delete_ne.
Qed.

(** X8. An asset that is not a bundle and that no bundle lists is added
    without any change of state. When a bundle lists it, each of its URLs is
    indexed with the array of the asset itself: [hasUrl] is true for it and
    the bundles found for the URL are the bundles listed for the asset. No
    other URL, no array and no request changes. *)
Theorem asset_added_after_bundle w a s :
  Asset.type (objects w a) ≠ "bundle" →
  (obj_get (Asset.id (objects w a)) (_assetsInBundles s) = None →
   _onAssetAdded w a s = s) ∧
  (∀ loc urls,
     obj_get (Asset.id (objects w a)) (_assetsInBundles s) = Some loc →
     _getAssetFileUrls (objects w a) = Some urls →
     (∀ url, url ∈ urls →
             hasUrl url (_onAssetAdded w a s) = true ∧
             bundles_of url (_onAssetAdded w a s) =
               listBundlesForAsset w a (_onAssetAdded w a s)) ∧
     (∀ url, url ∉ urls →
             obj_get url (_urlsInBundles (_onAssetAdded w a s)) =
             obj_get url (_urlsInBundles s)) ∧
     _assetsInBundles (_onAssetAdded w a s) = _assetsInBundles s ∧
     arrays (_onAssetAdded w a s) = arrays s ∧
     _fileRequests (_onAssetAdded w a s) = _fileRequests s ∧
     calls (_onAssetAdded w a s) = calls s).
Proof.
  intros Hty. unfold _onAssetAdded. rewrite decide_False by done. split.
  - by intros ->.
  - intros loc urls Hloc Hurls. rewrite Hloc. unfold _indexAssetFileUrls.
    rewrite Hurls.
    destruct (index_urls_loop (Asset.id (objects w a)) urls s)
      as (E1 & E2 & E3 & E4 & _ & E6 & _ & E8).
    split_and!; try done.
    intros url Hin. split.
    + rewrite (hasUrl_own url _ _ (E1 url Hin)), Hloc.
      by apply bool_decide_eq_true_2.
    + unfold bundles_of, listBundlesForAsset. rewrite E1, E3, E4, Hloc by done. done.
Qed.

Lemma elem_of_add_once b l : b ∈ add_once b l.
Proof.
  unfold add_once. case_decide; [done|]. apply elem_of_app. right. left.
Qed.

Lemma indexAssetInBundle_urls_of_bundle w assetId b s :
  wf s →
  get_by_id w →
  let s' := _indexAssetInBundle w assetId b s in
  (∀ url, b ∈ bundles_of url s → b ∈ bundles_of url s') ∧
  (∀ asset urls url,
     get w assetId = Some asset →
     _getAssetFileUrls (objects w asset) = Some urls →
     url ∈ urls → b ∈ bundles_of url s').
Proof.
  intros Hwf Hget.
  destruct (indexAssetInBundle_spec w assetId b s Hwf) as (_ & Hby & _).
  specialize (Hby assetId). rewrite decide_True in Hby by done.
  revert Hby. unfold _indexAssetInBundle.
  set (s1 := match obj_get assetId (_assetsInBundles s) with
             | Some loc => _ | None => _ end).
  intros Hby.
  assert (H1 : ∀ url, b ∈ bundles_of url s → b ∈ bundles_of url s1).
  { intros url. unfold bundles_of. subst s1.
    destruct (obj_get assetId (_assetsInBundles s)) as [loc0|].
    - destruct (indexOf b (arrays s !!! loc0)); [done|]. proj_state.
      destruct (obj_get url (_urlsInBundles s)) as [[loc|]|]; [|done..].
      intros Hin. rewrite list_lookup_total_insert.
      case_decide as Hc; [|done]. destruct Hc as [-> _].
      apply elem_of_app. by left.
    - proj_state. destruct (obj_get url (_urlsInBundles s)) as [[loc|]|]; [|done..].
      intros Hin. rewrite lookup_total_app_l; [done|].
      destruct (decide (loc < length (arrays s))) as [|Hge]; [done|].
      rewrite list_lookup_total_alt, lookup_ge_None_2 in Hin by lia.
      by apply not_elem_of_nil in Hin. }
  destruct (get w assetId) as [asset|] eqn:Hasset; [|split; [done|by intros]].
  assert (Hid : Asset.id (objects w asset) = assetId) by (by apply Hget).
  destruct (indexAssetFileUrls_frame w asset s1) as (E1 & E2 & _).
  assert (Hby1 : b ∈ bundles_by_id assetId s1).
  { rewrite <-(bundles_by_id_frame assetId _ s1 E1 E2), Hby. apply elem_of_add_once. }
  unfold _indexAssetFileUrls in *.
  destruct (_getAssetFileUrls (objects w asset)) as [urls|] eqn:Hurls;
    [|cbv zeta; split; [exact H1|intros ? ? ? [= <-] ?; congruence]].
  destruct (index_urls_loop (Asset.id (objects w asset)) urls s1)
    as (F1 & F2 & F3 & F4 & _).
  assert (H2 : ∀ url, url ∈ urls →
                 b ∈ bundles_of url
                       (foldl (λ s url,
                                 set_urlsInBundles
                                   (obj_set url (obj_get (Asset.id (objects w asset))
                                                   (_assetsInBundles s))) s) s1 urls)).
  { intros url Hin. unfold bundles_of. rewrite F1, F4, Hid by done.
    unfold bundles_by_id in Hby1.
    destruct (obj_get assetId (_assetsInBundles s1)); [done|].
    by apply not_elem_of_nil in Hby1. }
  cbv zeta. split.
  - intros url Hin. destruct (decide (url ∈ urls)) as [Hu|Hu]; [by apply H2|].
    unfold bundles_of. rewrite F2, F4 by done. by apply H1.
  - intros asset' urls' url [= <-] Hu. rewrite Hurls in Hu. injection Hu as <-.
    apply H2.
Qed.

(** X9. When [this._assets.get] returns the asset of the id it is given,
    adding a bundle indexes the URLs of every asset of its manifest that the
    asset registry knows: for each of these URLs the bundle is among the
    bundles of the URL, and [hasUrl] is true. *)
Theorem bundle_added_indexes_urls w b s assetId asset urls url :
  wf s →
  get_by_id w →
  Asset.type (objects w b) = "bundle" →
  assetId ∈ Asset.data_assets (objects w b) →
  get w assetId = Some asset →
  _getAssetFileUrls (objects w asset) = Some urls →
  url ∈ urls →
  b ∈ bundles_of url (_onAssetAdded w b s) ∧ hasUrl url (_onAssetAdded w b s) = true.
Proof.
  intros Hwf Hget Hty Hin Hasset Hurls Hurl.
  assert (Hb : b ∈ bundles_of url (_onAssetAdded w b s)).
  { unfold _onAssetAdded. rewrite decide_True by done.
    set (s1 := on _ _ (on _ _ (set_bundleAssets _ s))).
    assert (W1 : wf s1) by (by eapply (wf_frame s)). clearbody s1.
    revert s1 W1 Hin.
    induction (Asset.data_assets (objects w b)) as [|a ids IH]; intros s1 W1 Hin.
    { by apply not_elem_of_nil in Hin. }
    cbn [foldl].
    destruct (indexAssetInBundle_spec w a b s1 W1) as (W2 & _).
    destruct (indexAssetInBundle_urls_of_bundle w a b s1 W1 Hget) as (M1 & M2).
    destruct (decide (assetId ∈ ids)) as [Hids|Hids]; [by apply IH|].
    apply elem_of_cons in Hin as [->|Hin]; [|done].
    specialize (M2 asset urls url Hasset Hurls Hurl).
    (* the later rounds keep the bundle among the bundles of the URL *)
    clear IH Hids. revert M2. generalize (_indexAssetInBundle w a b s1) W2.
    induction ids as [|a' ids IH]; intros s2 W2' M2; cbn [foldl]; [done|].
    apply IH.
    - by apply indexAssetInBundle_spec.
    - by apply indexAssetInBundle_urls_of_bundle. }
  split; [done|]. apply hasUrl_true. left. unfold bundles_of in Hb.
  destruct (obj_get url (_urlsInBundles (_onAssetAdded w b s))) as [[loc|]|];
    [by exists loc|by apply not_elem_of_nil in Hb..].
Qed.

(** ** What [loadUrl] and the notifications do with a continuation *)

(** X10. [canLoadUrl] implies [hasUrl]; [loadUrl] answers
    ['URL <url> not found in any bundles'] exactly when [canLoadUrl] is
    false; and when [canLoadUrl] throws, [loadUrl] throws the same and
    invokes nothing. *)
Theorem canLoadUrl_guards_loadUrl w url callback s :
  (canLoadUrl w url s = Return true → hasUrl url s = true) ∧
  (canLoadUrl w url s = Return false ↔
   loadUrl w url callback s =
     Ok (invoke callback (Some ("URL " +:+ url +:+ " not found in any bundles")) None s)) ∧
  (∀ e, canLoadUrl w url s = Raise e → loadUrl w url callback s = Throw e s).
Proof.
  split_and!.
  - intros [b Hf]%canLoadUrl_true. revert Hf.
    unfold _findLoadedOrLoadingBundleForUrl, hasUrl.
    by destruct (urlsInBundles_get url s) as [loc| |[[|n]|]].
  - split; [intros Hc%canLoadUrl_false; by apply loadUrl_not_found|].
    intros Hload. apply canLoadUrl_false.
    destruct (_findLoadedOrLoadingBundleForUrl w url s) as [[b|]|e] eqn:Hf; [|done|].
    + exfalso. unfold loadUrl in Hload. rewrite Hf in Hload.
      destruct (Asset.loaded (objects w b)).
      * destruct (Asset.resource (objects w b)) as [res|]; [|done].
        destruct (decodeURIComponent w url) as [path|]; [|done].
        apply (f_equal (λ r, calls (outcome r))) in Hload. cbn [outcome] in Hload.
        proj_state. apply app_inv_head in Hload. done.
      * assert (Hcalls : ∀ s1, Ok s1 = Ok (invoke callback
                  (Some ("URL " +:+ url +:+ " not found in any bundles")) None s) →
                  calls s1 = calls s → False).
        { intros s1 [= ->]. proj_state. intros Heq.
          apply (f_equal length) in Heq. rewrite length_app in Heq. cbn in Heq. lia. }
        destruct (obj_get "hasOwnProperty" (_fileRequests s)); [done|].
        destruct (hasOwnProperty url (_fileRequests s)); by eapply Hcalls.
    + exfalso. unfold loadUrl in Hload. by rewrite Hf in Hload.
  - intros e. unfold canLoadUrl, loadUrl.
    by destruct (_findLoadedOrLoadingBundleForUrl w url s) as [[b|]|e']; intros [= ->].
Qed.

Lemma queued_delete url requests (o : jsobj (list Callback)) :
  NoDup (obj_keys o) →
  obj_get url o = Some requests →
  queued (obj_delete url o) + length requests = queued o.
Proof.
  unfold queued, obj_keys. induction o as [|[k q] o IH]; intros Hnd; [done|].
  rewrite fmap_cons in Hnd. apply NoDup_cons in Hnd as [Hnin Hnd]. cbn [fst] in Hnin.
  cbn [obj_get]. destruct (decide (url = k)) as [->|Hne].
  - intros [= ->]. rewrite obj_delete_cons_eq, obj_delete_notin by done.
    rewrite !fmap_cons. cbn [snd sum_list]. unfold id. lia.
  - intros Hq. unfold obj_delete in *. rewrite filter_cons_True by (cbn; congruence).
    rewrite !fmap_cons. cbn [snd sum_list]. specialize (IH Hnd Hq). lia.
Qed.

Lemma queued_set_length url v (o : jsobj (list Callback)) :
  length v = length (default [] (obj_get url o)) + 1 →
  queued (obj_set url v o) = queued o + 1.
Proof.
  unfold queued. induction o as [|[k q] o IH]; cbn [obj_get obj_set].
  - cbn. lia.
  - destruct (decide (url = k)) as [->|Hne]; intros Hv.
    + rewrite !fmap_cons. cbn [snd sum_list]. unfold id. cbn in Hv. lia.
    + rewrite !fmap_cons. cbn [snd sum_list]. rewrite IH by done. unfold id. lia.
Qed.

Lemma queued_set url callback (o : jsobj (list Callback)) :
  queued (obj_set url (default [] (obj_get url o) ++ [callback]) o) = queued o + 1.
Proof. apply queued_set_length. rewrite length_app. done. Qed.

Lemma error_loop_conserves w err urls s :
  NoDup (obj_keys (_fileRequests s)) →
  let s' := outcome (for_each urls (fail_requests_for w err) s) in
  length (calls s') + pending s' = length (calls s) + pending s.
Proof.
  intros Hnd.
  apply (for_each_outcome (λ s, NoDup (obj_keys (_fileRequests s)))
    (λ s s', length (calls s') + pending s' = length (calls s) + pending s));
    [done| | |done].
  - intros s1 s2 s3 H1 H2. by rewrite H2.
  - intros url s0 Hnd0.
    destruct (fail_requests_for_cases w err url s0)
      as [[_ E]|(q & Hq & [[_ E]|[[_ E]|[_ E]]])]; rewrite E; cbn [outcome]; try done.
    split.
    + proj_state. rewrite foldl_invoke. proj_state. by apply NoDup_keys_delete.
    + unfold pending. proj_state. rewrite foldl_invoke. proj_state. unfold calls_of.
      rewrite length_app, length_fmap. pose proof (queued_delete url q _ Hnd0 Hq). lia.
Qed.

Lemma resolve_loop_conserves w b res urls : ∀ s,
  NoDup (obj_keys (_fileRequests s)) →
  let s' := outcome (for_each urls (resolve_requests_for w b res) s) in
  length (calls s') + pending s' = length (calls s) + pending s.
Proof.
  unfold pending.
  induction urls as [|url urls IH]; intros s Hnd; cbv zeta; cbn [for_each]; [done|].
  destruct (resolve_requests_for_cases w b res url s)
    as [E|[(q & path & Hq & _ & _ & E)|[(Hq & _ & E)|[(q & _ & _ & _ & _ & E)
                                                      |(q & _ & _ & E)]]]];
    rewrite E; cbn [bind outcome].
  - by apply IH.
  - rewrite IH.
    + proj_state. rewrite foldl_invoke. proj_state. unfold calls_of.
      rewrite length_app, length_fmap. pose proof (queued_delete url q _ Hnd Hq). lia.
    + proj_state. rewrite foldl_invoke. proj_state. by apply NoDup_keys_delete.
  - rewrite IH.
    + proj_state. pose proof (queued_delete url [] _ Hnd Hq). cbn in *. lia.
    + proj_state. by apply NoDup_keys_delete.
  - done.
  - done.
Qed.

(** X11. The load and the error notification lose no request and answer
    none twice: the continuations invoked by the handler and the
    continuations still queued after it are as many as were queued before.
    This holds also when the handler throws. *)
Theorem notifications_conserve_requests w err b s :
  NoDup (obj_keys (_fileRequests s)) →
  length (calls (outcome (_onBundleError w err b s))) +
    pending (outcome (_onBundleError w err b s)) =
    length (calls s) + pending s ∧
  length (calls (outcome (_onBundleLoaded w b s))) +
    pending (outcome (_onBundleLoaded w b s)) =
    length (calls s) + pending s.
Proof.
  intros Hnd.
  split; [by apply error_loop_conserves|]. unfold _onBundleLoaded.
  destruct (Asset.resource (objects w b)) as [res|].
  - by apply resolve_loop_conserves.
  - by apply error_loop_conserves.
Qed.

(** X12. A call of [loadUrl] that returns has either invoked the
    continuation once and left the queue as it was, or queued it once and
    invoked nothing; a call that throws has done neither and leaves the
    state as it was. *)
Theorem loadUrl_calls_or_queues w url callback s :
  match loadUrl w url callback s with
  | Ok s' =>
      (∃ err blobUrl,
         calls s' = calls s ++ [ {| call_callback := callback; call_err := err;
                                    call_blobUrl := blobUrl |} ] ∧
         _fileRequests s' = _fileRequests s) ∨
      (calls s' = calls s ∧ pending s' = pending s + 1 ∧
       ∃ requests, obj_get url (_fileRequests s') = Some (requests ++ [callback]))
  | Throw _ s' => s' = s
  end.
Proof.
  unfold loadUrl.
  destruct (_findLoadedOrLoadingBundleForUrl w url s) as [[b|]|e];
    [|left; by eexists _, _|done].
  destruct (Asset.loaded (objects w b)).
  - destruct (Asset.resource (objects w b)) as [res|]; [|done].
    destruct (decodeURIComponent w url) as [path|]; [|done]. left. by eexists _, _.
  - destruct (obj_get "hasOwnProperty" (_fileRequests s)); [done|].
    assert (Hset : ∀ q, q = default [] (obj_get url (_fileRequests s)) →
        let s' := set_fileRequests (obj_set url (q ++ [callback])) s in
        calls s' = calls s ∧ pending s' = pending s + 1 ∧
        ∃ requests, obj_get url (_fileRequests s') = Some (requests ++ [callback])).
    { intros q -> s'. subst s'. unfold pending. proj_state.
      split_and!; [done|apply queued_set|]. eexists. apply obj_get_set_eq. }
    unfold hasOwnProperty. destruct (obj_get url (_fileRequests s)) as [q|] eqn:Hq.
    + rewrite bool_decide_eq_true_2 by done. right. by apply Hset.
    + rewrite bool_decide_eq_false_2 by (by intros [? ?]). right. by apply (Hset []).
Qed.

(** ** When the registry throws *)

(** X13. [loadUrl] throws exactly in these cases: the URL has no property
    of its own in the index and is the name of a method of
    [Object.prototype] that has parameters (TypeError); the bundle that is
    found is flagged loaded and has no resource (TypeError, possible only
    for a bundle that is also flagged loading); the bundle that is found is
    flagged loaded, has a resource, and the URL cannot be decoded
    (URIError); the bundle that is found is not flagged loaded and a queue is
    held for the URL ['hasOwnProperty'] (TypeError). The registry is then as
    it was, and the continuation has not been called. *)
Theorem loadUrl_throws w url callback s e s' :
  loadUrl w url callback s = Throw e s' ↔
  s' = s ∧
  ((e = TypeError ∧ reads_method url s) ∨
   ∃ b, _findLoadedOrLoadingBundleForUrl w url s = Return (Some b) ∧
        ((Asset.loaded (objects w b) = true ∧
          ((e = TypeError ∧ Asset.resource (objects w b) = None ∧
            Asset.loading (objects w b) = true) ∨
           (e = URIError ∧ is_Some (Asset.resource (objects w b)) ∧
            decodeURIComponent w url = None))) ∨
         (Asset.loaded (objects w b) = false ∧ e = TypeError ∧
          is_Some (obj_get "hasOwnProperty" (_fileRequests s))))).
Proof.
  assert (Hm : reads_method url s →
               _findLoadedOrLoadingBundleForUrl w url s = Raise TypeError).
  { intros Hm. by apply find_bundle_raise. }
  unfold loadUrl.
  destruct (_findLoadedOrLoadingBundleForUrl w url s) as [[b|]|e0] eqn:Hf.
  - assert (Hb : is_loaded w b = true ∨ is_loading w b = true).
    { apply find_bundle_spec in Hf as [(_ & _ & _ & Hb & _)|(_ & _ & _ & _ & Hb & _)];
        eauto. }
    unfold is_loaded, is_loading in Hb.
    destruct (Asset.loaded (objects w b)) eqn:Hl.
    + destruct (Asset.resource (objects w b)) as [res|] eqn:Hr.
      * destruct (decodeURIComponent w url) as [path|] eqn:Hd.
        -- split; [done|].
           intros (_ & [[_ H%Hm]|(b' & [= <-] & [(_ & [(_ & Hr' & _)|(_ & _ & ?)])
                                                |(? & _)])]); congruence.
        -- split.
           ++ intros [= <- <-]. split; [done|]. right. exists b. split; [done|].
              left. split; [done|]. right. by rewrite Hr.
           ++ intros (-> & [[_ H%Hm]|(b' & [= <-] & [(_ & [(_ & Hr' & _)|(-> & _ & _)])
                                                   |(? & _)])]); congruence.
      * split.
        -- intros [= <- <-]. split; [done|]. right. exists b. split; [done|].
           left. split; [done|]. left. split_and!; try done.
           destruct Hb as [Hb|Hb]; [|done]. by cbn in Hb.
        -- intros (-> & [[_ H%Hm]|(b' & [= <-] & [(_ & [(-> & _ & _)|(_ & Hr' & _)])
                                                |(? & _)])]); try congruence.
           rewrite Hr in Hr'. by destruct Hr'.
    + destruct (obj_get "hasOwnProperty" (_fileRequests s)) as [q|] eqn:Hq.
      * split.
        -- intros [= <- <-]. split; [done|]. right. exists b. split; [done|].
           right. split_and!; eauto.
        -- intros (-> & [[_ H%Hm]|(b' & [= <-] & [(Hl' & _)|(_ & -> & _)])]);
             congruence.
      * split.
        -- by destruct (hasOwnProperty url (_fileRequests s)).
        -- intros (_ & [[_ H%Hm]|(b' & [= <-] & [(Hl' & _)|(_ & _ & Hq')])]);
             try congruence.
           by destruct Hq'.
  - split; [done|]. intros (_ & [[_ H%Hm]|(b & ? & _)]); congruence.
  - apply find_bundle_raise in Hf as Hf'. destruct Hf' as [-> Hmeth]. split.
    + intros [= <- <-]. split; [done|]. by left.
    + intros (-> & [[-> _]|(b & ? & _)]); done.
Qed.

Lemma resolve_loop_throws w b res urls : ∀ s e s',
  for_each urls (resolve_requests_for w b res) s = Throw e s' →
  ((e = URIError ∧
    ∃ url requests,
      url ∈ urls ∧ obj_get url (_fileRequests s') = Some requests ∧ requests ≠ [] ∧
      covers b url s' = true ∧ decodeURIComponent w url = None) ∨
   (e = TypeError ∧
    ∃ url requests,
      url ∈ urls ∧ obj_get url (_fileRequests s') = Some requests ∧
      reads_member url s')) ∧
  _bundleAssets s' = _bundleAssets s ∧ _assetsInBundles s' = _assetsInBundles s ∧
  _urlsInBundles s' = _urlsInBundles s ∧ arrays s' = arrays s ∧
  listeners s' = listeners s.
Proof.
  induction urls as [|url urls IH]; intros s e s'; cbn [for_each]; [done|].
  assert (Hin : ∀ e s' ,
    ((e = URIError ∧
      ∃ u requests,
        u ∈ urls ∧ obj_get u (_fileRequests s') = Some requests ∧ requests ≠ [] ∧
        covers b u s' = true ∧ decodeURIComponent w u = None) ∨
     (e = TypeError ∧
      ∃ u requests,
        u ∈ urls ∧ obj_get u (_fileRequests s') = Some requests ∧
        reads_member u s')) →
    ((e = URIError ∧
      ∃ u requests,
        u ∈ url :: urls ∧ obj_get u (_fileRequests s') = Some requests ∧
        requests ≠ [] ∧ covers b u s' = true ∧ decodeURIComponent w u = None) ∨
     (e = TypeError ∧
      ∃ u requests,
        u ∈ url :: urls ∧ obj_get u (_fileRequests s') = Some requests ∧
        reads_member u s'))).
  { intros e0 s0 [(-> & u & r & ? & ?)|(-> & u & r & ? & ?)]; [left|right];
      (split; [done|]); exists u, r; (split; [by right|done]). }
  destruct (resolve_requests_for_cases w b res url s)
    as [E|[(q & path & _ & _ & _ & E)|[(_ & _ & E)|[(q & Hq & Hne & Hc & Hd & E)
                                                   |(q & Hq & Hm & E)]]]];
    rewrite E; cbn [bind].
  - intros (H & ? & ? & ? & ? & ?)%IH. split_and!; try done. by apply Hin.
  - intros (H & Hfr)%IH. rewrite foldl_invoke in Hfr. proj_state.
    destruct Hfr as (? & ? & ? & ? & ?). split_and!; try done. by apply Hin.
  - intros (H & Hfr)%IH. proj_state.
    destruct Hfr as (? & ? & ? & ? & ?). split_and!; try done. by apply Hin.
  - intros [= <- <-]. split_and!; try done. left. split; [done|].
    exists url, q. split; [by left|done].
  - intros [= <- <-]. split_and!; try done. right. split; [done|].
    exists url, q. split; [by left|done].
Qed.

Lemma error_loop_throws w err urls : ∀ s e s',
  for_each urls (fail_requests_for w err) s = Throw e s' →
  e = TypeError ∧
  (∃ url requests,
     url ∈ urls ∧ obj_get url (_fileRequests s') = Some requests ∧
     reads_method url s') ∧
  _bundleAssets s' = _bundleAssets s ∧ _assetsInBundles s' = _assetsInBundles s ∧
  _urlsInBundles s' = _urlsInBundles s ∧ arrays s' = arrays s ∧
  listeners s' = listeners s.
Proof.
  induction urls as [|url urls IH]; intros s e s'; cbn [for_each]; [done|].
  destruct (fail_requests_for_cases w err url s)
    as [[_ E]|(q & Hq & [[_ E]|[[_ E]|[Hm E]]])]; rewrite E; cbn [bind].
  - intros (-> & (u & r & ? & ?) & ? & ? & ? & ? & ?)%IH. split_and!; try done.
    exists u, r. split; [by right|done].
  - intros (-> & (u & r & ? & ?) & ? & ? & ? & ? & ?)%IH. split_and!; try done.
    exists u, r. split; [by right|done].
  - intros (-> & (u & r & ? & ?) & Hfr)%IH. rewrite foldl_invoke in Hfr. proj_state.
    destruct Hfr as (? & ? & ? & ? & ?).
    split_and!; try done. exists u, r. split; [by right|done].
  - intros [= <- <-]. split_and!; try done. exists url, q. split; [by left|done].
Qed.

(** X14. [_onBundleLoaded] throws only at a URL that is still queued: a
    URIError for a bundle with a resource, at a URL of the bundle which
    [decodeURIComponent] rejects and which has a request queued; a TypeError
    at a URL that has no property of its own in the index and is the name of
    a member of [Object.prototype], which for a bundle without a resource is
    a method with parameters. The indices and the listeners are then as they
    were. *)
Theorem onBundleLoaded_throws w b s e s' :
  _onBundleLoaded w b s = Throw e s' →
  ((e = URIError ∧ is_Some (Asset.resource (objects w b)) ∧
    ∃ url requests,
      obj_get url (_fileRequests s') = Some requests ∧ requests ≠ [] ∧
      covers b url s' = true ∧ decodeURIComponent w url = None) ∨
   (e = TypeError ∧
    ∃ url requests,
      obj_get url (_fileRequests s') = Some requests ∧ reads_member url s' ∧
      (Asset.resource (objects w b) = None → reads_method url s'))) ∧
  _bundleAssets s' = _bundleAssets s ∧ _assetsInBundles s' = _assetsInBundles s ∧
  _urlsInBundles s' = _urlsInBundles s ∧ arrays s' = arrays s ∧
  listeners s' = listeners s.
Proof.
  unfold _onBundleLoaded. destruct (Asset.resource (objects w b)) as [res|].
  - intros ([(-> & u & r & _ & ?)|(-> & u & r & _ & ? & ?)] & ? & ? & ? & ? & ?)
      %resolve_loop_throws; (split_and!; try done).
    + left. split_and!; try done. by exists u, r.
    + right. split; [done|]. exists u, r. split_and!; done.
  - unfold _onBundleError.
    intros (-> & (u & r & _ & ? & Hm) & ? & ? & ? & ? & ?)%error_loop_throws.
    split_and!; try done. right. split; [done|]. exists u, r.
    split_and!; try done. by apply reads_method_member.
Qed.

(** X23. [_onBundleError] throws nothing but TypeError, and only at a URL
    that is still queued, has no property of its own in the index and is the
    name of a method of [Object.prototype] that has parameters; the indices
    and the listeners are then as they were. *)
Theorem onBundleError_throws w err b s e s' :
  _onBundleError w err b s = Throw e s' →
  e = TypeError ∧
  (∃ url requests,
     obj_get url (_fileRequests s') = Some requests ∧ reads_method url s') ∧
  _bundleAssets s' = _bundleAssets s ∧ _assetsInBundles s' = _assetsInBundles s ∧
  _urlsInBundles s' = _urlsInBundles s ∧ arrays s' = arrays s ∧
  listeners s' = listeners s.
Proof.
  unfold _onBundleError.
  intros (-> & (u & r & _ & ? & Hm) & ? & ? & ? & ? & ?)%error_loop_throws.
  split_and!; try done. by exists u, r.
Qed.

(** X15. [_onAssetRemoved] throws exactly for an asset that is not a bundle,
    has an entry in [_assetsInBundles], and whose [getFileUrl()] is null or
    the empty string; what it throws is TypeError, after the entry of the
    asset has been deleted and nothing else changed. *)
Theorem onAssetRemoved_throws w asset s e s' :
  _onAssetRemoved w asset s = Throw e s' ↔
  e = TypeError ∧
  Asset.type (objects w asset) ≠ "bundle" ∧
  is_Some (obj_get (Asset.id (objects w asset)) (_assetsInBundles s)) ∧
  (Asset.getFileUrl (objects w asset) = None ∨
   Asset.getFileUrl (objects w asset) = Some "") ∧
  s' = set_assetsInBundles (obj_delete (Asset.id (objects w asset))) s.
Proof.
  assert (Hurls : _getAssetFileUrls (objects w asset) = None ↔
                  Asset.getFileUrl (objects w asset) = None ∨
                  Asset.getFileUrl (objects w asset) = Some "").
  { unfold _getAssetFileUrls. destruct (Asset.getFileUrl (objects w asset)) as [u|].
    - destruct (decide (u = "")) as [->|Hu].
      + split; eauto.
      + destruct (decide (Asset.type (objects w asset) = "font"));
          (split; [done|]); by intros [|[= ?]].
    - split; eauto. }
  unfold _onAssetRemoved.
  destruct (decide (Asset.type (objects w asset) = "bundle")) as [Hb|Hb].
  { split; [done|]. by intros (_ & ? & _). }
  destruct (obj_get (Asset.id (objects w asset)) (_assetsInBundles s)) as [loc|].
  2:{ split; [done|]. by intros (_ & _ & [? ?] & _). }
  destruct (_getAssetFileUrls (objects w asset)) as [urls|].
  - split; [done|]. intros (_ & _ & _ & Hu%Hurls & _). done.
  - split.
    + intros [= <- <-]. split_and!; try done. by apply Hurls.
    + by intros (-> & _ & _ & _ & ->).
Qed.

(** ** The URLs of an asset *)

(** X16. [_normalizeUrl] returns the longest prefix of the URL that holds no
    question mark: what it cuts off is empty or begins with the first
    question mark, and a normalized URL is left as it is. *)
Theorem normalizeUrl_prefix url :
  (∀ p q, _normalizeUrl url ≠ p +:+ "?" +:+ q) ∧
  (∃ rest, url = _normalizeUrl url +:+ rest ∧ (rest = "" ∨ ∃ q, rest = "?" +:+ q)) ∧
  _normalizeUrl (_normalizeUrl url) = _normalizeUrl url.
Proof.
  split_and!.
  - intros p q E. apply (normalizeUrl_query_ne p q). rewrite <-E. apply normalizeUrl_idemp.
  - unfold _normalizeUrl. induction url as [|c url (rest & E & Hrest)]; cbn [before_query].
    + exists "". split; [done|by left].
    + destruct (decide (c = "?"%char)) as [->|Hc].
      * exists (String "?" url). split; [done|]. right. by exists url.
      * exists rest. split; [|done]. rewrite string_app_cons. by rewrite <-E.
  - apply normalizeUrl_idemp.
Qed.

(** X17. The URL list of an asset is null exactly when [getFileUrl()] is
    null or empty. Otherwise it starts with the normalized URL; every asset
    but a font has that one URL, and a font of [N] pages has [max 1 N] URLs,
    the one at index [i >= 1] being the page URL of [i]. Every URL of the
    list is normalized. *)
Theorem getAssetFileUrls_shape a :
  (_getAssetFileUrls a = None ↔
   Asset.getFileUrl a = None ∨ Asset.getFileUrl a = Some "") ∧
  ∀ urls, _getAssetFileUrls a = Some urls →
    ∃ url, Asset.getFileUrl a = Some url ∧
      urls !! 0 = Some (_normalizeUrl url) ∧
      length urls =
        (if decide (Asset.type a = "font") then 1 `max` Asset.data_info_maps_length a
         else 1) ∧
      (∀ i, 1 ≤ i < length urls → urls !! i = Some (page_url (_normalizeUrl url) i)) ∧
      ∀ u, u ∈ urls → _normalizeUrl u = u.
Proof.
  split.
  - unfold _getAssetFileUrls. destruct (Asset.getFileUrl a) as [u|].
    + destruct (decide (u = "")) as [->|Hu].
      * split; eauto.
      * destruct (decide (Asset.type a = "font")); (split; [done|]); by intros [|[= ?]].
    + split; eauto.
  - intros urls Hurls. pose proof (getAssetFileUrls_normalized a urls Hurls) as Hnorm.
    unfold _getAssetFileUrls in Hurls.
    destruct (Asset.getFileUrl a) as [u|]; [|done].
    destruct (decide (u = "")) as [->|Hu]; [done|]. exists u. split; [done|].
    destruct (decide (Asset.type a = "font")) as [Hf|Hf]; injection Hurls as <-.
    + split_and!; try done.
      * cbn [app length]. rewrite length_fmap, length_seq. lia.
      * intros i. cbn [app length]. rewrite length_fmap, length_seq. intros Hi.
        destruct i as [|i]; [lia|]. rewrite lookup_cons_ne_0 by done. cbn [pred].
        rewrite list_lookup_fmap, lookup_seq_lt by lia. done.
    + split_and!; try done. intros i. cbn. lia.
Qed.

(** X18. A font whose normalized URL contains no ['.png'] has the same URL
    for every page, so that indexing it installs the one URL entry of the
    base URL, whatever the number of pages. *)
Theorem font_without_png_one_url w asset url s :
  Asset.type (objects w asset) = "font" →
  Asset.getFileUrl (objects w asset) = Some url →
  url ≠ "" →
  (∀ p q, _normalizeUrl url ≠ p +:+ ".png" +:+ q) →
  _getAssetFileUrls (objects w asset) =
    Some (replicate (1 `max` Asset.data_info_maps_length (objects w asset))
            (_normalizeUrl url)) ∧
  ∀ u, u ≠ _normalizeUrl url →
       obj_get u (_urlsInBundles (_indexAssetFileUrls w asset s)) =
       obj_get u (_urlsInBundles s).
Proof.
  intros Hf Hu Hne Hpng.
  assert (E : _getAssetFileUrls (objects w asset) =
    Some (replicate (1 `max` Asset.data_info_maps_length (objects w asset))
            (_normalizeUrl url))).
  { unfold _getAssetFileUrls. rewrite Hu, decide_False, decide_True by done. f_equal.
    assert (Hrep : ∀ n k, page_url (_normalizeUrl url) <$> seq k n =
                          replicate n (_normalizeUrl url)).
    { induction n as [|n IH]; intros k; [done|]. cbn [seq]. rewrite fmap_cons, IH.
      by rewrite page_url_no_png. }
    rewrite Hrep.
    destruct (Asset.data_info_maps_length (objects w asset)) as [|n]; [done|].
    cbn [app]. replace (1 `max` S n) with (S n) by lia.
    replace (S n - 1) with n by lia. done. }
  split; [done|]. intros u Hun.
  unfold _indexAssetFileUrls. rewrite E.
  generalize (1 `max` Asset.data_info_maps_length (objects w asset)). intros n. revert s.
  induction n as [|n IH]; intros s; [done|]. cbn [replicate foldl]. rewrite IH. proj_state.
  by apply obj_get_set_ne.
Qed.

(** ** A request outlives the error of one of two bundles *)

Lemma NoDup_keys_filter {V} (P : string * V → Prop) `{!∀ e, Decision (P e)}
    (o : jsobj V) :
  NoDup (obj_keys o) → NoDup (obj_keys (filter P o)).
Proof.
  intros Hnd. eapply sublist_NoDup; [exact Hnd|]. unfold obj_keys.
  apply fmap_sublist, sublist_filter.
Qed.

(** X19. A queued request whose URL is in a bundle that is still being
    loaded survives the error notification of any bundle: when no URL of the
    queue is read as a member of [Object.prototype], the handler returns,
    keeps the queue of that URL and calls none of its continuations. When
    the loading bundle is then loaded, every continuation of the queue is
    called with null and the blob URL of that bundle's resource, and the
    queue of the URL is deleted. *)
Theorem request_falls_back_to_loading_bundle w1 w2 err b1 b2 res path url requests s :
  NoDup (obj_keys (_fileRequests s)) →
  obj_get url (_fileRequests s) = Some requests →
  b2 ∈ bundles_of url s →
  is_loading w1 b2 = true →
  Asset.resource (objects w2 b2) = Some res →
  decodeURIComponent w2 url = Some path →
  (∀ url', url' ∈ obj_keys (_fileRequests s) → is_Some (decodeURIComponent w2 url')) →
  (∀ url', url' ∈ obj_keys (_fileRequests s) → ¬ reads_member url' s) →
  ∃ s1, _onBundleError w1 err b1 s = Ok s1 ∧
    obj_get url (_fileRequests s1) = Some requests ∧
    calls s1 = calls s ++ flat_map (failed_calls w1 err s)
                            (filter (λ e, e.1 ≠ url) (for_in_entries (_fileRequests s))) ∧
    ∃ s2, _onBundleLoaded w2 b2 s1 = Ok s2 ∧
          obj_get url (_fileRequests s2) = None ∧
          ∀ r, r ∈ requests →
               {| call_callback := r; call_err := None;
                  call_blobUrl := Some (getBlobUrl res path) |} ∈ calls s2.
Proof.
  intros Hnd Hq Hb2 Hl Hres Hd Hdec Hsafe.
  destruct (onBundleError_spec w1 err b1 s Hnd)
    as (s1 & E1 & EF & EC & _ & _ & EU & EA & _).
  { intros url' Hin Hm. by apply (Hsafe url' Hin), reads_method_member. }
  exists s1. split; [done|].
  assert (Hcan : canLoadUrl w1 url s = Return true).
  { apply canLoadUrl_survivor. exists b2. eauto. }
  assert (Hq1 : obj_get url (_fileRequests s1) = Some requests).
  { rewrite EF, obj_get_filter, Hq by done. cbn [fst]. by rewrite decide_True. }
  assert (Hnd1 : NoDup (obj_keys (_fileRequests s1))).
  { rewrite EF. by apply NoDup_keys_filter. }
  assert (Hc : covers b2 url s1 = true).
  { rewrite (covers_frame b2 url s1 s) by done. by apply covers_true. }
  assert (Hsub : ∀ url', url' ∈ obj_keys (_fileRequests s1) →
                         url' ∈ obj_keys (_fileRequests s)).
  { intros url' Hin. rewrite EF in Hin. unfold obj_keys in *.
    apply list_elem_of_fmap in Hin as (e & -> & He%list_elem_of_filter).
    apply list_elem_of_fmap. exists e. split; [done|apply He]. }
  split_and!; [done| |].
  - rewrite EC. f_equal.
    assert (Hkey : ∀ e, e ∈ for_in_entries (_fileRequests s) → e.1 = url →
                        failed_calls w1 err s e = []).
    { intros [k v] _ Hk. cbn in Hk. subst k. unfold failed_calls. cbn [fst]. by rewrite Hcan. }
    revert Hkey. generalize (for_in_entries (_fileRequests s)). intros o.
    induction o as [|e o IH]; intros Hkey; [done|].
    cbn [flat_map]. rewrite filter_cons. destruct (decide (e.1 ≠ url)) as [Hne|He].
    + cbn [flat_map]. f_equal. apply IH. intros e' He'. apply Hkey. by right.
    + rewrite Hkey; [|by left|by destruct (decide (e.1 = url))]. cbn [app].
      apply IH. intros e' He'. apply Hkey. by right.
  - destruct (onBundleLoaded_spec w2 b2 res s1 Hnd1 Hres) as (s2 & E & EF2 & EC2 & _).
    { intros url' Hin. rewrite (reads_member_frame url' s1 s) by done.
      by apply Hsafe, Hsub. }
    { intros url' Hin _. by apply Hdec, Hsub. }
    exists s2. split_and!; [done| |].
    + rewrite EF2, obj_get_filter, Hq1 by done. cbn [fst]. rewrite decide_False; [done|].
      by rewrite Hc.
    + intros r Hr. rewrite EC2. apply elem_of_app. right.
      apply list_elem_of_In, in_flat_map. exists (url, requests). split.
      * apply list_elem_of_In, elem_of_for_in_entries. by apply obj_get_elem.
      * apply list_elem_of_In. unfold resolved_calls. cbn [fst snd]. rewrite Hc, Hd.
        unfold calls_of. apply list_elem_of_fmap. by exists r.
Qed.

(** ** [destroy] and [list] *)

Lemma destroy_loop_listeners ids : ∀ s,
  let s' :=
    foldl (λ s id,
             on ("error:" +:+ id) OnBundleError (on ("load:" +:+ id) OnBundleLoaded s))
          s ids in
  listeners s' =
    listeners s ++
    flat_map (λ id, [("load:" +:+ id, OnBundleLoaded); ("error:" +:+ id, OnBundleError)]) ids ∧
  calls s' = calls s.
Proof.
  induction ids as [|id ids IH]; intros s; cbv zeta; cbn [foldl flat_map].
  - by rewrite app_nil_r.
  - destruct (IH (on ("error:" +:+ id) OnBundleError
                    (on ("load:" +:+ id) OnBundleLoaded s))) as [-> ->].
    proj_state. split; [|done]. rewrite <-!app_assoc. done.
Qed.

(** X20. [destroy] calls no continuation, so the requests that are queued
    are dropped without an answer. Of the listeners it removes those of
    ['add'] and ['remove'], keeps every other one, and subscribes the load
    and the error handler once more for each bundle of [_bundleAssets], in
    the order of [for (id in this._bundleAssets)]: the ids that are array
    indices in ascending order, then the others in the order in which they
    were created. *)
Theorem destroy_answers_no_request s :
  calls_made (destroy s) = calls s ∧
  listeners_left (destroy s) =
    filter (λ l, l ≠ ("remove", OnAssetRemoved))
      (filter (λ l, l ≠ ("add", OnAssetAdded)) (listeners s)) ++
    flat_map (λ id, [("load:" +:+ id, OnBundleLoaded); ("error:" +:+ id, OnBundleError)])
      (for_in (_bundleAssets s)).
Proof.
  unfold destroy. cbn [listeners_left calls_made].
  set (s1 := off "remove" OnAssetRemoved (off "add" OnAssetAdded s)).
  destruct (destroy_loop_listeners (for_in (_bundleAssets s1)) s1) as [-> ->].
  subst s1. proj_state. done.
Qed.



(** ** A URL of the index has a bundle *)

Lemma urls_nonempty_frame s1 s2 :
  _urlsInBundles s1 = _urlsInBundles s2 →
  arrays s1 = arrays s2 →
  urls_nonempty s1 → urls_nonempty s2.
Proof. unfold urls_nonempty. by intros -> ->. Qed.

Lemma lookup_total_nonempty_lt (h : list (list Ref)) loc : h !!! loc ≠ [] → loc < length h.
Proof.
  intros Hne. destruct (decide (loc < length h)) as [|Hge]; [done|].
  exfalso. apply Hne. rewrite list_lookup_total_alt, lookup_ge_None_2 by lia. done.
Qed.

(** The arrays only grow while an asset is indexed. *)
Lemma indexAssetInBundle_arrays w assetId b s loc :
  arrays s !!! loc ≠ [] → arrays (_indexAssetInBundle w assetId b s) !!! loc ≠ [].
Proof.
  intros Hne. pose proof (lookup_total_nonempty_lt _ _ Hne) as Hlt.
  unfold _indexAssetInBundle.
  set (s1 := match obj_get assetId (_assetsInBundles s) with
             | Some loc => _ | None => _ end).
  assert (H1 : arrays s1 !!! loc ≠ []).
  { subst s1. destruct (obj_get assetId (_assetsInBundles s)) as [loc1|].
    - destruct (indexOf b (arrays s !!! loc1)); [done|]. proj_state.
      destruct (decide (loc1 = loc)) as [->|Hl].
      + rewrite list_lookup_total_insert_eq by done. by destruct (arrays s !!! loc).
      + by rewrite list_lookup_total_insert_ne.
    - proj_state. by rewrite lookup_total_app_l. }
  destruct (get w assetId) as [asset|]; [|done].
  by destruct (indexAssetFileUrls_frame w asset s1) as (_ & -> & _).
Qed.

Lemma indexAssetFileUrls_urls w asset s url loc :
  obj_get url (_urlsInBundles (_indexAssetFileUrls w asset s)) = Some (Some loc) →
  obj_get url (_urlsInBundles s) = Some (Some loc) ∨
  obj_get (Asset.id (objects w asset)) (_assetsInBundles s) = Some loc.
Proof.
  unfold _indexAssetFileUrls. destruct (_getAssetFileUrls (objects w asset)) as [urls|];
    [|by left].
  destruct (index_urls_loop (Asset.id (objects w asset)) urls s) as (Hin & Hout & _).
  destruct (decide (url ∈ urls)) as [Hu|Hu].
  - rewrite (Hin url Hu). intros [= E]. by right.
  - rewrite (Hout url Hu). by left.
Qed.

Lemma indexAssetInBundle_urls_nonempty w assetId b s :
  wf s → sets_nonempty s → urls_nonempty s →
  urls_nonempty (_indexAssetInBundle w assetId b s).
Proof.
  intros Hwf Hs Hu url loc Hurl.
  pose proof (indexAssetInBundle_nonempty w assetId b s Hwf Hs) as Hs'.
  pose proof (indexAssetInBundle_arrays w assetId b s) as Harr.
  revert Hurl Hs' Harr. unfold _indexAssetInBundle.
  set (s1 := match obj_get assetId (_assetsInBundles s) with
             | Some loc => _ | None => _ end).
  assert (HU1 : _urlsInBundles s1 = _urlsInBundles s).
  { subst s1. destruct (obj_get assetId (_assetsInBundles s)) as [loc1|]; [|done].
    by destruct (indexOf b (arrays s !!! loc1)). }
  destruct (get w assetId) as [asset|].
  - intros Hurl Hs' Harr.
    destruct (indexAssetFileUrls_frame w asset s1) as (EA & _).
    apply indexAssetFileUrls_urls in Hurl as [Hold|Hnew].
    + apply Harr. rewrite HU1 in Hold. by eapply Hu.
    + rewrite <-EA in Hnew. by eapply Hs'.
  - intros Hurl _ Harr. apply Harr. rewrite HU1 in Hurl. by eapply Hu.
Qed.

Lemma onAssetAdded_urls_nonempty w asset s :
  wf s → sets_nonempty s → urls_nonempty s → urls_nonempty (_onAssetAdded w asset s).
Proof.
  intros Hwf Hs Hu. unfold _onAssetAdded. case_decide.
  - set (s1 := on _ _ (on _ _ (set_bundleAssets _ s))).
    assert (W1 : wf s1) by (by eapply (wf_frame s)).
    assert (H1 : sets_nonempty s1) by done.
    assert (U1 : urls_nonempty s1) by done. clearbody s1.
    revert s1 W1 H1 U1. induction (Asset.data_assets (objects w asset)) as [|a ids IH];
      intros s1 W1 H1 U1; cbn [foldl]; [done|].
    apply IH.
    + by apply indexAssetInBundle_spec.
    + by apply indexAssetInBundle_nonempty.
    + by apply indexAssetInBundle_urls_nonempty.
  - destruct (obj_get (Asset.id (objects w asset)) (_assetsInBundles s)) eqn:Hid; [|done].
    intros url loc Hurl.
    destruct (indexAssetFileUrls_frame w asset s) as (_ & -> & _).
    apply indexAssetFileUrls_urls in Hurl as [Hold|Hnew]; [by eapply Hu|by eapply Hs].
Qed.

Lemma onAssetRemoved_urls_nonempty w asset s :
  wf s → sets_nonempty s → urls_nonempty s →
  urls_nonempty (outcome (_onAssetRemoved w asset s)).
Proof.
  intros Hwf Hs Hu.
  destruct (decide (Asset.type (objects w asset) = "bundle")) as [Hty|Hty].
  - destruct (onAssetRemoved_bundle_spec w asset s Hwf Hty)
      as (s' & Hs' & _ & _ & E3 & E4 & _).
    rewrite Hs'. cbn [outcome]. intros url loc. rewrite E4, E3. unfold urls_after.
    destruct (obj_get url (_urlsInBundles s)) as [[loc0|]|] eqn:Hurl; [|done..].
    case_decide as Hd; [done|]. intros [= <-].
    destruct (decide (loc0 ∈ (_assetsInBundles s).*2)) as [Hin|Hnin];
      [rewrite decide_True by done|rewrite decide_False by done; by eapply Hu].
    apply list_elem_of_fmap in Hin as ([id l] & -> & Hin). cbn [snd] in *.
    apply obj_get_of_elem in Hin; [|apply Hwf].
    apply filter_ne_nonempty; [by eapply wf_once|by eapply Hs|].
    intros Hb. apply Hd. split; [|done].
    apply list_elem_of_fmap. exists (id, l). split; [done|by apply obj_get_elem].
  - unfold _onAssetRemoved. rewrite decide_False by done.
    destruct (obj_get (Asset.id (objects w asset)) (_assetsInBundles s)); [|done].
    destruct (_getAssetFileUrls (objects w asset)) as [urls|]; [|done].
    cbn [outcome]. intros url loc.
    match goal with |- context [foldl _ ?s1 urls] =>
      destruct (delete_urls_lookup urls s1) as (E1 & _);
      destruct (delete_urls_frame urls s1) as (_ & E2 & _) end.
    rewrite E1, E2. case_decide; [done|]. proj_state. apply Hu.
Qed.

(** X22. In every state the registry can reach, a URL for which [hasUrl]
    answers true either has a property of its own in [_urlsInBundles], and
    then it has a bundle: the array it holds is not empty, so that when
    [canLoadUrl] refuses it, its bundles are all neither loaded with a
    resource nor being loaded; or it has none and is the name of a member of
    [Object.prototype], and then it has no bundle. *)
Theorem reachable_hasUrl_has_bundle s :
  reachable s →
  ∀ url, hasUrl url s = true →
    (reads_member url s ∧ bundles_of url s = []) ∨
    (is_Some (obj_get url (_urlsInBundles s)) ∧
     bundles_of url s ≠ [] ∧
     ∀ w, canLoadUrl w url s = Return false →
          ∃ b, b ∈ bundles_of url s ∧ is_loaded w b = false ∧ is_loading w b = false).
Proof.
  intros Hr.
  assert (Hu : urls_nonempty s).
  { induction Hr as [|w asset s Hr IH|w asset s Hr IH|w b s Hr IH|w err b s Hr IH
                     |w url callback s Hr IH].
    - intros url loc H. discriminate.
    - apply onAssetAdded_urls_nonempty;
        [by apply reachable_wf|by apply reachable_sets_nonempty|done].
    - apply onAssetRemoved_urls_nonempty;
        [by apply reachable_wf|by apply reachable_sets_nonempty|done].
    - apply reachable_wf in Hr as Hwf.
      destruct (onBundleLoaded_frame w b s) as (_ & _ & _ & E1 & E2 & _); [apply Hwf|].
      by eapply (urls_nonempty_frame s).
    - apply reachable_wf in Hr as Hwf.
      destruct (onBundleError_frame w err b s) as (_ & _ & _ & E1 & E2 & _); [apply Hwf|].
      by eapply (urls_nonempty_frame s).
    - destruct (loadUrl_frame w url callback s) as (_ & E1 & E2 & _).
      by eapply (urls_nonempty_frame s). }
  intros url [(loc & Hurl)|Hm]%hasUrl_true.
  - right. assert (Hne : bundles_of url s ≠ []).
    { unfold bundles_of. rewrite Hurl. by eapply Hu. }
    split_and!; [by rewrite Hurl|done|].
    intros w Hcan%canLoadUrl_false.
    destruct (bundles_of url s) as [|b l] eqn:Hb; [done|].
    exists b. pose proof (proj1 (proj1 (find_bundle_None w url s) Hcan) b) as Hnone.
    rewrite Hb in Hnone. destruct Hnone as [? ?]; [by left|]. split_and!; [by left|done..].
  - left. split; [done|]. unfold bundles_of. by rewrite (proj1 Hm).
Qed.

(** ** The further properties at work in the small world *)

Lemma reachable_ex_two_queued : reachable ex_two_queued.
Proof. apply reach_loadUrl, reach_added, reach_added, reach_new. Qed.

Lemma ex_tex_not_bundle : Asset.type (objects ex_loading 1) ≠ "bundle".
Proof. vm_compute. discriminate. Qed.

Lemma ex_get_by_id : get_by_id ex_loading.
Proof.
  intros id asset. unfold ex_loading, ex_env. cbn [get objects].
  repeat case_decide; intros [= <-]; by subst.
Qed.

Lemma page_url_fixed_no_png u :
  page_url u 1 = u → ∀ p q, u ≠ p +:+ ".png" +:+ q.
Proof.
  intros Hfix p q E.
  destruct (page_url_occurrence u) as (p' & q' & E' & _ & Hpage); [by exists p, q|].
  specialize (Hpage 1). rewrite Hfix in Hpage. rewrite E' in Hpage at 1.
  apply (f_equal String.length) in Hpage. rewrite !string_app_length in Hpage.
  replace (String.length (pretty 1)) with 1 in Hpage by (vm_compute; reflexivity). lia.
Qed.

Lemma reachable_sets_distinct_witness :
  (∀ w asset, NoDup (listBundlesForAsset w asset ex_added)) ∧
  (∀ w asset, listBundlesForAsset w asset ex_added = [] ↔
              obj_get (Asset.id (objects w asset)) (_assetsInBundles ex_added) = None) ∧
  (∀ id1 id2 loc,
     obj_get id1 (_assetsInBundles ex_added) = Some loc →
     obj_get id2 (_assetsInBundles ex_added) = Some loc → id1 = id2).
Proof. exact (reachable_sets_distinct ex_added reachable_ex_added). Defined.

Lemma reachable_queues_witness :
  NoDup (obj_keys (_fileRequests ex_queued)) ∧
  ∀ url requests, obj_get url (_fileRequests ex_queued) = Some requests → requests ≠ [].
Proof. exact (reachable_queues ex_queued reachable_ex_queued). Defined.

Lemma reachable_hasUrl_normalized_witness :
  hasUrl "tex.png" ex_added = true ∧ _normalizeUrl "tex.png" = "tex.png".
Proof.
  assert (H : hasUrl "tex.png" ex_added = true) by (vm_compute; reflexivity).
  split; [exact H|].
  exact (reachable_hasUrl_normalized ex_added "tex.png" reachable_ex_added H).
Defined.

Lemma bundle_added_is_listed_witness :
  (∀ w' a,
     listBundlesForAsset w' a (_onAssetAdded ex_loading 0 BundleRegistry) =
       if decide (Asset.id (objects w' a) ∈ Asset.data_assets (objects ex_loading 0))
       then add_once 0 (listBundlesForAsset w' a BundleRegistry)
       else listBundlesForAsset w' a BundleRegistry) ∧
  _fileRequests (_onAssetAdded ex_loading 0 BundleRegistry) = _fileRequests BundleRegistry ∧
  calls (_onAssetAdded ex_loading 0 BundleRegistry) = calls BundleRegistry.
Proof.
  exact (bundle_added_is_listed ex_loading 0 BundleRegistry wf_BundleRegistry
           ex_bundle_is_bundle).
Defined.

Lemma bundle_added_twice_witness :
  listBundlesForAsset ex_loading 1
    (_onAssetAdded ex_loading 0 (_onAssetAdded ex_loading 0 BundleRegistry)) =
  listBundlesForAsset ex_loading 1 (_onAssetAdded ex_loading 0 BundleRegistry).
Proof.
  exact (bundle_added_twice ex_loading 0 BundleRegistry wf_BundleRegistry ex_loading 1).
Defined.

Lemma bundle_add_remove_round_trip_witness :
  ∃ s2, _onAssetRemoved ex_loading 0 (_onAssetAdded ex_loading 0 BundleRegistry) = Ok s2 ∧
        listeners s2 = listeners BundleRegistry ∧ list' s2 = list' BundleRegistry.
Proof.
  destruct (bundle_add_remove_round_trip ex_loading ex_loading 0 BundleRegistry
              wf_BundleRegistry ex_bundle_is_bundle ex_bundle_is_bundle eq_refl)
    as (s2 & E & _ & _ & _ & H).
  exists s2. split; [exact E|]. apply H.
  - apply (bool_decide_unpack _). vm_compute. exact I.
  - apply (bool_decide_unpack _). vm_compute. exact I.
  - apply (bool_decide_unpack _). vm_compute. exact I.
Defined.

Lemma asset_removed_is_unindexed_witness :
  ∃ s', _onAssetRemoved ex_loading 1 ex_added = Ok s' ∧
        listBundlesForAsset ex_loading 1 s' = [] ∧
        hasUrl "tex.png" s' = false.
Proof.
  destruct (asset_removed_is_unindexed ex_loading 1 ex_added ["tex.png"])
    as (s' & E & H1 & H2 & _).
  - exact ex_tex_not_bundle.
  - exists 0. vm_compute. reflexivity.
  - vm_compute. reflexivity.
  - exists s'. split; [exact E|]. split; [exact H1|].
    destruct (H2 "tex.png") as [_ ->]; [left|vm_compute; reflexivity].
Defined.

Lemma asset_added_after_bundle_witness :
  hasUrl "tex.png" (_onAssetAdded ex_loading 1 ex_bundle_only) = true ∧
  bundles_of "tex.png" (_onAssetAdded ex_loading 1 ex_bundle_only) =
    listBundlesForAsset ex_loading 1 (_onAssetAdded ex_loading 1 ex_bundle_only).
Proof.
  destruct (asset_added_after_bundle ex_loading 1 ex_bundle_only ex_tex_not_bundle)
    as (_ & H).
  destruct (H 0 ["tex.png"]) as (H1 & _).
  - vm_compute. reflexivity.
  - vm_compute. reflexivity.
  - apply H1. left.
Defined.

Lemma bundle_added_indexes_urls_witness :
  0 ∈ bundles_of "tex.png" (_onAssetAdded ex_loading 0 BundleRegistry) ∧
  hasUrl "tex.png" (_onAssetAdded ex_loading 0 BundleRegistry) = true.
Proof.
  apply (bundle_added_indexes_urls ex_loading 0 BundleRegistry "10" 1 ["tex.png"] "tex.png").
  - exact wf_BundleRegistry.
  - exact ex_get_by_id.
  - exact ex_bundle_is_bundle.
  - vm_compute. left.
  - vm_compute. reflexivity.
  - vm_compute. reflexivity.
  - left.
Defined.

Lemma notifications_conserve_requests_witness :
  length (calls (outcome (_onBundleError ex_errored "failed" 0 ex_queued))) +
    pending (outcome (_onBundleError ex_errored "failed" 0 ex_queued)) =
    length (calls ex_queued) + pending ex_queued ∧
  length (calls (outcome (_onBundleLoaded ex_loaded 0 ex_queued))) +
    pending (outcome (_onBundleLoaded ex_loaded 0 ex_queued)) =
    length (calls ex_queued) + pending ex_queued.
Proof.
  destruct (notifications_conserve_requests ex_errored "failed" 0 ex_queued) as [H1 _].
  { apply reachable_wf, reachable_ex_queued. }
  destruct (notifications_conserve_requests ex_loaded "failed" 0 ex_queued) as [_ H2].
  { apply reachable_wf, reachable_ex_queued. }
  split; [exact H1|exact H2].
Defined.

Lemma onBundleLoaded_throws_witness :
  _onBundleLoaded ex_undecodable 0 ex_queued = Throw URIError ex_queued ∧
  ∃ url requests,
    obj_get url (_fileRequests ex_queued) = Some requests ∧ requests ≠ [] ∧
    covers 0 url ex_queued = true ∧ decodeURIComponent ex_undecodable url = None.
Proof.
  assert (H : _onBundleLoaded ex_undecodable 0 ex_queued = Throw URIError ex_queued)
    by (vm_compute; reflexivity).
  split; [exact H|].
  destruct (onBundleLoaded_throws ex_undecodable 0 ex_queued URIError ex_queued H)
    as ([(_ & _ & Hq)|(He & _)] & _); [exact Hq|discriminate He].
Defined.

Lemma font_without_png_one_url_witness :
  _getAssetFileUrls (objects ex_json_font 2) =
    Some (replicate (1 `max` Asset.data_info_maps_length (objects ex_json_font 2))
            (_normalizeUrl "font.json")) ∧
  ∀ u, u ≠ _normalizeUrl "font.json" →
       obj_get u (_urlsInBundles (_indexAssetFileUrls ex_json_font 2 ex_bundle_only)) =
       obj_get u (_urlsInBundles ex_bundle_only).
Proof.
  apply (font_without_png_one_url ex_json_font 2 "font.json" ex_bundle_only).
  - vm_compute. reflexivity.
  - vm_compute. reflexivity.
  - discriminate.
  - apply page_url_fixed_no_png. vm_compute. reflexivity.
Defined.

Lemma request_falls_back_to_loading_bundle_witness :
  ∃ s1 s2, _onBundleError ex_first_failed "failed" 0 ex_two_queued = Ok s1 ∧
           _onBundleLoaded ex_second_loaded 4 s1 = Ok s2 ∧
           obj_get "tex.png" (_fileRequests s2) = None ∧
           {| call_callback := 7; call_err := None;
              call_blobUrl := Some (getBlobUrl ex_res "tex.png") |} ∈ calls s2.
Proof.
  destruct (request_falls_back_to_loading_bundle ex_first_failed ex_second_loaded
              "failed" 0 4 ex_res "tex.png" "tex.png" [7] ex_two_queued)
    as (s1 & E1 & _ & _ & s2 & E & Hn & Hc).
  - apply reachable_wf, reachable_ex_two_queued.
  - vm_compute. reflexivity.
  - vm_compute. right. left.
  - vm_compute. reflexivity.
  - reflexivity.
  - reflexivity.
  - intros url' _. exists url'. reflexivity.
  - intros url' Hin.
    assert (E : obj_keys (_fileRequests ex_two_queued) = ["tex.png"])
      by (vm_compute; reflexivity).
    rewrite E in Hin. apply list_elem_of_singleton in Hin as ->.
    intros [Hn _]. vm_compute in Hn. discriminate Hn.
  - exists s1, s2. split; [exact E1|]. split; [exact E|]. split; [exact Hn|].
    apply Hc. left.
Defined.


Lemma reachable_hasUrl_has_bundle_witness :
  hasUrl "tex.png" ex_added = true ∧ bundles_of "tex.png" ex_added ≠ [].
Proof.
  assert (H : hasUrl "tex.png" ex_added = true) by (vm_compute; reflexivity).
  split; [exact H|].
  destruct (reachable_hasUrl_has_bundle ex_added reachable_ex_added "tex.png" H)
    as [[[Hn _] _]|(_ & Hne & _)]; [|exact Hne].
  vm_compute in Hn. discriminate Hn.
Defined.

Lemma onBundleError_throws_witness :
  _onBundleError ex_named_errored "failed" 0 ex_named_removed =
    Throw TypeError ex_named_removed ∧
  ∃ url requests,
    obj_get url (_fileRequests ex_named_removed) = Some requests ∧
    reads_method url ex_named_removed.
Proof.
  assert (H : _onBundleError ex_named_errored "failed" 0 ex_named_removed =
              Throw TypeError ex_named_removed) by (vm_compute; reflexivity).
  split; [exact H|].
  destruct (onBundleError_throws ex_named_errored "failed" 0 ex_named_removed
              TypeError ex_named_removed H) as (_ & Hq & _).
  exact Hq.
Defined.
